(** * Productivity-Agent: scoring, scheduling, evaluation and reflection

    A shallow embedding of the Python sources

      - [src/utils/helpers.py]            ([calculate_priority_score],
                                           [format_duration])
      - [src/agents/collector_agent.py]   ([CollectorAgent])
      - [src/agents/priority_agent.py]    ([PriorityAgent])
      - [src/agents/planner_agent.py]     ([PlannerAgent])
      - [src/evaluation/plan_evaluator.py] ([PlanEvaluator])
      - [src/agents/reminder_agent.py]    ([ReminderAgent])
      - [src/memory/memory_bank.py]       ([MemoryBank])
      - [src/agents/reflection_agent.py]  ([ReflectionAgent])
      - [src/agents/orchestrator.py]      ([AgentOrchestrator])

    followed by the properties the specification states about them and by
    further properties of the code.

    Conventions of the embedding.
      - A Python [int] is a [Z].  The priority score is a [float] of
        CPython, an IEEE binary64 number, with its rounding after every
        operation: the ranking decides on equalities of scores, and
        [2.6 + 0.2] is not the float [2.8].  The completion rate of the
        reflection is a float as well: [round((c / p) * 100, 1)] rounds the
        binary64 product, which is not always the rounding of the exact
        rate.  The evaluator's scores are small whole numbers, on which
        float arithmetic is exact, and are rationals [Q].
      - A task is a string-keyed dict.  It is a record of optional fields: a
        field that [dict.get] may find missing is an [option]; [deadline]
        has three states because [CollectorAgent._normalize] stores an
        explicit [None] while the plain-text path leaves the key out.  The
        values have the types of the specification's data model.  A task of
        a JSON input is a dict of JSON values of any type, which
        [_normalize] copies as they are; the agents after the collector are
        stated on the dicts that have a reading in the data model.
      - An exception is a value: functions that can raise return a [result].
        The three tools of [src/tools/habit_analyzer.py], which the
        reflection calls on the stored history, are parameters that return
        or raise.
      - Logging, tracing, metrics and wall-clock stamps are left out. *)

From Stdlib Require Import ZArith QArith Qround Qabs Qpower Lqa Lia.
From Stdlib Require Import Bool List String Ascii.
From Stdlib Require Import Permutation Sorted DecimalString SpecFloat.
From Stdlib Require DecimalZ DecimalPos.
Import ListNotations.

Local Open Scope string_scope.
Local Open Scope list_scope.
Local Open Scope Z_scope.

(** ** Python values and control *)

Module Py.

Inductive exn : Type :=
| KeyError
| TypeError
| ZeroDivisionError
| OverflowError.

Inductive result (A : Type) : Type :=
| Ok (a : A)
| Raise (e : exn).
Arguments Ok {A} a.
Arguments Raise {A} e.

Definition bind {A B : Type} (c : result A) (k : A -> result B) : result B :=
  match c with
  | Ok a => k a
  | Raise e => Raise e
  end.

(** [d[k]] on a key that may be missing. *)
Definition subscript {A : Type} (field : option A) : result A :=
  match field with
  | Some a => Ok a
  | None => Raise KeyError
  end.

(** [d.get(k, default)]. *)
Definition get {A : Type} (field : option A) (default : A) : A :=
  match field with
  | Some a => a
  | None => default
  end.

(** [[f(x) for x in l]] where [f] may raise: the first exception wins. *)
Fixpoint traverse {A B : Type} (f : A -> result B) (l : list A)
  : result (list B) :=
  match l with
  | [] => Ok []
  | x :: l' =>
      bind (f x) (fun y => bind (traverse f l') (fun ys => Ok (y :: ys)))
  end.

Definition len {A : Type} (l : list A) : Z := Z.of_nat (List.length l).

(** [sum(...)] over integers. *)
Definition sum (l : list Z) : Z := fold_left Z.add l 0.

Definition Qlt_bool (x y : Q) : bool := negb (Qle_bool y x).

(** Nearest integer, ties to the even one. *)
Definition round_half_even (x : Q) : Z :=
  let f := Qfloor x in
  match (x - inject_Z f ?= 1 # 2)%Q with
  | Lt => f
  | Gt => f + 1
  | Eq => if Z.even f then f else f + 1
  end.

(** [x] rounded to [ndigits] decimals, half to even. *)
Definition round (x : Q) (ndigits : nat) : Q :=
  let scale := inject_Z (10 ^ Z.of_nat ndigits) in
  (inject_Z (round_half_even (x * scale)) / scale)%Q.

(** [str(n)] on a non-negative or negative integer. *)
Definition str_int (n : Z) : string :=
  NilZero.string_of_int (Z.to_int n).

(** [f"{x:.1f}"] of a float whose exact value is [x]. *)
Definition format_1f (x : Q) : string :=
  let tenths := round_half_even (Qabs x * 10) in
  let body :=
    (str_int (tenths / 10) ++ "." ++ str_int (tenths mod 10))%string in
  if Qlt_bool x 0 then ("-" ++ body)%string else body.

(** [" ".join(parts)]. *)
Fixpoint join_space (parts : list string) : string :=
  match parts with
  | [] => ""
  | [p] => p
  | p :: rest => (p ++ " " ++ join_space rest)%string
  end.

(** [x in l] for strings. *)
Definition in_str (x : string) (l : list string) : bool :=
  existsb (String.eqb x) l.

(** [x in l] where both the element and the members may be [None]. *)
Definition opt_str_eqb (a b : option string) : bool :=
  match a, b with
  | None, None => true
  | Some x, Some y => String.eqb x y
  | _, _ => false
  end.

Definition in_opt_str (x : option string) (l : list (option string)) : bool :=
  existsb (opt_str_eqb x) l.

(** [sorted(l, key=key, reverse=reverse)] for keys that [<] orders.
    CPython's list sort is stable, and with [reverse=True] elements with
    equal keys still keep their original order.  A stable sort has one
    possible result, so insertion stands for it. *)
Section Sorted.
Context {A K : Type} (lt : K -> K -> bool) (key : A -> K).

(** [x] stood before every element of [l] in the input. *)
Fixpoint insert (reverse : bool) (x : A) (l : list A) : list A :=
  match l with
  | [] => [x]
  | y :: l' =>
      let y_first :=
        if reverse then lt (key x) (key y) else lt (key y) (key x) in
      if y_first then y :: insert reverse x l' else x :: l
  end.

Definition sorted (reverse : bool) (l : list A) : list A :=
  fold_right (insert reverse) [] l.
End Sorted.

(** [enumerate(l)]. *)
Fixpoint enumerate_from {A : Type} (start : Z) (l : list A) : list (Z * A) :=
  match l with
  | [] => []
  | x :: l' => (start, x) :: enumerate_from (start + 1) l'
  end.

Definition enumerate {A : Type} (l : list A) : list (Z * A) :=
  enumerate_from 0 l.

End Py.

Import Py.

Declare Scope result_scope.
Delimit Scope result_scope with result.
Notation "x <- c ;; k" := (bind c (fun x => k))
  (at level 61, c at next level, right associativity) : result_scope.
Local Open Scope result_scope.

(** ** IEEE binary64, the [float] of CPython

    Every operation returns the representable number nearest to the exact
    result, ties to even. *)

Module Binary64.

Definition prec : Z := 53.
Definition emax : Z := 1024.

Definition float : Type := spec_float.

(** [float(n)], for an integer within the range of the floats. *)
Definition of_int (n : Z) : float := binary_normalize prec emax n 0 false.

(** The float nearest to [n / d]; [lit 4 10] is the literal [0.4]. *)
Definition lit (n : Z) (d : positive) : float :=
  match n with
  | Z0 => S754_zero false
  | Zpos _ =>
      let '(mz, ez, lz) := SFdiv_core_binary prec emax n 0 (Zpos d) 0 in
      binary_round_aux prec emax false mz ez lz
  | Zneg m =>
      let '(mz, ez, lz) :=
        SFdiv_core_binary prec emax (Zpos m) 0 (Zpos d) 0 in
      binary_round_aux prec emax true mz ez lz
  end.

Definition of_Q (q : Q) : float := lit (Qnum q) (Qden q).

Definition add : float -> float -> float := SFadd prec emax.
Definition mul : float -> float -> float := SFmul prec emax.
Definition div : float -> float -> float := SFdiv prec emax.
Definition eqb : float -> float -> bool := SFeqb.
Definition ltb : float -> float -> bool := SFltb.
Definition leb : float -> float -> bool := SFleb.

Definition is_number (x : float) : bool :=
  match x with
  | S754_nan => false
  | _ => true
  end.

(** The exact value of a finite float. *)
Definition to_Q (x : float) : Q :=
  match x with
  | S754_finite s m e =>
      let v := (inject_Z (Zpos m) * Qpower 2 e)%Q in
      if s then (- v)%Q else v
  | _ => 0%Q
  end.

(** [round(x, ndigits)]: the exact value is rounded to [ndigits] decimals,
    half to even, and the float nearest to that decimal is returned; zeros,
    infinities and NaN are returned as they are. *)
Definition round (x : float) (ndigits : nat) : float :=
  match x with
  | S754_finite s _ _ =>
      let scale := 10 ^ Z.of_nat ndigits in
      let n := Py.round_half_even (to_Q x * inject_Z scale) in
      if n =? 0 then S754_zero s else lit n (Z.to_pos scale)
  | _ => x
  end.

(** [a / b] on integers: the float nearest to the quotient, and an
    [OverflowError] when that is beyond the largest float. *)
Definition truediv (a b : Z) : result float :=
  if b =? 0 then Raise ZeroDivisionError
  else
    let q := if b <? 0 then lit (- a) (Z.to_pos (- b))
             else lit a (Z.to_pos b) in
    match q with
    | S754_infinity _ => Raise OverflowError
    | _ => Ok q
    end.

(** *** What the operations compute

    The vocabulary of the rounding: a positive normal number, and the
    float nearest to a positive rational. *)

Definition normal (x : float) : bool :=
  match x with
  | S754_finite false m e =>
      (Zdigits2 (Zpos m) =? 53) && (-1074 <=? e) && (e <=? 971)
  | _ => false
  end.

(** [f] is the normal number nearest to [x], the one with the even
    mantissa when two are equally near: for the exponent [E] that puts
    [x / 2^E] between [2^52] and [2^53], [f] is [x / 2^E] rounded half to
    even, times [2^E]. *)
Definition nearest (x : Q) (f : float) : Prop :=
  normal f = true
  /\ exists E : Z,
       (inject_Z (2 ^ 52) * 2 ^ E <= x < inject_Z (2 ^ 53) * 2 ^ E)%Q
       /\ (to_Q f == inject_Z (Py.round_half_even (x / 2 ^ E)) * 2 ^ E)%Q.

(** The record of a right shift holds the integer part of [N / D] and
    where the remainder lies with respect to one half. *)
Definition locates (N D : Z) (mrs : shr_record) : Prop :=
  0 <= N /\ 0 < D /\ shr_m mrs = N / D
  /\ shr_r mrs = (D <=? 2 * (N mod D))
  /\ shr_s mrs = negb ((N mod D =? 0) || (2 * (N mod D) =? D)).

End Binary64.

Declare Scope binary64_scope.
Delimit Scope binary64_scope with f64.
Infix "+" := Binary64.add : binary64_scope.
Infix "*" := Binary64.mul : binary64_scope.
Infix "/" := Binary64.div : binary64_scope.

(** ** The data model *)

(** An instant.  [datetime.isoformat] renders the instants of one timezone
    one-to-one, so a record that stores the rendering stores the instant;
    it is counted in minutes. *)
Definition datetime : Type := Z.

Module Task.

(** The [deadline] key: missing, stored as [None], or a string. *)
Inductive deadline_field : Type :=
| NoKey
| IsNone
| Str (s : string).

(** A task dict.  [None] in an optional field is a missing key. *)
Record t : Type := Build {
  id : option string;
  name : option string;
  category : option string;
  priority : option string;
  estimated_duration : option Z;
  deadline : deadline_field;
  actual_duration : option Z;
  duration : option Z
}.

End Task.

Module ScoredTask.

Record details : Type := Details {
  urgency : Z;
  importance : Z;
  effort : Z;
  deadline_days : option Z
}.

(** The task dict after the scorer has written its keys into it. *)
Record t : Type := Build {
  task : Task.t;
  priority_score : Binary64.float;
  scoring_details : details;
  rank : option Z;
  adjusted_for_preferences : bool
}.

Definition set_rank (r : Z) (s : t) : t :=
  Build (task s) (priority_score s) (scoring_details s) (Some r)
        (adjusted_for_preferences s).

End ScoredTask.

Module Block.

Inductive kind : Type := task | break.

Definition kind_eqb (a b : kind) : bool :=
  match a, b with
  | task, task | break, break => true
  | _, _ => false
  end.

(** A schedule entry.  Break blocks carry no category and no priority. *)
Record t : Type := Build {
  type : kind;
  name : option string;
  category : option string;
  priority : option string;
  start_time : datetime;
  end_time : datetime;
  duration : Z
}.

End Block.

(** ** src/utils/helpers.py *)

Module Helpers.

Definition calculate_priority_score
    (urgency importance effort : Z) (deadline_days : option Z)
  : Binary64.float :=
  let base_score :=
    (Binary64.of_int urgency * Binary64.lit 4 10
     + Binary64.of_int importance * Binary64.lit 4 10)%f64 in
  let effort_factor :=
    (Binary64.of_int (6 - effort) * Binary64.lit 1 10)%f64 in
  let deadline_factor :=
    match deadline_days with
    | Some d =>
        if d <=? 1 then Binary64.lit 5 10
        else if d <=? 3 then Binary64.lit 3 10
        else if d <=? 7 then Binary64.lit 1 10
        else Binary64.of_int 0
    | None => Binary64.of_int 0
    end in
  let total_score := (base_score + effort_factor + deadline_factor)%f64 in
  Binary64.round total_score 2.

End Helpers.

(** ** src/memory/memory_bank.py *)

Module MemoryBank.

(** One entry of [task_history]. *)
Record task_record : Type := Record_ {
  task_id : option string;
  task_name : option string;
  category : option string;
  estimated_duration : option Z;
  actual_duration : option Z;
  completed_at : datetime;
  priority : option string;
  success : bool
}.

(** [self.memory]: the preference the scorer reads and the history.
    The other preferences, [learned_patterns] and [metadata] play no part
    in what follows. *)
Record memory : Type := Memory {
  morning_categories : option (list string);
  task_history : list task_record
}.

(** The bank: the dict in memory and the copy [save] wrote to disk. *)
Record t : Type := Build {
  in_memory : memory;
  on_disk : memory
}.

Definition save (self : t) : t :=
  Build (in_memory self) (in_memory self).

(** [get_preference("morning_categories", default)]. *)
Definition get_morning_categories (self : t) (default : list string)
  : list string :=
  Py.get (morning_categories (in_memory self)) default.

(** [l[-1000:]]. *)
Definition last_1000 {A : Type} (l : list A) : list A :=
  skipn (List.length l - 1000)%nat l.

Definition store_task_completion
    (self : t) (task : Task.t) (completion_time : datetime)
    (actual_duration_minutes : option Z) : t :=
  let task_record :=
    Record_ (Task.id task) (Task.name task) (Task.category task)
            (Task.estimated_duration task) actual_duration_minutes
            completion_time (Task.priority task) true in
  let history := task_history (in_memory self) ++ [task_record] in
  let history :=
    if Py.len history >? 1000 then last_1000 history else history in
  save (Build (Memory (morning_categories (in_memory self)) history)
              (on_disk self)).

End MemoryBank.

(** ** src/agents/priority_agent.py *)

Module PriorityAgent.

Section Agent.

(** [(datetime.fromisoformat(s) - datetime.now()).days], or [None] when
    parsing or the subtraction raises. *)
Variable days_remaining : string -> option Z.

Variable memory_bank : MemoryBank.t.

Definition priority_map (p : string) : option Z :=
  if String.eqb p "high" then Some 5
  else if String.eqb p "medium" then Some 3
  else if String.eqb p "low" then Some 1
  else None.

Definition importance_map (c : string) : option Z :=
  if String.eqb c "meeting" then Some 4
  else if String.eqb c "coding" then Some 3
  else if String.eqb c "review" then Some 3
  else if String.eqb c "planning" then Some 3
  else if String.eqb c "learning" then Some 2
  else if String.eqb c "email" then Some 2
  else if String.eqb c "general" then Some 2
  else None.

Definition _score_task (task : Task.t) : ScoredTask.t :=
  let urgency :=
    Py.get (priority_map (Py.get (Task.priority task) "medium")) 3 in
  let importance :=
    Py.get (importance_map (Py.get (Task.category task) "general")) 2 in
  let duration := Py.get (Task.estimated_duration task) 60 in
  let effort :=
    if duration <=? 30 then 1
    else if duration <=? 60 then 2
    else if duration <=? 120 then 3
    else if duration <=? 180 then 4
    else 5 in
  let deadline_days :=
    match Task.deadline task with
    | Task.Str s =>
        if String.eqb s "" then None
        else match days_remaining s with
             | Some d => Some (Z.max d 0)
             | None => None
             end
    | _ => None
    end in
  let score :=
    Helpers.calculate_priority_score
      urgency importance effort deadline_days in
  ScoredTask.Build task score
    (ScoredTask.Details urgency importance effort deadline_days)
    None false.

(** [for idx, task in enumerate(tasks): task["rank"] = idx + 1]. *)
Definition assign_ranks (tasks : list ScoredTask.t) : list ScoredTask.t :=
  map (fun it => ScoredTask.set_rank (fst it + 1) (snd it))
      (Py.enumerate tasks).

Definition adjust (preferred_categories : list string) (s : ScoredTask.t)
  : ScoredTask.t :=
  let in_preferred :=
    match Task.category (ScoredTask.task s) with
    | Some c => Py.in_str c preferred_categories
    | None => false
    end in
  if in_preferred then
    ScoredTask.Build (ScoredTask.task s)
      (ScoredTask.priority_score s + Binary64.lit 2 10)%f64
      (ScoredTask.scoring_details s) (ScoredTask.rank s) true
  else s.

Definition _apply_user_preferences (tasks : list ScoredTask.t)
  : list ScoredTask.t :=
  let preferred_categories :=
    MemoryBank.get_morning_categories memory_bank ["meeting"; "review"] in
  let tasks := map (adjust preferred_categories) tasks in
  let tasks :=
    Py.sorted Binary64.ltb ScoredTask.priority_score true tasks in
  assign_ranks tasks.

Record prioritized : Type := Prioritized {
  prioritized_tasks : list ScoredTask.t;
  task_count : Z
}.

(** The dicts of [collected_data["tasks"]] are distinct objects (the
    collector builds one per task), so writing into one of them changes
    one list position only. *)
Definition prioritize_tasks (tasks : list Task.t) : prioritized :=
  let scored_tasks := map _score_task tasks in
  let sorted_tasks :=
    Py.sorted Binary64.ltb ScoredTask.priority_score true scored_tasks in
  let sorted_tasks := assign_ranks sorted_tasks in
  let adjusted_tasks := _apply_user_preferences sorted_tasks in
  Prioritized adjusted_tasks (Py.len adjusted_tasks).

End Agent.

End PriorityAgent.

(** ** src/agents/planner_agent.py *)

Module Plan.

(** The dict [create_plan] returns and [evaluate_plan] reads.  The
    rendered text ([formatted_schedule]) is left out.  [includes_breaks]
    is a key the evaluator looks up with [plan.get]. *)
Record t : Type := Build {
  scheduled_tasks : list Block.t;
  task_count : Z;
  total_work_minutes : Z;
  includes_breaks : option bool
}.

End Plan.

Module PlannerAgent.

(** What [x.get("deadline", "")] yields. *)
Inductive deadline_key : Type :=
| KNone
| KStr (s : string).

Definition sort_key_t : Type := (Z * deadline_key)%type.

Definition priority_rank (p : string) : Z :=
  if String.eqb p "high" then 1
  else if String.eqb p "medium" then 2
  else if String.eqb p "low" then 3
  else 2.

Definition sort_key (x : Task.t) : result sort_key_t :=
  p <- Py.subscript (Task.priority x) ;;
  Ok (priority_rank p,
      match Task.deadline x with
      | Task.NoKey => KStr ""
      | Task.IsNone => KNone
      | Task.Str s => KStr s
      end).

(** [a < b] on the key tuples: the ranks decide unless they are equal;
    then the deadlines do, and [None] against a string raises. *)
Definition key_lt (a b : sort_key_t) : result bool :=
  if fst a =? fst b then
    match snd a, snd b with
    | KStr s1, KStr s2 => Ok (String.ltb s1 s2)
    | KNone, KNone => Ok false
    | _, _ => Raise TypeError
    end
  else Ok (fst a <? fst b).

Definition comparable (a b : sort_key_t) : bool :=
  match key_lt a b with
  | Ok _ => true
  | Raise _ => false
  end.

Definition key_ltb (a b : sort_key_t) : bool :=
  match key_lt a b with
  | Ok r => r
  | Raise _ => false
  end.

Fixpoint all_comparable (keys : list sort_key_t) : bool :=
  match keys with
  | [] => true
  | k :: rest => forallb (comparable k) rest && all_comparable rest
  end.

(** [sorted(tasks, key=...)].  The keys are computed first.  A sort that
    ends without comparing two keys that cannot be compared would not know
    their order, so the call raises exactly when such a pair is present;
    otherwise it is the stable sort. *)
Definition sorted_tasks (tasks : list Task.t) : result (list Task.t) :=
  keys <- Py.traverse sort_key tasks ;;
  if all_comparable keys then
    Ok (map snd (Py.sorted key_ltb fst false (combine keys tasks)))
  else Raise TypeError.

Section Agent.

(** [now_local.replace(hour=9, minute=0, second=0, microsecond=0)]. *)
Variable anchor : datetime.

(** The first and the last minute a [datetime] can hold. *)
Variables earliest latest : datetime.

(** [t + timedelta(minutes=minutes)]. *)
Definition add_minutes (t : datetime) (minutes : Z) : result datetime :=
  let t' := t + minutes in
  if (earliest <=? t') && (t' <=? latest) then Ok t'
  else Raise OverflowError.

(** The body of [for t in tasks], from [current] on. *)
Fixpoint layout (current : datetime) (tasks : list Task.t)
  : result (list Block.t) :=
  match tasks with
  | [] => Ok []
  | t :: rest =>
      let duration := Py.get (Task.estimated_duration t) 60 in
      let start_time := current in
      end_time <- add_minutes start_time duration ;;
      name <- Py.subscript (Task.name t) ;;
      category <- Py.subscript (Task.category t) ;;
      priority <- Py.subscript (Task.priority t) ;;
      let task_block :=
        Block.Build Block.task (Some name) (Some category) (Some priority)
                    start_time end_time duration in
      let break_len := if duration >=? 60 then 15 else 5 in
      let break_start := end_time in
      break_end <- add_minutes break_start break_len ;;
      let break_block :=
        Block.Build Block.break
                    (Some (Py.str_int break_len ++ "-minute break")%string)
                    None None break_start break_end break_len in
      let current := break_end in
      schedule <- layout current rest ;;
      Ok (task_block :: break_block :: schedule)
  end.

Definition _schedule_tasks (tasks : list Task.t) : result (list Block.t) :=
  tasks <- sorted_tasks tasks ;;
  layout anchor tasks.

Definition is_type (k : Block.kind) (b : Block.t) : bool :=
  Block.kind_eqb (Block.type b) k.

(** The scheduler reads the task's own keys only, so it is given the
    tasks without the scorer's annotations. *)
Definition create_plan (prioritized_tasks : list Task.t) : result Plan.t :=
  schedule <- _schedule_tasks prioritized_tasks ;;
  let task_items := filter (is_type Block.task) schedule in
  let total_work := Py.sum (map Block.duration task_items) in
  Ok (Plan.Build schedule (Py.len task_items) total_work None).

End Agent.

End PlannerAgent.

(** ** src/evaluation/plan_evaluator.py *)

Module PlanEvaluator.

(** The [user_preferences] dict of [evaluate_plan]. *)
Record preferences : Type := Preferences {
  max_work_hours : option Q
}.

Definition no_preferences : preferences := Preferences None.

(** [max(0, score)]. *)
Definition max0 (score : Q) : Q :=
  if Py.Qlt_bool 0 score then score else 0%Q.

Definition is_empty {A : Type} (l : list A) : bool :=
  match l with
  | [] => true
  | _ => false
  end.

Definition total_duration_of (scheduled_tasks : list Block.t) : Z :=
  Py.sum (map Block.duration scheduled_tasks).

Definition _score_time_efficiency (plan : Plan.t) : Q :=
  let score := 25%Q in
  let scheduled_tasks := Plan.scheduled_tasks plan in
  if is_empty scheduled_tasks then 0%Q
  else
    let total_duration := total_duration_of scheduled_tasks in
    let score :=
      if total_duration <? 360 then (score - 5)%Q
      else if total_duration >? 480 then (score - 5)%Q
      else score in
    let score :=
      if Py.len scheduled_tasks <? 3 then (score - 3)%Q else score in
    max0 score.

Definition _score_priority_alignment
    (plan : Plan.t) (original_tasks : list Task.t) : Q :=
  let score := 25%Q in
  let scheduled_tasks := Plan.scheduled_tasks plan in
  let score :=
    fold_left
      (fun score it =>
         let idx := fst it in
         let task_priority := Py.get (Block.priority (snd it)) "medium" in
         if String.eqb task_priority "high" && (idx >? 2) then (score - 3)%Q
         else if String.eqb task_priority "low" && (idx =? 0)
              then (score - 2)%Q
              else score)
      (Py.enumerate scheduled_tasks) score in
  max0 score.

Definition _score_feasibility (plan : Plan.t) : Q :=
  let score := 25%Q in
  let scheduled_tasks := Plan.scheduled_tasks plan in
  let total_duration := total_duration_of scheduled_tasks in
  let score :=
    if total_duration >? 540 then (score - 10)%Q
    else if total_duration >? 480 then (score - 5)%Q
    else score in
  let score :=
    fold_left
      (fun score task =>
         if Block.duration task >? 180 then (score - 2)%Q else score)
      scheduled_tasks score in
  max0 score.

Definition _score_work_life_balance
    (plan : Plan.t) (user_preferences : preferences) : Q :=
  let score := 25%Q in
  let has_breaks := Py.get (Plan.includes_breaks plan) false in
  let score := if negb has_breaks then (score - 5)%Q else score in
  let total_duration := total_duration_of (Plan.scheduled_tasks plan) in
  let score := if total_duration >? 600 then (score - 10)%Q else score in
  let preferred_hours := Py.get (max_work_hours user_preferences) 8%Q in
  let score :=
    if Py.Qlt_bool (preferred_hours * 60) (inject_Z total_duration)
    then (score - 5)%Q else score in
  max0 score.

Definition _calculate_grade (total_score : Q) : string :=
  if Qle_bool 90 total_score then "A"
  else if Qle_bool 80 total_score then "B"
  else if Qle_bool 70 total_score then "C"
  else if Qle_bool 60 total_score then "D"
  else "F".

Record scores : Type := Scores {
  time_efficiency : Q;
  priority_alignment : Q;
  feasibility : Q;
  work_life_balance : Q
}.

(** The result of [evaluate_plan], without the advisory texts. *)
Record evaluation : Type := Evaluation {
  total_score : Q;
  max_score : Z;
  grade : string;
  scores_breakdown : scores
}.

Definition evaluate_plan
    (plan : Plan.t) (original_tasks : list Task.t)
    (user_preferences : option preferences) : evaluation :=
  let scores :=
    Scores (_score_time_efficiency plan)
           (_score_priority_alignment plan original_tasks)
           (_score_feasibility plan)
           (_score_work_life_balance
              plan (Py.get user_preferences no_preferences)) in
  let total_score :=
    (0 + time_efficiency scores + priority_alignment scores
     + feasibility scores + work_life_balance scores)%Q in
  let grade := _calculate_grade total_score in
  Evaluation total_score 100 grade scores.

End PlanEvaluator.

(** ** src/agents/reflection_agent.py *)

Module ReflectionAgent.

Record completion_analysis : Type := Analysis {
  planned_tasks : Z;
  completed_tasks : Z;
  incomplete_tasks : Z;
  completion_rate : Binary64.float;
  status : string
}.

(** One entry of the [top_categories] the habit analyzer returns. *)
Record top_category : Type := Category {
  category : option string;
  count : Z;
  avg_duration : Binary64.float
}.

(** What [_analyze_patterns] returns: the dict that holds a [message] only,
    or the insights. *)
Inductive pattern_insights : Type :=
| Insufficient
| Insights (productivity_hours : list Z) (estimation_tendency : string)
           (top_categories : list top_category) (pattern_count : Z).

(** [patterns.get("productivity_hours")]. *)
Definition get_productivity_hours (patterns : pattern_insights)
  : option (list Z) :=
  match patterns with
  | Insufficient => None
  | Insights productivity_hours _ _ _ => Some productivity_hours
  end.

(** [patterns.get("estimation_tendency")]. *)
Definition get_estimation_tendency (patterns : pattern_insights)
  : option string :=
  match patterns with
  | Insufficient => None
  | Insights _ estimation_tendency _ _ => Some estimation_tendency
  end.

Record learning_insights : Type := Learning {
  average_duration : option Binary64.float;
  task_count : Z;
  insight : string
}.

Record decision : Type := Decision {
  needed : bool;
  reason : string;
  decision_incomplete_tasks : option Z;
  decision_completion_rate : option Binary64.float
}.

Record reflection : Type := Reflection {
  result_completion_analysis : completion_analysis;
  result_pattern_insights : pattern_insights;
  result_learning_insights : learning_insights;
  replan_needed : bool;
  replan_reason : string;
  recommendations : list string
}.

(** [rate >= 90] compares the float with the integer exactly. *)
Definition _get_completion_status (rate : Binary64.float) : string :=
  if Binary64.leb (Binary64.of_int 90) rate then "excellent"
  else if Binary64.leb (Binary64.of_int 70) rate then "good"
  else if Binary64.leb (Binary64.of_int 50) rate then "fair"
  else "needs_improvement".

Definition _analyze_completion (completed planned : list Task.t)
  : result completion_analysis :=
  let planned_count := Py.len planned in
  let completed_count := Py.len completed in
  completion_rate <-
    (if planned_count =? 0 then Ok (Binary64.of_int 0)
     else
       q <- Binary64.truediv completed_count planned_count ;;
       Ok (q * Binary64.of_int 100)%f64) ;;
  let incomplete := planned_count - completed_count in
  Ok (Analysis planned_count completed_count incomplete
               (Binary64.round completion_rate 1)
               (_get_completion_status completion_rate)).

Section Agent.

(** The three tools of the habit analyzer ([src/tools/habit_analyzer.py]),
    each on the stored history: the exception the tool raises there, or, of
    the dict it returns, the value of the key [_analyze_patterns] reads
    ([None] when the dict has no such key). *)
Variable analyze_productivity_hours :
  list MemoryBank.task_record -> result (option (list Z)).
Variable analyze_task_duration_accuracy :
  list MemoryBank.task_record -> result (option string).
Variable identify_task_patterns :
  list MemoryBank.task_record -> result (option (list top_category)).

Definition _analyze_patterns (history : list MemoryBank.task_record)
  : result pattern_insights :=
  if PlanEvaluator.is_empty history then Ok Insufficient
  else
    productivity <- analyze_productivity_hours history ;;
    duration_accuracy <- analyze_task_duration_accuracy history ;;
    patterns <- identify_task_patterns history ;;
    Ok (Insights (Py.get productivity [])
                 (Py.get duration_accuracy "unknown")
                 (Py.get patterns [])
                 (Py.len history)).

(** Every entry of [completed] is a dict here, so the filter on
    [isinstance(t, dict)] keeps them all. *)
Definition _learn_from_session (completed : list Task.t)
  : result learning_insights :=
  let valid_completed := completed in
  if PlanEvaluator.is_empty valid_completed then
    Ok (Learning None 0 "No completed tasks to learn from yet.")
  else
    let total_duration :=
      Py.sum
        (map (fun t =>
                Py.get (Task.actual_duration t)
                       (Py.get (Task.duration t) 0))
             valid_completed) in
    avg_duration <-
      Binary64.truediv total_duration (Py.len valid_completed) ;;
    Ok (Learning (Some avg_duration) (Py.len valid_completed)
                 "Learned from completed tasks successfully.").

Definition is_high (t : Task.t) : bool :=
  match Task.priority t with
  | Some p => String.eqb p "high"
  | None => false
  end.

(** The rate is formatted only when it is below 50, a finite float. *)
Definition _should_replan (completed planned : list Task.t)
  : result decision :=
  let planned_count := Py.len planned in
  let completed_count := Py.len completed in
  if planned_count =? 0 then
    Ok (Decision false "No planned tasks to review" None None)
  else
    q <- Binary64.truediv completed_count planned_count ;;
    let completion_rate := (q * Binary64.of_int 100)%f64 in
    let replan_needed := false in
    let reasons := [] in
    let '(replan_needed, reasons) :=
      if Binary64.ltb completion_rate (Binary64.of_int 50) then
        (true,
         reasons ++
           [("Low completion rate ("
             ++ Py.format_1f (Binary64.to_Q completion_rate)
             ++ "%). " ++ "Tasks may need re-prioritization.")%string])
      else (replan_needed, reasons) in
    let incomplete_high_priority :=
      filter
        (fun t =>
           is_high t
           && negb (Py.in_opt_str (Task.id t) (map Task.id completed)))
        planned in
    let '(replan_needed, reasons) :=
      if Py.len incomplete_high_priority >=? 2 then
        (true,
         reasons ++
           [(Py.str_int (Py.len incomplete_high_priority)
             ++ " high-priority tasks incomplete. "
             ++ "Recommend re-planning remaining tasks.")%string])
      else (replan_needed, reasons) in
    Ok (Decision replan_needed
          (if PlanEvaluator.is_empty reasons
           then "On track, no re-planning needed"
           else Py.join_space reasons)
          (Some (planned_count - completed_count))
          (Some (Binary64.round completion_rate 1))).

Definition _generate_recommendations
    (completion : completion_analysis) (patterns : pattern_insights)
    (learnings : learning_insights)
  : list string :=
  let recommendations := [] in
  let recommendations :=
    if String.eqb (status completion) "needs_improvement" then
      recommendations
        ++ ["Consider reducing daily workload or extending deadlines"]
    else if String.eqb (status completion) "excellent" then
      recommendations ++ ["Great job! You can handle slightly more tasks"]
    else recommendations in
  let recommendations :=
    match get_productivity_hours patterns with
    | Some (peak :: _) =>
        recommendations
          ++ [("Schedule critical tasks around " ++ Py.str_int peak
               ++ ":00 for best results")%string]
    | _ => recommendations
    end in
  match get_estimation_tendency patterns with
  | Some tendency =>
      if String.eqb tendency "underestimates" then
        recommendations ++ ["Add 20-30% buffer to your time estimates"]
      else if String.eqb tendency "overestimates" then
        recommendations ++ ["You can reduce time estimates by 15-20%"]
      else recommendations
  | None => recommendations
  end.

(** [reflect_and_learn], with the [task_history] it reads from the memory
    bank.  The steps run in the order of the source, so that the first
    exception is the one raised.  [_update_memory] finds no
    [patterns_learned] in the learning insights and stores nothing. *)
Definition reflect_and_learn
    (task_history : list MemoryBank.task_record)
    (completed_tasks planned_tasks : option (list Task.t))
  : result reflection :=
  let completed := Py.get completed_tasks [] in
  let planned := Py.get planned_tasks [] in
  completion_analysis <- _analyze_completion completed planned ;;
  pattern_insights <- _analyze_patterns task_history ;;
  learning_insights <- _learn_from_session completed ;;
  replan_decision <- _should_replan completed planned ;;
  let recommendations :=
    _generate_recommendations completion_analysis pattern_insights
      learning_insights in
  Ok (Reflection completion_analysis pattern_insights learning_insights
                 (needed replan_decision) (reason replan_decision)
                 recommendations).

End Agent.

End ReflectionAgent.

(** ** Vocabulary of the statements *)

Module Spec.

(** In [Py.insert], whether [y] has to stand before [x]. *)
Definition goes_first {A K : Type}
    (lt : K -> K -> bool) (key : A -> K) (reverse : bool) (x y : A) : bool :=
  if reverse then lt (key x) (key y) else lt (key y) (key x).

(** The order a stable sort gives to a list that was in order [S]:
    by key, and by [S] where the keys tie. *)
Definition by_key_then {A K : Type}
    (lt : K -> K -> bool) (key : A -> K) (reverse : bool)
    (S : A -> A -> Prop) (a b : A) : Prop :=
  goes_first lt key reverse a b = false
  /\ (goes_first lt key reverse b a = false -> S a b).

(** *** The scorer *)

(** The deadline bonus, as the specification tabulates it. *)
Definition deadline_bonus (deadline_days : option Z) : Q :=
  match deadline_days with
  | None => 0%Q
  | Some d =>
      if d <=? 1 then 0.5%Q
      else if d <=? 3 then 0.3%Q
      else if d <=? 7 then 0.1%Q
      else 0%Q
  end.

(** The composite score, as the specification writes it. *)
Definition composite_score
    (urgency importance effort : Z) (deadline_days : option Z) : Q :=
  Py.round
    (0.4 * inject_Z urgency + 0.4 * inject_Z importance
     + 0.1 * (6 - inject_Z effort) + deadline_bonus deadline_days)%Q
    2.

(** [deadline_days], as the specification defines it: known for a
    deadline that is present and parses, unknown otherwise. *)
Definition deadline_days_of
    (days_remaining : string -> option Z) (deadline : Task.deadline_field)
  : option Z :=
  match deadline with
  | Task.Str s =>
      if String.eqb s "" then None
      else option_map (Z.max 0) (days_remaining s)
  | _ => None
  end.

(** One [deadline_days] for each step of the bonus. *)
Definition deadline_cases : list (option Z) :=
  [None; Some 0; Some 2; Some 5; Some 8].

(** The floats [calculate_priority_score] can return on the factors the
    scorer computes. *)
Definition possible_scores : list Binary64.float :=
  flat_map
    (fun u =>
       flat_map
         (fun i =>
            flat_map
              (fun e =>
                 map (Helpers.calculate_priority_score u i e) deadline_cases)
              [1; 2; 3; 4; 5])
         [4; 3; 2])
    [5; 3; 1].

(** The score of a task before the preference adjustment. *)
Definition base_score
    (days_remaining : string -> option Z) (t : Task.t) : Binary64.float :=
  ScoredTask.priority_score (PriorityAgent._score_task days_remaining t).

(** Whether the task's category is one of the [morning_categories]. *)
Definition preferred (memory_bank : MemoryBank.t) (t : Task.t) : bool :=
  match Task.category t with
  | Some c =>
      Py.in_str c
        (MemoryBank.get_morning_categories memory_bank ["meeting"; "review"])
  | None => false
  end.

(** The score of a task after the preference adjustment. *)
Definition final_score
    (days_remaining : string -> option Z) (memory_bank : MemoryBank.t)
    (t : Task.t) : Binary64.float :=
  if preferred memory_bank t
  then (base_score days_remaining t + Binary64.lit 2 10)%f64
  else base_score days_remaining t.

(** What the ranking looks at in a scored task: the task, its score and
    whether the score was adjusted.  The rank is written afterwards. *)
Definition view_t : Type := (Task.t * Binary64.float * bool)%type.

Definition view (s : ScoredTask.t) : view_t :=
  (ScoredTask.task s, ScoredTask.priority_score s,
   ScoredTask.adjusted_for_preferences s).

Definition view_task (v : view_t) : Task.t := fst (fst v).
Definition view_score (v : view_t) : Binary64.float := snd (fst v).
Definition view_adjusted (v : view_t) : bool := snd v.

Definition scored_view
    (days_remaining : string -> option Z) (t : Task.t) : view_t :=
  (t, base_score days_remaining t, false).

Definition adjust_view (memory_bank : MemoryBank.t) (v : view_t) : view_t :=
  if preferred memory_bank (view_task v)
  then (view_task v, (view_score v + Binary64.lit 2 10)%f64, true)
  else v.

Definition final_view
    (days_remaining : string -> option Z) (memory_bank : MemoryBank.t)
    (t : Task.t) : view_t :=
  (t, final_score days_remaining memory_bank t, preferred memory_bank t).

(** The first ranking, by the score before the adjustment, and the second,
    by the final score, as orders of the tasks. *)
Definition first_ranking
    (days_remaining : string -> option Z) (tasks : list Task.t)
  : list Task.t :=
  Py.sorted Binary64.ltb (base_score days_remaining) true tasks.

Definition second_ranking
    (days_remaining : string -> option Z) (memory_bank : MemoryBank.t)
    (tasks : list Task.t) : list Task.t :=
  Py.sorted Binary64.ltb (final_score days_remaining memory_bank) true
    (first_ranking days_remaining tasks).

(** The ranking [prioritize_tasks] returns. *)
Definition ranking
    (days_remaining : string -> option Z) (memory_bank : MemoryBank.t)
    (tasks : list Task.t) : list ScoredTask.t :=
  PriorityAgent.prioritized_tasks
    (PriorityAgent.prioritize_tasks days_remaining memory_bank tasks).

(** Having final score [v] and having been adjusted or not, as [b] says. *)
Definition tie_class (v : Binary64.float) (b : bool) (x : view_t) : bool :=
  Binary64.eqb (view_score x) v && Bool.eqb (view_adjusted x) b.

(** [a] stands before [b] in the input. *)
Definition in_input_order {A : Type} (input : list A) (a b : A) : Prop :=
  exists i j : nat,
    (i < j)%nat /\ nth_error input i = Some a /\ nth_error input j = Some b.

(** Ties of the final score keep the order of the input list. *)
Definition ties_keep_input_order
    (tasks : list Task.t) (ranking : list ScoredTask.t) : Prop :=
  forall (i j : nat) (si sj : ScoredTask.t),
    (i < j)%nat ->
    nth_error ranking i = Some si -> nth_error ranking j = Some sj ->
    Binary64.eqb (ScoredTask.priority_score si)
                 (ScoredTask.priority_score sj) = true ->
    in_input_order tasks (ScoredTask.task si) (ScoredTask.task sj).

(** *** The scheduler *)

(** The sort key of a task that has a priority. *)
Definition task_rank (t : Task.t) : Z :=
  match Task.priority t with
  | Some p => PlannerAgent.priority_rank p
  | None => 2
  end.

Definition deadline_key_of (t : Task.t) : PlannerAgent.deadline_key :=
  match Task.deadline t with
  | Task.NoKey => PlannerAgent.KStr ""
  | Task.IsNone => PlannerAgent.KNone
  | Task.Str s => PlannerAgent.KStr s
  end.

Definition key_of (t : Task.t) : PlannerAgent.sort_key_t :=
  (task_rank t, deadline_key_of t).

(** The deadline as the sort reads it: a missing one is the empty string. *)
Definition deadline_text (t : Task.t) : string :=
  match Task.deadline t with
  | Task.Str s => s
  | _ => ""
  end.

Definition has_deadline (t : Task.t) : bool :=
  negb (String.eqb (deadline_text t) "").

(** By rank, then by deadline text. *)
Definition planner_le (a b : Task.t) : Prop :=
  task_rank a < task_rank b
  \/ (task_rank a = task_rank b
      /\ String.leb (deadline_text a) (deadline_text b) = true).

Definition same_key (r : Z) (d : string) (t : Task.t) : bool :=
  (task_rank t =? r) && String.eqb (deadline_text t) d.

(** Every task without a deadline stands after every task with one. *)
Definition undated_after_dated (order : list Task.t) : Prop :=
  forall (i j : nat) (a b : Task.t),
    nth_error order i = Some a -> nth_error order j = Some b ->
    has_deadline a = false -> has_deadline b = true ->
    (j < i)%nat.

(** What a task block shows of its task. *)
Definition task_line (t : Task.t)
  : option string * option string * option string * Z :=
  (Task.name t, Task.category t, Task.priority t,
   Py.get (Task.estimated_duration t) 60).

Definition block_line (b : Block.t)
  : option string * option string * option string * Z :=
  (Block.name b, Block.category b, Block.priority b, Block.duration b).

Definition is_task (b : Block.t) : bool :=
  Block.kind_eqb (Block.type b) Block.task.

Definition is_break (b : Block.t) : bool :=
  Block.kind_eqb (Block.type b) Block.break.

Definition break_after (task_minutes : Z) : Z :=
  if task_minutes >=? 60 then 15 else 5.

(** A schedule laid out from [current]: task, break, task, break, ...,
    each block starting where the one before it ends. *)
Inductive laid_out : datetime -> list Block.t -> Prop :=
| laid_out_nil (current : datetime) : laid_out current []
| laid_out_cons (current : datetime) (tb bb : Block.t) (rest : list Block.t) :
    Block.type tb = Block.task ->
    Block.start_time tb = current ->
    Block.end_time tb = Block.start_time tb + Block.duration tb ->
    Block.type bb = Block.break ->
    Block.start_time bb = Block.end_time tb ->
    Block.duration bb = break_after (Block.duration tb) ->
    Block.end_time bb = Block.start_time bb + Block.duration bb ->
    laid_out (Block.end_time bb) rest ->
    laid_out current (tb :: bb :: rest).

(** *** The store *)

(** The record [store_task_completion] appends. *)
Definition record_of
    (task : Task.t) (completion_time : datetime)
    (actual_duration_minutes : option Z) : MemoryBank.task_record :=
  MemoryBank.Record_ (Task.id task) (Task.name task) (Task.category task)
    (Task.estimated_duration task) actual_duration_minutes completion_time
    (Task.priority task) true.

Definition completion : Type := (Task.t * datetime * option Z)%type.

(** A run of [store_task_completion] calls. *)
Definition store_all (bank : MemoryBank.t) (calls : list completion)
  : MemoryBank.t :=
  fold_left
    (fun b c =>
       MemoryBank.store_task_completion b (fst (fst c)) (snd (fst c)) (snd c))
    calls bank.

Definition history (bank : MemoryBank.t) : list MemoryBank.task_record :=
  MemoryBank.task_history (MemoryBank.in_memory bank).

(** *** The reflection *)

Definition low_rate_reason : string :=
  "Low completion rate (0.0%). Tasks may need re-prioritization.".

Definition two_high_reason : string :=
  "2 high-priority tasks incomplete. Recommend re-planning remaining tasks.".

(** [(completed_count / planned_count) * 100], the float the analysis
    rounds and classifies when something was planned. *)
Definition float_rate (completed planned : list Task.t) : Binary64.float :=
  (Binary64.lit (Py.len completed) (Z.to_pos (Py.len planned))
   * Binary64.of_int 100)%f64.

(** The completion rate as a number. *)
Definition exact_rate (completed planned : list Task.t) : Q :=
  (100 * inject_Z (Py.len completed) / inject_Z (Py.len planned))%Q.

(** What a reflection reports as the completion rate. *)
Definition reported_rate (r : ReflectionAgent.reflection) : Binary64.float :=
  ReflectionAgent.completion_rate
    (ReflectionAgent.result_completion_analysis r).

End Spec.


(** ** Concrete inputs *)

Module Examples.

(** No deadline parses. *)
Definition no_deadlines (s : string) : option Z := None.

(** A bank that stores nothing. *)
Definition empty_bank : MemoryBank.t :=
  MemoryBank.Build (MemoryBank.Memory None []) (MemoryBank.Memory None []).

(** A task as the collector's plain-text path builds it. *)
Definition plain (name category priority : string) (minutes : Z) : Task.t :=
  Task.Build None (Some name) (Some category) (Some priority) (Some minutes)
             Task.NoKey None None.

(** A review of one hour: 2.8 before the adjustment, 3.0 after it. *)
Definition review_task : Task.t := plain "Review" "review" "medium" 60.

(** Two and a half hours of high priority: 3.0, never adjusted. *)
Definition long_task : Task.t := plain "Migration" "general" "high" 150.

(** Two tasks of high priority: the first with a deadline, the second as
    the plain-text path builds it, with no deadline key. *)
Definition dated_task : Task.t :=
  Task.Build None (Some "Report") (Some "general") (Some "high") (Some 60)
             (Task.Str "2025-12-01") None None.

Definition undated_task : Task.t := plain "Inbox" "general" "high" 30.

(** A task as the collector's JSON path builds it when the input gives no
    deadline: the key is there and holds [None]. *)
Definition none_deadline_task : Task.t :=
  Task.Build None (Some "Call") (Some "general") (Some "high") (Some 30)
             Task.IsNone (Some 0) None.

(** 09:00 as minute 540 of a day of 1440 minutes. *)
Definition nine : datetime := 540.
Definition midnight : datetime := 0.
Definition last_minute : datetime := 1439.

(** The schedule of the dated and the undated task. *)
Definition two_task_schedule : list Block.t :=
  Eval vm_compute in
    match PlannerAgent._schedule_tasks nine midnight last_minute
            [dated_task; undated_task] with
    | Ok schedule => schedule
    | Raise _ => []
    end.

(** The stand-up of the specification's scenario, and its plan. *)
Definition standup : Task.t := plain "Standup" "meeting" "high" 30.

Definition standup_plan : Plan.t :=
  Eval vm_compute in
    match PlannerAgent.create_plan nine midnight last_minute [standup] with
    | Ok plan => plan
    | Raise _ => Plan.Build [] 0 0 None
    end.

(** Two planned tasks of high priority with no [id]. *)
Definition task_a : Task.t := plain "Task A" "general" "high" 60.
Definition task_b : Task.t := plain "Task B" "general" "high" 60.

(** A tool of the habit analyzer that raises on every history. *)
Definition failing_tool {A : Type} (history : list MemoryBank.task_record)
  : result A := Raise TypeError.

(** No stored history: no patterns. *)
Definition no_patterns : ReflectionAgent.pattern_insights :=
  ReflectionAgent.Insufficient.

End Examples.

(** ** More of the sources

    The functions around the ones above: what feeds them
    ([src/agents/collector_agent.py]), what they are followed by in
    [src/agents/orchestrator.py] ([src/agents/reminder_agent.py]), and the
    remaining methods of the priority agent, the evaluator and the memory
    bank. *)

(** ** src/utils/helpers.py: [format_duration] *)

Module Durations.

Definition format_duration (minutes : Z) : string :=
  if minutes <? 60 then (Py.str_int minutes ++ "m")%string
  else
    let hours := minutes / 60 in
    let remaining_mins := minutes mod 60 in
    if remaining_mins =? 0 then (Py.str_int hours ++ "h")%string
    else (Py.str_int hours ++ "h " ++ Py.str_int remaining_mins
          ++ "m")%string.

(** The characters that end a number in a duration. *)
Definition mark (c : ascii) : bool :=
  Ascii.eqb c "h" || Ascii.eqb c "m" || Ascii.eqb c " ".

End Durations.

(** ** JSON values, as [json.loads] returns them *)

Module Json.

(** [None], a [bool], an [int], a [float], a [str], a [list], or a [dict]
    by its items, one for every key. *)
#[warnings="-register-all"] Inductive value : Type :=
| Null
| Bool (b : bool)
| Int (z : Z)
| Float (f : Binary64.float)
| Str (s : string)
| Array (items : list value)
| Object (members : list (string * value)).

(** The truth value of a value, as [or] tests it. *)
Definition truthy (v : value) : bool :=
  match v with
  | Null => false
  | Bool b => b
  | Int z => negb (z =? 0)
  | Float f => negb (Binary64.eqb f (Binary64.of_int 0))
  | Str s => negb (String.eqb s "")
  | Array items => negb (PlanEvaluator.is_empty items)
  | Object members => negb (PlanEvaluator.is_empty members)
  end.

(** [a or b]. *)
Definition or (a b : value) : value := if truthy a then a else b.

(** [d.get(key, default)]. *)
Definition get (d : list (string * value)) (key : string) (default : value)
  : value :=
  match find (fun member => String.eqb (fst member) key) d with
  | Some member => snd member
  | None => default
  end.

End Json.

(** ** src/agents/collector_agent.py *)

Module CollectorAgent.

(** A task of the JSON input: a dict. *)
Definition raw_task : Type := list (string * Json.value).

(** The dict [_normalize] returns.  It copies the values as they are,
    whatever their types. *)
Record normalized : Type := Normalized {
  id : Json.value;
  name : Json.value;
  priority : Json.value;
  category : Json.value;
  estimated_duration : Json.value;
  deadline : Json.value;
  description : Json.value;
  tags : Json.value;
  dependencies : Json.value;
  status : Json.value;
  actual_duration : Json.value;
  assignee : Json.value
}.

Definition _normalize (task : raw_task) : normalized :=
  let duration :=
    Json.or
      (Json.or
         (Json.or (Json.get task "estimated_duration" Json.Null)
                  (Json.get task "estimated_time" Json.Null))
         (Json.get task "duration" Json.Null))
      (Json.Int 60) in
  let deadline :=
    Json.or (Json.get task "deadline" Json.Null)
            (Json.get task "due_date" Json.Null) in
  Normalized
    (Json.get task "id" Json.Null)
    (Json.get task "name" (Json.Str "Unnamed Task"))
    (Json.get task "priority" (Json.Str "medium"))
    (Json.get task "category" (Json.Str "general"))
    duration
    deadline
    (Json.get task "description" (Json.Str ""))
    (Json.get task "tags" (Json.Array []))
    (Json.get task "dependencies" (Json.Array []))
    (Json.get task "status" (Json.Str "pending"))
    (Json.get task "actual_time" (Json.Int 0))
    (Json.get task "assignee" (Json.Str "Unknown")).

(** The JSON paths of [collect_tasks]: [[self._normalize(t) for t in ...]]. *)
Definition collect_json (parsed : list raw_task) : list normalized :=
  map _normalize parsed.

(** A normalized dict whose values have the types of the data model, as
    the task the agents after the collector read: the name, the category
    and the priority are strings, the duration and the actual duration
    integers, the id and the deadline strings or [None].  The keys
    [description], [tags], [dependencies], [status] and [assignee] are read
    by nothing that follows.  A dict with a value of another type has no
    such reading. *)
Definition as_task (n : normalized) : option Task.t :=
  match name n, category n, priority n, estimated_duration n,
        actual_duration n with
  | Json.Str name, Json.Str category, Json.Str priority,
    Json.Int estimated_duration, Json.Int actual_duration =>
      match id n, deadline n with
      | Json.Null, Json.Null =>
          Some (Task.Build None (Some name) (Some category) (Some priority)
                  (Some estimated_duration) Task.IsNone
                  (Some actual_duration) None)
      | Json.Null, Json.Str deadline =>
          Some (Task.Build None (Some name) (Some category) (Some priority)
                  (Some estimated_duration) (Task.Str deadline)
                  (Some actual_duration) None)
      | Json.Str id, Json.Null =>
          Some (Task.Build (Some id) (Some name) (Some category)
                  (Some priority) (Some estimated_duration) Task.IsNone
                  (Some actual_duration) None)
      | Json.Str id, Json.Str deadline =>
          Some (Task.Build (Some id) (Some name) (Some category)
                  (Some priority) (Some estimated_duration)
                  (Task.Str deadline) (Some actual_duration) None)
      | _, _ => None
      end
  | _, _, _, _, _ => None
  end.

(** The tasks of a JSON input all of whose normalized dicts have the types
    of the data model. *)
Fixpoint typed_tasks (parsed : list raw_task) : option (list Task.t) :=
  match parsed with
  | [] => Some []
  | task :: rest =>
      match as_task (_normalize task), typed_tasks rest with
      | Some t, Some ts => Some (t :: ts)
      | _, _ => None
      end
  end.

(** The deadline [_normalize] stores is a string: the task has a deadline,
    or else a due date. *)
Definition dated (task : raw_task) : bool :=
  match deadline (_normalize task) with
  | Json.Str _ => true
  | _ => false
  end.

(** The rank the scheduler gives to the task's priority. *)
Definition rank_of (task : raw_task) : Z :=
  match priority (_normalize task) with
  | Json.Str p => PlannerAgent.priority_rank p
  | _ => 2
  end.

(** The first of the given integers that is not 0, or the default. *)
Fixpoint first_nonzero (candidates : list Json.value) (default : Z) : Z :=
  match candidates with
  | [] => default
  | Json.Int z :: rest => if z =? 0 then first_nonzero rest default else z
  | _ :: rest => first_nonzero rest default
  end.

(** The minutes of a task: its [estimated_duration], else its
    [estimated_time], else its [duration], else 60, where 0 counts as not
    given. *)
Definition minutes_of (task : raw_task) : Z :=
  first_nonzero
    [Json.get task "estimated_duration" Json.Null;
     Json.get task "estimated_time" Json.Null;
     Json.get task "duration" Json.Null]
    60.

(** What the plain-text path found in a line: the name, the priority and
    the minutes of [Task name (high, 60 min)], or the line itself,
    ["medium"] and 60. *)
Record text_line : Type := Line {
  line_name : string;
  line_priority : string;
  line_duration : Z
}.

(** The dict the plain-text path appends for a line. *)
Definition text_task (line : text_line) : Task.t :=
  Task.Build None (Some (line_name line)) (Some "general")
             (Some (line_priority line)) (Some (line_duration line))
             Task.NoKey None None.

Definition collect_text (lines : list text_line) : list Task.t :=
  map text_task lines.

End CollectorAgent.

(** ** src/agents/priority_agent.py: [_generate_summary] *)

Module PrioritySummary.

Record top_task : Type := Top {
  rank : option Z;
  name : string;
  score : Binary64.float
}.

Record counts : Type := Counts {
  high : Z;
  medium : Z;
  low : Z
}.

Record t : Type := Build {
  total_tasks : Z;
  by_priority : counts;
  urgent_tasks_count : Z;
  top_3_tasks : list top_task
}.

(** [t.get("priority") == p]. *)
Definition has_priority (p : string) (t : ScoredTask.t) : bool :=
  Py.opt_str_eqb (Task.priority (ScoredTask.task t)) (Some p).

(** [deadline_days] is not [None] and is at most 1. *)
Definition is_urgent (t : ScoredTask.t) : bool :=
  match ScoredTask.deadline_days (ScoredTask.scoring_details t) with
  | None => false
  | Some deadline_days => deadline_days <=? 1
  end.

(** [sum(1 for t in tasks if cond(t))]. *)
Definition count {A : Type} (cond : A -> bool) (tasks : list A) : Z :=
  Py.sum (map (fun _ => 1) (filter cond tasks)).

Definition _generate_summary (tasks : list ScoredTask.t) : t :=
  let urgent_tasks := filter is_urgent tasks in
  Build (Py.len tasks)
    (Counts (count (has_priority "high") tasks)
            (count (has_priority "medium") tasks)
            (count (has_priority "low") tasks))
    (Py.len urgent_tasks)
    (map (fun t =>
            Top (ScoredTask.rank t)
                (Py.get (Task.name (ScoredTask.task t)) "Unnamed Task")
                (ScoredTask.priority_score t))
         (firstn 3 tasks)).

(** The [priority_summary] of [prioritize_tasks]. *)
Definition priority_summary
    (days_remaining : string -> option Z) (memory_bank : MemoryBank.t)
    (tasks : list Task.t) : t :=
  _generate_summary
    (PriorityAgent.prioritized_tasks
       (PriorityAgent.prioritize_tasks days_remaining memory_bank tasks)).

(** Whether the task's deadline is a date the scorer can read that lies
    at most one day ahead. *)
Definition due_within_a_day
    (days_remaining : string -> option Z) (t : Task.t) : bool :=
  match Task.deadline t with
  | Task.Str s =>
      if String.eqb s "" then false
      else match days_remaining s with
           | Some d => d <=? 1
           | None => false
           end
  | _ => false
  end.

Definition priority_is (p : string) (t : Task.t) : bool :=
  Py.opt_str_eqb (Task.priority t) (Some p).

Definition named_priority (t : Task.t) : bool :=
  priority_is "high" t || priority_is "medium" t || priority_is "low" t.

End PrioritySummary.

(** ** src/evaluation/plan_evaluator.py: the advisory texts *)

Module PlanAdvice.

Definition time_efficiency_feedback : string :=
  "Time efficiency could be improved. Consider optimizing task scheduling.".
Definition priority_alignment_feedback : string :=
  "High-priority tasks should be scheduled earlier in the day.".
Definition feasibility_feedback : string :=
  "The plan might be too ambitious. Consider reducing workload or extending timeline.".
Definition work_life_balance_feedback : string :=
  "Don't forget work-life balance. Add breaks and limit total work hours.".
Definition excellent : string :=
  "Excellent plan! Well-balanced and achievable.".

Definition time_efficiency_advice : string :=
  "Add more tasks to fill available time efficiently".
Definition priority_alignment_advice : string :=
  "Move high-priority tasks to morning slots".
Definition feasibility_advice : string :=
  "Reduce task durations or split complex tasks".
Definition work_life_balance_advice : string :=
  "Schedule 15-minute breaks every 90 minutes".

(** [if cond: l.append(x)]. *)
Definition append_if (cond : bool) (x : string) (l : list string)
  : list string :=
  if cond then l ++ [x] else l.

Definition _generate_feedback (scores : PlanEvaluator.scores)
  : list string :=
  let feedback := [] in
  let feedback :=
    append_if (Py.Qlt_bool (PlanEvaluator.time_efficiency scores) 15)
              time_efficiency_feedback feedback in
  let feedback :=
    append_if (Py.Qlt_bool (PlanEvaluator.priority_alignment scores) 15)
              priority_alignment_feedback feedback in
  let feedback :=
    append_if (Py.Qlt_bool (PlanEvaluator.feasibility scores) 15)
              feasibility_feedback feedback in
  let feedback :=
    append_if (Py.Qlt_bool (PlanEvaluator.work_life_balance scores) 15)
              work_life_balance_feedback feedback in
  append_if (PlanEvaluator.is_empty feedback) excellent feedback.

Definition _generate_recommendations (scores : PlanEvaluator.scores)
  : list string :=
  let recommendations := [] in
  let recommendations :=
    append_if (Py.Qlt_bool (PlanEvaluator.time_efficiency scores) 20)
              time_efficiency_advice recommendations in
  let recommendations :=
    append_if (Py.Qlt_bool (PlanEvaluator.priority_alignment scores) 20)
              priority_alignment_advice recommendations in
  let recommendations :=
    append_if (Py.Qlt_bool (PlanEvaluator.feasibility scores) 20)
              feasibility_advice recommendations in
  append_if (Py.Qlt_bool (PlanEvaluator.work_life_balance scores) 20)
            work_life_balance_advice recommendations.

(** The [feedback] and the [recommendations] of [evaluate_plan]. *)
Definition feedback
    (plan : Plan.t) (original_tasks : list Task.t)
    (user_preferences : option PlanEvaluator.preferences) : list string :=
  _generate_feedback
    (PlanEvaluator.scores_breakdown
       (PlanEvaluator.evaluate_plan plan original_tasks user_preferences)).

Definition recommendations
    (plan : Plan.t) (original_tasks : list Task.t)
    (user_preferences : option PlanEvaluator.preferences) : list string :=
  _generate_recommendations
    (PlanEvaluator.scores_breakdown
       (PlanEvaluator.evaluate_plan plan original_tasks user_preferences)).

(** The number of tasks of priority ["high"]. *)
Definition high_count (tasks : list Task.t) : Z :=
  Py.len (filter ReflectionAgent.is_high tasks).

Definition is_low (t : Task.t) : bool :=
  Py.opt_str_eqb (Task.priority t) (Some "low").

(** A task list that is not empty and has tasks of priority ["low"]
    only. *)
Definition all_low (tasks : list Task.t) : bool :=
  negb (PlanEvaluator.is_empty tasks) && forallb is_low tasks.

End PlanAdvice.

(** ** src/agents/reminder_agent.py *)

Module ReminderAgent.

(** A reminder.  Its [message], a rendering of the other fields with the
    clock time, is left out. *)
Record reminder : Type := Reminder {
  reminder_id : string;
  task_id : option string;
  task_name : option string;
  reminder_time : datetime;
  task_start_time : datetime;
  minutes_before : Z;
  priority : string
}.

(** [str(x)] of an id that may be [None]. *)
Definition str_id (x : option string) : string := Py.get x "None".

Definition minutes_before_of (category priority : string) : Z :=
  if String.eqb category "meeting" then 15
  else if String.eqb priority "high" then 5
  else 0.

Section Agent.

(** The first and the last minute a [datetime] can hold. *)
Variables earliest latest : datetime.

(** The blocks of a schedule have no [task_id] key, so
    [task.get('task_id')] is [None] on every one of them. *)
Fixpoint _generate_reminders (scheduled_tasks : list Block.t)
  : result (list reminder) :=
  match scheduled_tasks with
  | [] => Ok []
  | task :: rest =>
      if negb (Block.kind_eqb (Block.type task) Block.task) then
        _generate_reminders rest
      else
        let task_name := Block.name task in
        let start_time := Block.start_time task in
        let priority := Py.get (Block.priority task) "medium" in
        let category := Py.get (Block.category task) "general" in
        let reminder_minutes_before := minutes_before_of category priority in
        reminder_time <-
          (if reminder_minutes_before >? 0
           then PlannerAgent.add_minutes earliest latest start_time
                  (- reminder_minutes_before)
           else Ok start_time) ;;
        let task_id : option string := None in
        let reminder :=
          Reminder ("reminder_" ++ str_id task_id)%string task_id task_name
                   reminder_time start_time reminder_minutes_before
                   priority in
        reminders <- _generate_reminders rest ;;
        Ok (reminder :: reminders)
  end.

End Agent.

(** What a reminder says of its task, and the same of a task block. *)
Definition reminder_line (r : reminder)
  : option string * datetime * string :=
  (task_name r, task_start_time r, priority r).

Definition block_reminder_line (b : Block.t)
  : option string * datetime * string :=
  (Block.name b, Block.start_time b, Py.get (Block.priority b) "medium").

(** The rule of the reminder's time. *)
Definition timed (b : Block.t) (r : reminder) : Prop :=
  minutes_before r
  = minutes_before_of (Py.get (Block.category b) "general")
                      (Py.get (Block.priority b) "medium")
  /\ reminder_time r = Block.start_time b - minutes_before r.

End ReminderAgent.

(** ** src/agents/orchestrator.py *)

Module Orchestrator.

(** The [outputs] of [process_tasks], from the scorer's on.  Of the
    reminder agent's result the reminders and their number are kept; the
    files it writes are left out. *)
Record outputs : Type := Outputs {
  prioritized : PriorityAgent.prioritized;
  planned : Plan.t;
  evaluation : PlanEvaluator.evaluation;
  reminders : list ReminderAgent.reminder;
  reminder_count : Z;
  reflection : ReflectionAgent.reflection
}.

Section Pipeline.

Variable days_remaining : string -> option Z.
Variable memory_bank : MemoryBank.t.
Variables anchor earliest latest : datetime.

(** The last step, [reflect_and_learn] as [_send_to_agent] calls it,
    [handler(data, session_id)]: the message data arrive as the method's
    [session_id] and the session id as its [completed_tasks], with no
    planned tasks.  What it returns or raises depends on the session id
    and on the history in the memory bank, not on the tasks of this run. *)
Variable reflect : result ReflectionAgent.reflection.

(** [process_tasks], from the tasks the collector returned: the scorer,
    the planner on the ranking, the evaluator on the plan, the reminders
    for the plan, the reflection.  The planner reads the task's own keys of
    the scored dicts.  The session's context and the message queue, which
    only record the results, are left out. *)
Definition process_tasks (collected : list Task.t) : result outputs :=
  let prioritized :=
    PriorityAgent.prioritize_tasks days_remaining memory_bank collected in
  planned <-
    PlannerAgent.create_plan anchor earliest latest
      (map ScoredTask.task (PriorityAgent.prioritized_tasks prioritized)) ;;
  let evaluation := PlanEvaluator.evaluate_plan planned collected None in
  reminders <-
    ReminderAgent._generate_reminders earliest latest
      (Plan.scheduled_tasks planned) ;;
  reflection <- reflect ;;
  Ok (Outputs prioritized planned evaluation reminders (Py.len reminders)
              reflection).

End Pipeline.

(** The tasks that have the priority rank [r] and the deadline text [d]
    keep, in [order], the order they have in [reference]. *)
Definition keeps_order_within_keys (reference order : list Task.t) : Prop :=
  forall (r : Z) (d : string),
    filter (Spec.same_key r d) order = filter (Spec.same_key r d) reference.

End Orchestrator.

(** ** src/agents/reflection_agent.py: the texts of the recommendations *)

Module ReflectionAdvice.

Definition reduce_workload : string :=
  "Consider reducing daily workload or extending deadlines".

Definition take_more : string :=
  "Great job! You can handle slightly more tasks".

(** The float [_analyze_completion] classifies: 0.0 with nothing planned. *)
Definition rate (completed planned : list Task.t) : Binary64.float :=
  if Py.len planned =? 0 then Binary64.of_int 0
  else Spec.float_rate completed planned.

End ReflectionAdvice.

(** ** src/memory/memory_bank.py: preferences, patterns and the analysis *)

(** A dict in the order its keys were first set. *)
Module PyDict.

Section Dict.
Context {K V : Type} (eqb : K -> K -> bool).

(** [d.get(k)]. *)
Fixpoint get (d : list (K * V)) (k : K) : option V :=
  match d with
  | [] => None
  | (k', v) :: d' => if eqb k' k then Some v else get d' k
  end.

(** [d[k] = v]. *)
Fixpoint set (d : list (K * V)) (k : K) (v : V) : list (K * V) :=
  match d with
  | [] => [(k, v)]
  | (k', v') :: d' =>
      if eqb k' k then (k, v) :: d' else (k', v') :: set d' k v
  end.

End Dict.

(** [max(d.items(), key=lambda x: x[1])]: the first item, in the order of
    the dict, whose value no other exceeds. *)
Fixpoint max_from {K : Type} (best : K * Z) (items : list (K * Z))
  : K * Z :=
  match items with
  | [] => best
  | x :: items' =>
      max_from (if snd best <? snd x then x else best) items'
  end.

Definition max_item {K : Type} (items : list (K * Z)) : option (K * Z) :=
  match items with
  | [] => None
  | x :: items' => Some (max_from x items')
  end.

End PyDict.

Module MemoryDicts.

Section Bank.

(** The values of the preferences, with [None] among them and with their
    truth value; the data of a learned pattern, a dict, with its truth
    value. *)
Variable value : Type.
Variable none : value.
Variable truthy : value -> bool.
Variable pattern_dict : Type.
Variable data_truthy : pattern_dict -> bool.

(** [datetime.fromisoformat(s).hour]. *)
Variable hour_of : datetime -> Z.

Record preference : Type := Preference {
  pref_value : value;
  updated_at : datetime
}.

(** The [confidence] copied out of the data is left out. *)
Record pattern : Type := Pattern {
  data : pattern_dict;
  learned_at : datetime
}.

(** [self.memory], without its [metadata]. *)
Record memory : Type := Memory {
  user_preferences : list (string * preference);
  task_history : list MemoryBank.task_record;
  learned_patterns : list (string * pattern)
}.

(** The bank: the dict in memory and the copy [save] wrote to disk. *)
Record t : Type := Build {
  in_memory : memory;
  on_disk : memory
}.

Definition save (self : t) : t :=
  Build (in_memory self) (in_memory self).

Definition store_preference
    (self : t) (now : datetime) (key : string) (v : value) : t :=
  let m := in_memory self in
  save (Build (Memory (PyDict.set String.eqb (user_preferences m) key
                         (Preference v now))
                      (task_history m) (learned_patterns m))
              (on_disk self)).

(** The stored entry is a dict of two keys, which is true whatever the
    value in it. *)
Definition get_preference (self : t) (key : string) (default : value)
  : value :=
  match PyDict.get String.eqb (user_preferences (in_memory self)) key with
  | Some pref => pref_value pref
  | None => default
  end.

Definition learn_pattern
    (self : t) (now : datetime) (pattern_name : string)
    (pattern_data : pattern_dict) : t :=
  let m := in_memory self in
  save (Build (Memory (user_preferences m) (task_history m)
                      (PyDict.set String.eqb (learned_patterns m)
                         pattern_name (Pattern pattern_data now)))
              (on_disk self)).

Definition get_pattern (self : t) (pattern_name : string)
  : option pattern_dict :=
  match PyDict.get String.eqb (learned_patterns (in_memory self))
          pattern_name with
  | Some pattern => Some (data pattern)
  | None => None
  end.

Definition clear (self : t) : t :=
  save (Build (Memory [] [] []) (on_disk self)).

(** [hour_counts[hour] = hour_counts.get(hour, 0) + 1]. *)
Definition count_hour (hour_counts : list (Z * Z)) (hour : Z)
  : list (Z * Z) :=
  PyDict.set Z.eqb hour_counts hour
    (Py.get (PyDict.get Z.eqb hour_counts hour) 0 + 1).

(** The loop over the history: every record the bank stored has a
    [completed_at]. *)
Definition hour_counts_of (history : list MemoryBank.task_record)
  : list (Z * Z) :=
  fold_left
    (fun hour_counts task =>
       count_hour hour_counts (hour_of (MemoryBank.completed_at task)))
    history [].

(** The analysis, without the averages by category. *)
Record analysis : Type := Analysis {
  total_tasks_completed : Z;
  most_productive_hour : option Z
}.

(** [None] is the dict that holds a [message] only. *)
Definition analyze_task_history (self : t) : option analysis :=
  let history := task_history (in_memory self) in
  if PlanEvaluator.is_empty history then None
  else
    let total_tasks := Py.len history in
    let hour_counts := hour_counts_of history in
    let most_productive_hour :=
      option_map fst (PyDict.max_item hour_counts) in
    Some (Analysis total_tasks most_productive_hour).

Definition hour_advice (hour : Z) : string :=
  ("You're most productive around " ++ Py.str_int hour
   ++ ":00. Schedule important tasks during this time.")%string.

Definition break_advice : string :=
  "Don't forget to take regular breaks as per your preferences.".

Definition estimate_advice : string :=
  "You tend to overestimate task duration. Try reducing estimates by 20%.".

Definition get_personalized_recommendations (self : t) : list string :=
  let recommendations := [] in
  let analysis := analyze_task_history self in
  let recommendations :=
    match analysis with
    | Some (Analysis _ (Some hour)) =>
        if hour =? 0 then recommendations
        else recommendations ++ [hour_advice hour]
    | _ => recommendations
    end in
  let recommendations :=
    if truthy (get_preference self "break_frequency" none)
    then recommendations ++ [break_advice] else recommendations in
  match get_pattern self "task_overestimation" with
  | Some d =>
      if data_truthy d then recommendations ++ [estimate_advice]
      else recommendations
  | None => recommendations
  end.

(** The bank with its history taken away. *)
Definition without_history (self : t) : t :=
  Build (Memory (user_preferences (in_memory self)) []
                (learned_patterns (in_memory self)))
        (on_disk self).

End Bank.

Arguments Preference {value} pref_value updated_at.
Arguments pref_value {value} p.
Arguments Pattern {pattern_dict} data learned_at.
Arguments data {pattern_dict} p.
Arguments Memory {value pattern_dict}
  user_preferences task_history learned_patterns.
Arguments user_preferences {value pattern_dict} m.
Arguments task_history {value pattern_dict} m.
Arguments learned_patterns {value pattern_dict} m.
Arguments Build {value pattern_dict} in_memory on_disk.
Arguments in_memory {value pattern_dict} t.
Arguments on_disk {value pattern_dict} t.
Arguments save {value pattern_dict} self.
Arguments store_preference {value pattern_dict} self now key v.
Arguments get_preference {value pattern_dict} self key default.
Arguments learn_pattern {value pattern_dict} self now pattern_name
  pattern_data.
Arguments get_pattern {value pattern_dict} self pattern_name.
Arguments clear {value pattern_dict} self.
Arguments analyze_task_history {value pattern_dict} hour_of self.
Arguments get_personalized_recommendations
  {value} none truthy {pattern_dict} data_truthy hour_of self.
Arguments without_history {value pattern_dict} self.

(** How many records of the history were completed in the hour [h]. *)
Definition completed_in
    (hour_of : datetime -> Z) (h : Z)
    (history : list MemoryBank.task_record) : Z :=
  Py.len (filter (fun r => hour_of (MemoryBank.completed_at r) =? h)
                 history).

End MemoryDicts.

(** ** More concrete inputs *)

Module Inputs.

(** Two tasks of a JSON input, both of high priority: one with a deadline,
    one without. *)
Definition report : CollectorAgent.raw_task :=
  [("id", Json.Str "t1"); ("name", Json.Str "Report");
   ("priority", Json.Str "high"); ("category", Json.Str "coding");
   ("estimated_duration", Json.Int 90); ("deadline", Json.Str "2025-12-01")].

Definition call : CollectorAgent.raw_task :=
  [("id", Json.Str "t2"); ("name", Json.Str "Call");
   ("priority", Json.Str "high"); ("category", Json.Str "meeting");
   ("estimated_time", Json.Int 30)].

(** A task of low priority without a deadline, its duration given as 0. *)
Definition tidy : CollectorAgent.raw_task :=
  [("id", Json.Str "t3"); ("name", Json.Str "Tidy");
   ("priority", Json.Str "low"); ("estimated_duration", Json.Int 0)].

(** The three as the agents after the collector read them. *)
Definition report_task : Task.t :=
  Task.Build (Some "t1") (Some "Report") (Some "coding") (Some "high")
             (Some 90) (Task.Str "2025-12-01") (Some 0) None.

Definition call_task : Task.t :=
  Task.Build (Some "t2") (Some "Call") (Some "meeting") (Some "high")
             (Some 30) Task.IsNone (Some 0) None.

Definition tidy_task : Task.t :=
  Task.Build (Some "t3") (Some "Tidy") (Some "general") (Some "low")
             (Some 60) Task.IsNone (Some 0) None.

(** A task whose duration is a string: it has no reading in the data
    model, and the scorer's [duration <= 30] would raise on it. *)
Definition mistyped : CollectorAgent.raw_task :=
  [("name", Json.Str "Sync"); ("estimated_duration", Json.Str "60")].

(** Two lines of a plain-text input. *)
Definition inbox_line : CollectorAgent.text_line :=
  CollectorAgent.Line "Inbox" "medium" 60.

Definition deploy_line : CollectorAgent.text_line :=
  CollectorAgent.Line "Deploy" "high" 45.

(** The hour of an instant counted in minutes from a midnight. *)
Definition hour_of_minute (t : datetime) : Z := (t / 60) mod 24.

(** A record of a task completed at the minute [t]. *)
Definition completed_at (t : datetime) : MemoryBank.task_record :=
  MemoryBank.Record_ None (Some "Task") (Some "general") (Some 60) (Some 45)
                     t (Some "medium") true.

(** A bank whose preferences and pattern data are integers, with two
    tasks completed after midnight and one at ten in the morning. *)
Definition night_bank : MemoryDicts.t Z Z :=
  MemoryDicts.Build
    (MemoryDicts.Memory [] [completed_at 30; completed_at 600; completed_at 45]
                        [])
    (MemoryDicts.Memory [] [] []).

(** One completed task to store. *)
Definition one_completion : Spec.completion :=
  (Examples.review_task, 600, Some 50).

(** A task dict with no [priority] key. *)
Definition unprioritized : Task.t :=
  Task.Build None (Some "Walk") (Some "general") None (Some 20)
             Task.NoKey None None.

(** What the reflection returns when nothing was planned or completed. *)
Definition idle_reflection : ReflectionAgent.reflection :=
  ReflectionAgent.Reflection
    (ReflectionAgent.Analysis 0 0 0 (Binary64.of_int 0) "needs_improvement")
    Examples.no_patterns
    (ReflectionAgent.Learning None 0 "No completed tasks to learn from yet.")
    false "No planned tasks to review"
    ["Consider reducing daily workload or extending deadlines"].

End Inputs.

(** * Properties *)

(** ** Facts about the Python layer *)

Lemma bind_Ok {A B : Type} (c : result A) (k : A -> result B) (b : B) :
  bind c k = Ok b -> exists a, c = Ok a /\ k a = Ok b.
Proof.
  destruct c as [a | e]; simpl; intros H.
  - exists a. split; [reflexivity | exact H].
  - discriminate H.
Qed.

Lemma bind_Raise {A B : Type} (c : result A) (k : A -> result B) (e : exn) :
  bind c k = Raise e ->
  c = Raise e \/ exists a, c = Ok a /\ k a = Raise e.
Proof.
  destruct c as [a | e']; simpl; intros H.
  - right. exists a. auto.
  - left. inversion H. reflexivity.
Qed.

Ltac bind_inv H :=
  let a := fresh "a" in
  let Ha := fresh "Ha" in
  apply bind_Ok in H; destruct H as (a & Ha & H).

Lemma len_nil_iff {A : Type} (l : list A) : Py.len l = 0 <-> l = [].
Proof.
  unfold Py.len. destruct l; simpl; split; intros H;
    try reflexivity; try discriminate; lia.
Qed.

Lemma sum_from (l : list Z) (acc : Z) :
  fold_left Z.add l acc = acc + Py.sum l.
Proof.
  unfold Py.sum. revert acc.
  induction l as [| x l IH]; intros acc; simpl.
  - lia.
  - rewrite (IH (acc + x)), (IH x). lia.
Qed.

Lemma sum_cons (x : Z) (l : list Z) : Py.sum (x :: l) = x + Py.sum l.
Proof. unfold Py.sum at 1. simpl. apply sum_from. Qed.

Lemma Qlt_bool_iff (x y : Q) : Py.Qlt_bool x y = true <-> (x < y)%Q.
Proof.
  unfold Py.Qlt_bool. rewrite negb_true_iff.
  split; intros H.
  - apply Qnot_le_lt. intros Hle. apply Qle_bool_iff in Hle. congruence.
  - destruct (Qle_bool y x) eqn:E; [| reflexivity].
    apply Qle_bool_iff in E. exfalso. apply (Qlt_not_le _ _ H E).
Qed.

(** *** Rounding *)

(** [lra] once the sums under [inject_Z] are taken apart. *)
Ltac lra_Z :=
  rewrite ?inject_Z_plus in *;
  change (inject_Z 1) with 1%Q in *;
  lra.

Lemma round_half_even_comp (x y : Q) :
  (x == y)%Q -> Py.round_half_even x = Py.round_half_even y.
Proof.
  intros E. unfold Py.round_half_even.
  rewrite (Qfloor_comp _ _ E).
  assert (E' : (x - inject_Z (Qfloor y) == y - inject_Z (Qfloor y))%Q)
    by (rewrite E; reflexivity).
  rewrite (Qcompare_comp _ _ E' (1 # 2) (1 # 2) (Qeq_refl _)).
  reflexivity.
Qed.

Lemma round_comp (x y : Q) (n : nat) :
  (x == y)%Q -> Py.round x n = Py.round y n.
Proof.
  intros E. unfold Py.round.
  set (scale := inject_Z (10 ^ Z.of_nat n)).
  rewrite (round_half_even_comp (x * scale) (y * scale)); [reflexivity |].
  rewrite E. reflexivity.
Qed.

Lemma round_half_even_Z (z : Z) : Py.round_half_even (inject_Z z) = z.
Proof.
  unfold Py.round_half_even. rewrite Qfloor_Z.
  assert (E : (inject_Z z - inject_Z z ?= 1 # 2)%Q = Lt).
  { apply -> Qlt_alt. lra. }
  rewrite E. reflexivity.
Qed.

(** The rounded value is within one half of the exact one. *)
Lemma round_half_even_near (x : Q) :
  (x - (1 # 2) <= inject_Z (Py.round_half_even x) <= x + (1 # 2))%Q.
Proof.
  unfold Py.round_half_even.
  pose proof (Qfloor_le x) as Hlo.
  pose proof (Qlt_floor x) as Hhi.
  destruct (x - inject_Z (Qfloor x) ?= 1 # 2)%Q eqn:E.
  - apply Qeq_alt in E. destruct (Z.even (Qfloor x)); lra_Z.
  - apply Qlt_alt in E. lra_Z.
  - apply Qgt_alt in E. lra_Z.
Qed.

(** Rounding does not cross an integer. *)
Lemma round_half_even_ge (n : Z) (x : Q) :
  (inject_Z n <= x)%Q -> n <= Py.round_half_even x.
Proof.
  intros H. unfold Py.round_half_even.
  assert (Hf : n <= Qfloor x).
  { rewrite <- (Qfloor_Z n). apply Qfloor_resp_le. exact H. }
  destruct (x - inject_Z (Qfloor x) ?= 1 # 2)%Q;
    [destruct (Z.even (Qfloor x)) | |]; lia.
Qed.

(** ** Facts about [sorted] *)

Section SortedFacts.

Context {A K : Type} (lt : K -> K -> bool) (key : A -> K) (reverse : bool).

Local Abbreviation gf := (Spec.goes_first lt key reverse).
Local Abbreviation ins := (Py.insert lt key reverse).
Local Abbreviation srt := (Py.sorted lt key reverse).

Lemma insert_cons (x y : A) (l : list A) :
  ins x (y :: l) = if gf x y then y :: ins x l else x :: y :: l.
Proof. reflexivity. Qed.

Lemma insert_perm (x : A) (l : list A) : Permutation (ins x l) (x :: l).
Proof.
  induction l as [| y l IH].
  - apply Permutation_refl.
  - rewrite insert_cons. destruct (gf x y).
    + eapply perm_trans; [apply perm_skip, IH | apply perm_swap].
    + apply Permutation_refl.
Qed.

Lemma sorted_perm (l : list A) : Permutation (srt l) l.
Proof.
  induction l as [| x l IH]; simpl.
  - apply perm_nil.
  - eapply perm_trans; [apply insert_perm | apply perm_skip, IH].
Qed.

Lemma sorted_Forall (P : A -> Prop) (l : list A) :
  Forall P l -> Forall P (srt l).
Proof.
  intros H. eapply Permutation_Forall; [| exact H].
  apply Permutation_sym, sorted_perm.
Qed.

(** Elements that never overtake one another keep their order. *)
Lemma insert_filter (P : A -> bool) (x : A) (l : list A) :
  (forall y, In y l -> P x = true -> P y = true -> gf x y = false) ->
  filter P (ins x l) = if P x then x :: filter P l else filter P l.
Proof.
  intros HP. induction l as [| y l IH].
  - reflexivity.
  - rewrite insert_cons. destruct (gf x y) eqn:G.
    + simpl. rewrite IH by (intros z Hz; apply HP; right; exact Hz).
      destruct (P x) eqn:Px; [| reflexivity].
      destruct (P y) eqn:Py; [| reflexivity].
      rewrite (HP y (or_introl eq_refl) eq_refl Py) in G. discriminate G.
    + simpl. destruct (P x); reflexivity.
Qed.

Lemma sorted_filter (P : A -> bool) (l : list A) :
  (forall x y, In x l -> In y l ->
               P x = true -> P y = true -> gf x y = false) ->
  filter P (srt l) = filter P l.
Proof.
  intros HP. induction l as [| x l IH]; simpl.
  - reflexivity.
  - rewrite insert_filter.
    + rewrite IH; [reflexivity |].
      intros a b Ha Hb. apply HP; right; assumption.
    + intros y Hy. apply HP; [left; reflexivity | right].
      eapply Permutation_in; [apply sorted_perm | exact Hy].
Qed.

Section Ordered.

(** The keys in play are ordered by [lt]. *)
Variable D : A -> Prop.
Hypothesis asym :
  forall a b, D a -> D b -> gf a b = true -> gf b a = false.
Hypothesis negtrans :
  forall a b c, D a -> D b -> D c ->
                gf a b = false -> gf b c = false -> gf a c = false.

(** The order of the input. *)
Variable S : A -> A -> Prop.

Local Abbreviation R := (Spec.by_key_then lt key reverse S).

Lemma insert_sorted (x : A) (l : list A) :
  D x -> Forall D l -> Forall (S x) l ->
  StronglySorted R l -> StronglySorted R (ins x l).
Proof.
  intros Dx Dl Sx Hl.
  induction Hl as [| y l Hl IH Hy].
  - simpl. constructor; constructor.
  - rewrite insert_cons.
    inversion Dl as [| ? ? Dy Dl']; subst.
    inversion Sx as [| ? ? Sxy Sx']; subst.
    destruct (gf x y) eqn:G.
    + constructor; [apply IH; assumption |].
      eapply Permutation_Forall;
        [apply Permutation_sym, insert_perm |].
      constructor; [| exact Hy].
      split; [apply asym; assumption |].
      intros G'. congruence.
    + constructor; [constructor; assumption |].
      constructor; [split; [exact G | intros _; exact Sxy] |].
      rewrite Forall_forall in Hy, Dl', Sx' |- *.
      intros z Hz. split.
      * apply (negtrans x y z); auto. apply (Hy z Hz).
      * intros _. apply Sx'; exact Hz.
Qed.

Lemma sorted_sorted (l : list A) :
  Forall D l -> StronglySorted S l -> StronglySorted R (srt l).
Proof.
  intros Dl Hl. induction Hl as [| x l Hl IH Hx]; simpl.
  - constructor.
  - inversion Dl as [| ? ? Dx Dl']; subst.
    apply insert_sorted; auto.
    + apply sorted_Forall; assumption.
    + apply sorted_Forall; assumption.
Qed.

End Ordered.

End SortedFacts.

(** Sorting commutes with a map that keeps the keys. *)
Lemma sorted_map {A B K : Type}
    (lt : K -> K -> bool) (key : A -> K) (reverse : bool)
    (f : B -> A) (l : list B) :
  map f (Py.sorted lt (fun b => key (f b)) reverse l)
  = Py.sorted lt key reverse (map f l).
Proof.
  induction l as [| x l IH]; simpl; [reflexivity |].
  rewrite <- IH. generalize (Py.sorted lt (fun b => key (f b)) reverse l).
  intros s. induction s as [| y s IHs]; simpl; [reflexivity |].
  destruct (if reverse then lt (key (f x)) (key (f y))
            else lt (key (f y)) (key (f x))); simpl.
  - rewrite IHs. reflexivity.
  - reflexivity.
Qed.

(** A weaker order holds where a stronger one does. *)
Lemma StronglySorted_weaken {A : Type}
    (D : A -> Prop) (R S : A -> A -> Prop) (l : list A) :
  (forall a b, D a -> D b -> R a b -> S a b) ->
  Forall D l -> StronglySorted R l -> StronglySorted S l.
Proof.
  intros HRS HD H. induction H as [| x l H IH Hx].
  - constructor.
  - inversion HD as [| ? ? Dx Dl]; subst.
    constructor; [apply IH; exact Dl |].
    rewrite Forall_forall in Hx, Dl |- *.
    intros b Hb. apply HRS; auto.
Qed.

Lemma StronglySorted_True {A : Type} (l : list A) :
  StronglySorted (fun _ _ => True) l.
Proof.
  induction l as [| x l IH]; constructor; [exact IH |].
  apply Forall_forall. intros; exact I.
Qed.

Lemma StronglySorted_map {A B : Type}
    (R : B -> B -> Prop) (f : A -> B) (l : list A) :
  StronglySorted R (map f l) <-> StronglySorted (fun a b => R (f a) (f b)) l.
Proof.
  induction l as [| x l IH]; simpl.
  - split; intros _; constructor.
  - split; intros H; inversion H as [| ? ? Hl Hx]; subst;
      constructor; try (apply IH; assumption).
    + rewrite Forall_map in Hx. exact Hx.
    + rewrite Forall_map. exact Hx.
Qed.

Lemma StronglySorted_nth {A : Type} (R : A -> A -> Prop) (l : list A) :
  StronglySorted R l ->
  forall (i j : nat) (a b : A),
    (i < j)%nat -> nth_error l i = Some a -> nth_error l j = Some b -> R a b.
Proof.
  intros H. induction H as [| x l H IH Hx]; intros i j a b Hij Hi Hj.
  - destruct i; discriminate.
  - destruct j as [| j]; [lia |]. simpl in Hj.
    destruct i as [| i]; simpl in Hi.
    + inversion Hi; subst. rewrite Forall_forall in Hx.
      apply Hx. eapply nth_error_In; exact Hj.
    + apply (IH i j); auto. lia.
Qed.

(** ** The order of floats *)

Lemma pos_compare_cont_Eq (p q : positive) :
  Pos.compare_cont Eq p q = Pos.compare p q.
Proof. reflexivity. Qed.

(** Case analysis on the comparisons of exponents and mantissas. *)
Ltac float_order :=
  repeat match goal with
         | H : context [Pos.compare_cont Eq ?p ?q] |- _ =>
             rewrite (pos_compare_cont_Eq p q) in H
         | |- context [Pos.compare_cont Eq ?p ?q] =>
             rewrite (pos_compare_cont_Eq p q)
         end;
  repeat match goal with
         | H : context [Z.compare ?a ?b] |- _ =>
             destruct (Z.compare_spec a b); simpl in H
         | |- context [Z.compare ?a ?b] =>
             destruct (Z.compare_spec a b); simpl
         | H : context [Pos.compare ?a ?b] |- _ =>
             destruct (Pos.compare_spec a b); simpl in H
         | |- context [Pos.compare ?a ?b] =>
             destruct (Pos.compare_spec a b); simpl
         end;
  subst; try discriminate; try reflexivity; try lia.

Lemma float_ltb_asym (x y : Binary64.float) :
  Binary64.ltb x y = true -> Binary64.ltb y x = false.
Proof.
  unfold Binary64.ltb, SFltb.
  destruct x as [sx | sx | | sx mx ex], y as [sy | sy | | sy my ey];
    try destruct sx; try destruct sy; simpl; try discriminate;
    try reflexivity; intros H; float_order.
Qed.

Lemma float_ltb_negtrans (x y z : Binary64.float) :
  Binary64.is_number x = true -> Binary64.is_number y = true ->
  Binary64.is_number z = true ->
  Binary64.ltb y x = false -> Binary64.ltb z y = false ->
  Binary64.ltb z x = false.
Proof.
  unfold Binary64.ltb, SFltb.
  destruct x as [sx | sx | | sx mx ex], y as [sy | sy | | sy my ey],
    z as [sz | sz | | sz mz ez];
    try destruct sx; try destruct sy; try destruct sz; simpl;
    try discriminate; try reflexivity; intros _ _ _ H1 H2; float_order.
Qed.

Lemma float_eqb_ltb (x y : Binary64.float) :
  Binary64.eqb x y = true ->
  Binary64.ltb x y = false /\ Binary64.ltb y x = false
  /\ Binary64.is_number x = true /\ Binary64.is_number y = true.
Proof.
  unfold Binary64.eqb, Binary64.ltb, SFeqb, SFltb.
  destruct x as [sx | sx | | sx mx ex], y as [sy | sy | | sy my ey];
    try destruct sx; try destruct sy; simpl; try discriminate;
    intros H; repeat split; float_order.
Qed.

Lemma float_eqb_refl (x : Binary64.float) :
  Binary64.is_number x = true -> Binary64.eqb x x = true.
Proof.
  unfold Binary64.eqb, SFeqb.
  destruct x as [sx | sx | | sx mx ex]; try destruct sx; simpl;
    try discriminate; try reflexivity; intros _;
    rewrite Z.compare_refl, pos_compare_cont_Eq, Pos.compare_refl;
    reflexivity.
Qed.

Lemma float_eqb_sym (x y : Binary64.float) :
  Binary64.eqb x y = true -> Binary64.eqb y x = true.
Proof.
  unfold Binary64.eqb, SFeqb.
  destruct x as [sx | sx | | sx mx ex], y as [sy | sy | | sy my ey];
    try destruct sx; try destruct sy; simpl; try discriminate;
    try reflexivity; intros H; float_order.
Qed.

Lemma float_ltb_eqb (x y z : Binary64.float) :
  Binary64.ltb x y = true -> Binary64.eqb y z = true ->
  Binary64.ltb x z = true.
Proof.
  unfold Binary64.eqb, Binary64.ltb, SFeqb, SFltb.
  destruct x as [sx | sx | | sx mx ex], y as [sy | sy | | sy my ey],
    z as [sz | sz | | sz mz ez];
    try destruct sx; try destruct sy; try destruct sz; simpl;
    try discriminate; try reflexivity; intros H1 H2; float_order.
Qed.

Lemma float_ltb_leb (x y : Binary64.float) :
  Binary64.is_number x = true -> Binary64.is_number y = true ->
  Binary64.ltb x y = false -> Binary64.leb y x = true.
Proof.
  unfold Binary64.leb, Binary64.ltb, SFleb, SFltb.
  destruct x as [sx | sx | | sx mx ex], y as [sy | sy | | sy my ey];
    try destruct sx; try destruct sy; simpl; try discriminate;
    try reflexivity; intros _ _ H; float_order.
Qed.

(** ** The priority scorer *)

Lemma deadline_case (u i e : Z) (dd : option Z) :
  exists c : option Z,
    In c Spec.deadline_cases
    /\ Helpers.calculate_priority_score u i e dd
       = Helpers.calculate_priority_score u i e c
    /\ Spec.deadline_bonus dd = Spec.deadline_bonus c.
Proof.
  unfold Helpers.calculate_priority_score, Spec.deadline_bonus,
    Spec.deadline_cases.
  destruct dd as [d |]; [| exists None; simpl; auto].
  destruct (d <=? 1) eqn:E1; [exists (Some 0); simpl; auto |].
  destruct (d <=? 3) eqn:E3; [exists (Some 2); simpl; auto |].
  destruct (d <=? 7) eqn:E7; [exists (Some 5); simpl; auto 6 |].
  exists (Some 8). simpl. auto 7.
Qed.

(** Finitely many cases: the factors of a task, the steps of the bonus. *)
Ltac score_cases Hu Hi He Hc :=
  simpl in Hu, Hi, He, Hc;
  repeat match goal with
         | H : _ \/ _ |- _ => destruct H as [H | H]
         | H : False |- _ => destruct H
         end;
  subst.

(** The float the code computes is the float nearest to the decimal the
    specification's formula gives. *)
Lemma calculate_priority_score_nearest (u i e : Z) (dd : option Z) :
  In u [5; 3; 1] -> In i [4; 3; 2] -> In e [1; 2; 3; 4; 5] ->
  Helpers.calculate_priority_score u i e dd
  = Binary64.of_Q (Spec.composite_score u i e dd).
Proof.
  intros Hu Hi He.
  destruct (deadline_case u i e dd) as (c & Hc & -> & Eb).
  unfold Spec.composite_score. rewrite Eb.
  score_cases Hu Hi He Hc; vm_compute; reflexivity.
Qed.

Lemma possible_score (u i e : Z) (dd : option Z) :
  In u [5; 3; 1] -> In i [4; 3; 2] -> In e [1; 2; 3; 4; 5] ->
  In (Helpers.calculate_priority_score u i e dd) Spec.possible_scores.
Proof.
  intros Hu Hi He.
  destruct (deadline_case u i e dd) as (c & Hc & -> & _).
  unfold Spec.possible_scores.
  apply in_flat_map. exists u. split; [exact Hu |].
  apply in_flat_map. exists i. split; [exact Hi |].
  apply in_flat_map. exists e. split; [exact He |].
  apply in_map. exact Hc.
Qed.

(** What holds of every possible score, by evaluation. *)
Lemma possible_scores_facts :
  forall x : Binary64.float,
    In x Spec.possible_scores ->
    Binary64.is_number x = true
    /\ Binary64.is_number (x + Binary64.lit 2 10)%f64 = true
    /\ Binary64.ltb x (x + Binary64.lit 2 10)%f64 = true
    /\ forall y : Binary64.float,
         In y Spec.possible_scores ->
         Binary64.ltb x y = true ->
         Binary64.ltb (x + Binary64.lit 2 10)%f64
                      (y + Binary64.lit 2 10)%f64 = true.
Proof.
  assert (H : forallb
                (fun x =>
                   Binary64.is_number x
                   && Binary64.is_number (x + Binary64.lit 2 10)%f64
                   && Binary64.ltb x (x + Binary64.lit 2 10)%f64
                   && forallb
                        (fun y =>
                           implb (Binary64.ltb x y)
                                 (Binary64.ltb (x + Binary64.lit 2 10)%f64
                                               (y + Binary64.lit 2 10)%f64))
                        Spec.possible_scores)
                Spec.possible_scores = true)
    by (vm_compute; reflexivity).
  rewrite forallb_forall in H.
  intros x Hx. specialize (H x Hx).
  rewrite !andb_true_iff in H. destruct H as [[[H1 H2] H3] H4].
  rewrite forallb_forall in H4.
  repeat split; try assumption.
  intros y Hy Hlt. specialize (H4 y Hy). rewrite Hlt in H4. exact H4.
Qed.

Section Scorer.

Variable days_remaining : string -> option Z.

Local Abbreviation score_task := (PriorityAgent._score_task days_remaining).

Lemma urgency_range (task : Task.t) :
  In (ScoredTask.urgency (ScoredTask.scoring_details (score_task task)))
     [5; 3; 1].
Proof.
  unfold PriorityAgent._score_task; simpl.
  unfold PriorityAgent.priority_map.
  repeat match goal with
         | |- context [if ?b then _ else _] => destruct b; [simpl; tauto |]
         end.
  simpl; tauto.
Qed.

Lemma importance_range (task : Task.t) :
  In (ScoredTask.importance (ScoredTask.scoring_details (score_task task)))
     [4; 3; 2].
Proof.
  unfold PriorityAgent._score_task; simpl.
  unfold PriorityAgent.importance_map.
  repeat match goal with
         | |- context [if ?b then _ else _] => destruct b; [simpl; tauto |]
         end.
  simpl; tauto.
Qed.

Lemma effort_range (task : Task.t) :
  In (ScoredTask.effort (ScoredTask.scoring_details (score_task task)))
     [1; 2; 3; 4; 5].
Proof.
  unfold PriorityAgent._score_task; simpl.
  repeat match goal with
         | |- context [if ?b then _ else _] => destruct b; [simpl; tauto |]
         end.
  simpl; tauto.
Qed.

Lemma base_score_possible (task : Task.t) :
  In (Spec.base_score days_remaining task) Spec.possible_scores.
Proof.
  unfold Spec.base_score.
  change (ScoredTask.priority_score (score_task task)) with
    (Helpers.calculate_priority_score
       (ScoredTask.urgency (ScoredTask.scoring_details (score_task task)))
       (ScoredTask.importance (ScoredTask.scoring_details (score_task task)))
       (ScoredTask.effort (ScoredTask.scoring_details (score_task task)))
       (ScoredTask.deadline_days
          (ScoredTask.scoring_details (score_task task)))).
  apply possible_score;
    [apply urgency_range | apply importance_range | apply effort_range].
Qed.

(** The bonus counts tenths, so the sum has one decimal and rounding to two
    leaves it as it is. *)
Lemma deadline_bonus_tenths (dd : option Z) :
  exists k : Z, (Spec.deadline_bonus dd == inject_Z k / 10)%Q.
Proof.
  destruct dd as [d |]; simpl.
  - destruct (d <=? 1); [exists 5; reflexivity |].
    destruct (d <=? 3); [exists 3; reflexivity |].
    destruct (d <=? 7); [exists 1; reflexivity | exists 0; reflexivity].
  - exists 0; reflexivity.
Qed.

Lemma composite_score_exact (u i e : Z) (dd : option Z) :
  (Spec.composite_score u i e dd
   == inject_Z (4 * u + 4 * i + (6 - e)) / 10 + Spec.deadline_bonus dd)%Q.
Proof.
  destruct (deadline_bonus_tenths dd) as [k Hk].
  unfold Spec.composite_score, Py.round.
  rewrite (round_half_even_comp _
             (inject_Z (10 * (4 * u + 4 * i + (6 - e) + k)))).
  - rewrite round_half_even_Z, Hk.
    change (inject_Z (10 ^ Z.of_nat 2)) with 100%Q.
    rewrite !inject_Z_mult, !inject_Z_plus, !inject_Z_mult.
    unfold Z.sub. rewrite inject_Z_plus, inject_Z_opp.
    change (inject_Z 10) with 10%Q. change (inject_Z 4) with 4%Q.
    change (inject_Z 6) with 6%Q. field.
  - rewrite Hk.
    change (inject_Z (10 ^ Z.of_nat 2)) with 100%Q.
    rewrite !inject_Z_mult, !inject_Z_plus, !inject_Z_mult.
    unfold Z.sub. rewrite inject_Z_plus, inject_Z_opp.
    change (inject_Z 10) with 10%Q. change (inject_Z 4) with 4%Q.
    change (inject_Z 6) with 6%Q. field.
Qed.

(** C5.  For every task the score the scorer stores is the float that
    stands for [0.4*urgency + 0.4*importance + 0.1*(6 - effort) +
    deadline_bonus] rounded to two decimals (the float nearest to that
    decimal), over the factors it stores in [scoring_details]; the bonus is
    0.5, 0.3, 0.1 or 0 by the steps 1, 3 and 7 of [deadline_days] and 0 when
    [deadline_days] is [None], which it is exactly for a deadline that is
    missing, [None], empty or unparseable.  Then the sum has no deadline
    term: a missing deadline does not count as one that is due today, which
    would add 0.5. *)
Theorem C5_composite_score (task : Task.t) :
  let s := PriorityAgent._score_task days_remaining task in
  let d := ScoredTask.scoring_details s in
  ScoredTask.priority_score s
  = Binary64.of_Q
      (Spec.composite_score (ScoredTask.urgency d) (ScoredTask.importance d)
         (ScoredTask.effort d) (ScoredTask.deadline_days d))
  /\ ScoredTask.deadline_days d
     = Spec.deadline_days_of days_remaining (Task.deadline task)
  /\ (Spec.composite_score (ScoredTask.urgency d) (ScoredTask.importance d)
        (ScoredTask.effort d) None
      == Py.round (0.4 * inject_Z (ScoredTask.urgency d)
                   + 0.4 * inject_Z (ScoredTask.importance d)
                   + 0.1 * (6 - inject_Z (ScoredTask.effort d))) 2)%Q
  /\ (Spec.composite_score (ScoredTask.urgency d) (ScoredTask.importance d)
        (ScoredTask.effort d) (Some 0%Z)
      == Spec.composite_score (ScoredTask.urgency d) (ScoredTask.importance d)
           (ScoredTask.effort d) None + 0.5)%Q.
Proof.
  intros s d. repeat split.
  - subst d s.
    apply calculate_priority_score_nearest;
      [apply urgency_range | apply importance_range | apply effort_range].
  - subst d s. unfold PriorityAgent._score_task. simpl.
    destruct (Task.deadline task) as [| | str]; try reflexivity.
    simpl. destruct (str =? "")%string; [reflexivity |].
    destruct (days_remaining str) as [n |]; simpl; [| reflexivity].
    rewrite Z.max_comm. reflexivity.
  - unfold Spec.composite_score.
    rewrite (round_comp _
               (0.4 * inject_Z (ScoredTask.urgency d)
                + 0.4 * inject_Z (ScoredTask.importance d)
                + 0.1 * (6 - inject_Z (ScoredTask.effort d)))%Q);
      [reflexivity |].
    simpl. ring.
  - rewrite !composite_score_exact. simpl. ring.
Qed.

End Scorer.

(** The scenario of the specification: the stand-up scores 4.1 and the
    documentation 2.3 (urgency 5 against 3, importance 4 against 2). *)
Lemma scores_scenario :
  map (fun t =>
         ScoredTask.priority_score
           (PriorityAgent._score_task Examples.no_deadlines t))
      [Examples.standup; Examples.plain "Docs" "writing" "medium" 90]
  = [Binary64.lit 41 10; Binary64.lit 23 10].
Proof. vm_compute. reflexivity. Qed.

(** ** The ranking *)

Lemma map_pointwise {A B C : Type} (f : A -> C) (g : B -> C) (h : A -> B)
    (l : list A) :
  map f l = map g (map h l) -> Forall (fun x => f x = g (h x)) l.
Proof.
  induction l as [| x l IH]; simpl; intros H.
  - constructor.
  - inversion H. constructor; [assumption | apply IH; assumption].
Qed.

(** *** Positions in a filtered list *)

Lemma filter_keeps_order {A : Type} (P : A -> bool) (l : list A)
    (i j : nat) (a b : A) :
  (i < j)%nat -> nth_error l i = Some a -> nth_error l j = Some b ->
  P a = true -> P b = true ->
  Spec.in_input_order (filter P l) a b.
Proof.
  revert i j. induction l as [| x l IH]; intros i j Hij Hi Hj Pa Pb.
  - destruct i; discriminate Hi.
  - destruct j as [| j]; [lia |]. simpl in Hj.
    destruct i as [| i]; simpl in Hi.
    + inversion Hi; subst x. simpl. rewrite Pa.
      assert (Hb : In b (filter P l)).
      { apply filter_In. split; [eapply nth_error_In; exact Hj | exact Pb]. }
      apply In_nth_error in Hb. destruct Hb as [k Hk].
      exists 0%nat, (S k). repeat split; [lia | exact Hk].
    + destruct (IH i j) as (i' & j' & Hij' & Hi' & Hj'); auto; [lia |].
      simpl. destruct (P x).
      * exists (S i'), (S j'). repeat split; [lia | exact Hi' | exact Hj'].
      * exists i', j'. repeat split; assumption.
Qed.

Lemma filter_order_is_input_order {A : Type} (P : A -> bool) (l : list A)
    (a b : A) :
  Spec.in_input_order (filter P l) a b -> Spec.in_input_order l a b.
Proof.
  intros (i & j & Hij & Hi & Hj). revert i j Hij Hi Hj.
  induction l as [| x l IH]; intros i j Hij Hi Hj.
  - destruct i; discriminate Hi.
  - simpl in Hi, Hj. destruct (P x).
    + destruct j as [| j]; [lia |]. simpl in Hj.
      destruct i as [| i]; simpl in Hi.
      * inversion Hi; subst x.
        apply nth_error_In, filter_In in Hj. destruct Hj as [Hb _].
        apply In_nth_error in Hb. destruct Hb as [k Hk].
        exists 0%nat, (S k). repeat split; [lia | exact Hk].
      * destruct (IH i j) as (i' & j' & Hij' & Hi' & Hj'); auto; [lia |].
        exists (S i'), (S j'). repeat split; [lia | exact Hi' | exact Hj'].
    + destruct (IH i j) as (i' & j' & Hij' & Hi' & Hj'); auto.
      exists (S i'), (S j'). repeat split; [lia | exact Hi' | exact Hj'].
Qed.

Section Ranking.

Variable days_remaining : string -> option Z.
Variable memory_bank : MemoryBank.t.

Local Abbreviation base := (Spec.base_score days_remaining).
Local Abbreviation final := (Spec.final_score days_remaining memory_bank).
Local Abbreviation final_view :=
  (Spec.final_view days_remaining memory_bank).
Local Abbreviation ranking := (Spec.ranking days_remaining memory_bank).
Local Abbreviation first_ranking := (Spec.first_ranking days_remaining).
Local Abbreviation second_ranking :=
  (Spec.second_ranking days_remaining memory_bank).

(** *** The scores are numbers, and 0.2 moves them apart *)

Lemma base_number (t : Task.t) : Binary64.is_number (base t) = true.
Proof.
  apply (possible_scores_facts _ (base_score_possible days_remaining t)).
Qed.

Lemma final_number (t : Task.t) : Binary64.is_number (final t) = true.
Proof.
  unfold Spec.final_score.
  destruct (Spec.preferred memory_bank t); [| apply base_number].
  apply (possible_scores_facts _ (base_score_possible days_remaining t)).
Qed.

Lemma base_asym (a b : Task.t) :
  Spec.goes_first Binary64.ltb base true a b = true ->
  Spec.goes_first Binary64.ltb base true b a = false.
Proof. apply float_ltb_asym. Qed.

Lemma base_negtrans (a b c : Task.t) :
  Spec.goes_first Binary64.ltb base true a b = false ->
  Spec.goes_first Binary64.ltb base true b c = false ->
  Spec.goes_first Binary64.ltb base true a c = false.
Proof.
  unfold Spec.goes_first. intros H1 H2.
  apply (float_ltb_negtrans (base c) (base b) (base a));
    try apply base_number; assumption.
Qed.

Lemma final_asym (a b : Task.t) :
  Spec.goes_first Binary64.ltb final true a b = true ->
  Spec.goes_first Binary64.ltb final true b a = false.
Proof. apply float_ltb_asym. Qed.

Lemma final_negtrans (a b c : Task.t) :
  Spec.goes_first Binary64.ltb final true a b = false ->
  Spec.goes_first Binary64.ltb final true b c = false ->
  Spec.goes_first Binary64.ltb final true a c = false.
Proof.
  unfold Spec.goes_first. intros H1 H2.
  apply (float_ltb_negtrans (final c) (final b) (final a));
    try apply final_number; assumption.
Qed.

(** Two tasks of one tie class do not differ before the adjustment. *)
Lemma tie_class_base (v : Binary64.float) (b : bool) (x y : Task.t) :
  Spec.tie_class v b (final_view x) = true ->
  Spec.tie_class v b (final_view y) = true ->
  Binary64.ltb (final x) (final y) = false
  /\ Binary64.ltb (base x) (base y) = false.
Proof.
  unfold Spec.tie_class, Spec.final_view, Spec.view_score,
    Spec.view_adjusted. cbn [fst snd].
  rewrite !andb_true_iff, !Bool.eqb_true_iff.
  intros [Hx Bx] [Hy By].
  destruct (float_eqb_ltb _ _ Hx) as (Hxv & _ & Nx & Nv).
  destruct (float_eqb_ltb _ _ Hy) as (_ & Hvy & Ny & _).
  assert (F : Binary64.ltb (final x) (final y) = false)
    by (apply (float_ltb_negtrans (final y) v (final x)); assumption).
  split; [exact F |].
  unfold Spec.final_score in F. rewrite Bx, By in F.
  destruct b; [| exact F].
  destruct (Binary64.ltb (base x) (base y)) eqn:E; [| reflexivity].
  destruct (possible_scores_facts _ (base_score_possible days_remaining x))
    as (_ & _ & _ & Hmono).
  rewrite (Hmono _ (base_score_possible days_remaining y) E) in F.
  discriminate F.
Qed.

(** *** The ranking as two sorts of the task list *)

Lemma view_assign_ranks (l : list ScoredTask.t) :
  map Spec.view (PriorityAgent.assign_ranks l) = map Spec.view l.
Proof.
  unfold PriorityAgent.assign_ranks, Py.enumerate. generalize 0.
  induction l as [| s l IH]; intros start; simpl.
  - reflexivity.
  - f_equal. apply IH.
Qed.

Lemma rank_assign_ranks (l : list ScoredTask.t) (i : nat) (s : ScoredTask.t) :
  nth_error (PriorityAgent.assign_ranks l) i = Some s ->
  ScoredTask.rank s = Some (Z.of_nat i + 1).
Proof.
  unfold PriorityAgent.assign_ranks, Py.enumerate.
  assert (G : forall start,
             nth_error
               (map (fun it => ScoredTask.set_rank (fst it + 1) (snd it))
                    (Py.enumerate_from start l)) i = Some s ->
             ScoredTask.rank s = Some (start + Z.of_nat i + 1)).
  { revert i. induction l as [| x l IH]; intros i start H.
    - destruct i; discriminate H.
    - destruct i as [| i]; simpl in H.
      + inversion H; subst. simpl. f_equal. lia.
      + apply IH in H. rewrite H. f_equal. lia. }
  intros H. apply G in H. rewrite H. f_equal.
Qed.

Lemma view_sorted (l : list ScoredTask.t) :
  map Spec.view (Py.sorted Binary64.ltb ScoredTask.priority_score true l)
  = Py.sorted Binary64.ltb Spec.view_score true (map Spec.view l).
Proof.
  exact (sorted_map Binary64.ltb Spec.view_score true Spec.view l).
Qed.

Lemma view_adjust (s : ScoredTask.t) :
  Spec.view
    (PriorityAgent.adjust
       (MemoryBank.get_morning_categories memory_bank ["meeting"; "review"])
       s)
  = Spec.adjust_view memory_bank (Spec.view s).
Proof.
  unfold PriorityAgent.adjust, Spec.adjust_view, Spec.preferred.
  change (Spec.view_task (Spec.view s)) with (ScoredTask.task s).
  destruct (Task.category (ScoredTask.task s)) as [c |]; [| reflexivity].
  destruct (Py.in_str c _); reflexivity.
Qed.

Lemma adjust_scored (t : Task.t) :
  Spec.adjust_view memory_bank (Spec.scored_view days_remaining t)
  = final_view t.
Proof.
  unfold Spec.adjust_view, Spec.scored_view, Spec.final_view,
    Spec.final_score, Spec.view_task, Spec.view_score.
  cbn [fst snd].
  destruct (Spec.preferred memory_bank t); reflexivity.
Qed.

(** Without its rank stamps the ranking is the task list sorted by the
    first score and then by the final one, each task with its final score. *)
Lemma view_ranking (tasks : list Task.t) :
  map Spec.view (ranking tasks) = map final_view (second_ranking tasks).
Proof.
  unfold Spec.ranking, PriorityAgent.prioritize_tasks,
    PriorityAgent._apply_user_preferences. simpl.
  rewrite view_assign_ranks, view_sorted, map_map.
  rewrite (map_ext _ (fun s => Spec.adjust_view memory_bank (Spec.view s))
             view_adjust).
  rewrite <- (map_map Spec.view (Spec.adjust_view memory_bank)).
  rewrite view_assign_ranks, view_sorted, map_map.
  change (map (fun t => Spec.view (PriorityAgent._score_task days_remaining t))
              tasks)
    with (map (Spec.scored_view days_remaining) tasks).
  rewrite <- (sorted_map Binary64.ltb Spec.view_score true
                (Spec.scored_view days_remaining) tasks).
  rewrite map_map, (map_ext _ _ adjust_scored).
  rewrite <- (sorted_map Binary64.ltb Spec.view_score true final_view).
  reflexivity.
Qed.

Lemma ranking_tasks (tasks : list Task.t) :
  map ScoredTask.task (ranking tasks) = second_ranking tasks.
Proof.
  change ScoredTask.task with (fun s => Spec.view_task (Spec.view s)).
  rewrite <- (map_map Spec.view Spec.view_task), view_ranking, map_map.
  apply map_id.
Qed.

Lemma ranking_scores (tasks : list Task.t) :
  Forall (fun s => Spec.view s = final_view (ScoredTask.task s))
         (ranking tasks).
Proof.
  apply map_pointwise. rewrite ranking_tasks. apply view_ranking.
Qed.

Lemma second_ranking_perm (tasks : list Task.t) :
  Permutation (second_ranking tasks) tasks.
Proof.
  unfold Spec.second_ranking, Spec.first_ranking.
  eapply perm_trans; apply sorted_perm.
Qed.

(** By final score, and by the first score where the final scores tie. *)
Lemma second_ranking_sorted (tasks : list Task.t) :
  StronglySorted
    (Spec.by_key_then Binary64.ltb final true
       (fun a b => Binary64.ltb (base a) (base b) = false))
    (second_ranking tasks).
Proof.
  unfold Spec.second_ranking.
  apply (sorted_sorted Binary64.ltb final true (fun _ => True)).
  - intros a b _ _. apply final_asym.
  - intros a b c _ _ _. apply final_negtrans.
  - apply Forall_forall. intros; exact I.
  - apply (StronglySorted_weaken (fun _ => True)
             (Spec.by_key_then Binary64.ltb base true (fun _ _ => True))).
    + intros a b _ _ [Hab _]. exact Hab.
    + apply Forall_forall. intros; exact I.
    + apply (sorted_sorted Binary64.ltb base true (fun _ => True)).
      * intros a b _ _. apply base_asym.
      * intros a b c _ _ _. apply base_negtrans.
      * apply Forall_forall. intros; exact I.
      * apply StronglySorted_True.
Qed.

Lemma second_ranking_stable (tasks : list Task.t)
    (v : Binary64.float) (b : bool) :
  filter (fun t => Spec.tie_class v b (final_view t)) (second_ranking tasks)
  = filter (fun t => Spec.tie_class v b (final_view t)) tasks.
Proof.
  unfold Spec.second_ranking, Spec.first_ranking.
  rewrite sorted_filter.
  - apply sorted_filter. intros x y _ _ Hx Hy.
    apply (tie_class_base v b x y Hx Hy).
  - intros x y _ _ Hx Hy. apply (tie_class_base v b x y Hx Hy).
Qed.

(** *** The order of the ranking *)

(** C2, as the code has it.  For every input task list the ranking holds
    the input tasks, each with its final score (the rounded composite score,
    plus 0.2 when the category is one of the [morning_categories]); it is
    in descending order of the final score and carries the ranks 1, 2, ...
    Two tasks whose final scores are equal stand in the order of the first,
    unadjusted ranking: a task that was not adjusted stands before one that
    was, and two tasks that were both adjusted, or both not, stand in their
    original input order. *)
Theorem C2_ranking_order (tasks : list Task.t) :
  let out := Spec.ranking days_remaining memory_bank tasks in
  Permutation (map ScoredTask.task out) tasks
  /\ Forall
       (fun s =>
          ScoredTask.priority_score s
          = Spec.final_score days_remaining memory_bank (ScoredTask.task s)
          /\ ScoredTask.adjusted_for_preferences s
             = Spec.preferred memory_bank (ScoredTask.task s))
       out
  /\ StronglySorted
       (fun a b =>
          Binary64.leb (ScoredTask.priority_score b)
                       (ScoredTask.priority_score a) = true)
       out
  /\ (forall (i : nat) (s : ScoredTask.t),
        nth_error out i = Some s ->
        ScoredTask.rank s = Some (Z.of_nat i + 1))
  /\ (forall (v : Binary64.float) (b : bool),
        map ScoredTask.task
            (filter (fun s => Spec.tie_class v b (Spec.view s)) out)
        = filter
            (fun t =>
               Spec.tie_class v b
                 (Spec.final_view days_remaining memory_bank t))
            tasks)
  /\ (forall (i j : nat) (si sj : ScoredTask.t),
        (i < j)%nat ->
        nth_error out i = Some si -> nth_error out j = Some sj ->
        Binary64.eqb (ScoredTask.priority_score si)
                     (ScoredTask.priority_score sj) = true ->
        (ScoredTask.adjusted_for_preferences si = false
         /\ ScoredTask.adjusted_for_preferences sj = true)
        \/ (ScoredTask.adjusted_for_preferences si
            = ScoredTask.adjusted_for_preferences sj
            /\ Spec.in_input_order tasks
                 (ScoredTask.task si) (ScoredTask.task sj))).
Proof.
  intros out.
  pose proof (ranking_tasks tasks) as Htasks.
  pose proof (ranking_scores tasks) as Hscores.
  pose proof (second_ranking_sorted tasks) as Hsort.
  fold out in Htasks, Hscores. rewrite <- Htasks in Hsort.
  apply (proj1 (StronglySorted_map _ ScoredTask.task out)) in Hsort.
  assert (Hview : forall s, In s out ->
                            ScoredTask.priority_score s
                            = final (ScoredTask.task s)
                            /\ ScoredTask.adjusted_for_preferences s
                               = Spec.preferred memory_bank
                                   (ScoredTask.task s)).
  { rewrite Forall_forall in Hscores. intros s Hs.
    specialize (Hscores s Hs). unfold Spec.view, Spec.final_view in Hscores.
    inversion Hscores. split; reflexivity. }
  assert (Hties :
            forall v b,
              map ScoredTask.task
                  (filter (fun s => Spec.tie_class v b (Spec.view s)) out)
              = filter (fun t => Spec.tie_class v b (final_view t)) tasks).
  { intros v b.
    rewrite <- (second_ranking_stable tasks v b), <- Htasks.
    rewrite filter_map_swap. f_equal.
    apply filter_ext_in. intros s Hs.
    rewrite Forall_forall in Hscores. rewrite (Hscores s Hs). reflexivity. }
  split; [| split; [| split; [| split; [| split]]]].
  - rewrite Htasks. apply second_ranking_perm.
  - apply Forall_forall. exact Hview.
  - eapply (StronglySorted_weaken (fun s => In s out)); [| | exact Hsort].
    + intros a b Ha Hb [Hab _]. unfold Spec.goes_first in Hab.
      destruct (Hview a Ha) as [-> _]. destruct (Hview b Hb) as [-> _].
      apply float_ltb_leb; try apply final_number. exact Hab.
    + apply Forall_forall. auto.
  - intros i s Hs. unfold out, Spec.ranking in Hs.
    unfold PriorityAgent.prioritize_tasks,
      PriorityAgent._apply_user_preferences in Hs. simpl in Hs.
    eapply rank_assign_ranks. exact Hs.
  - exact Hties.
  - intros i j si sj Hij Hi Hj E.
    pose proof (nth_error_In _ _ Hi) as Ini.
    pose proof (nth_error_In _ _ Hj) as Inj.
    destruct (Hview si Ini) as [Si Ai]. destruct (Hview sj Inj) as [Sj Aj].
    destruct (float_eqb_ltb _ _ E) as (Eij & Eji & Ni & Nj).
    destruct (StronglySorted_nth _ _ Hsort i j si sj Hij Hi Hj) as [_ Hbase].
    assert (Hb : Binary64.ltb (base (ScoredTask.task si))
                              (base (ScoredTask.task sj)) = false).
    { apply Hbase. unfold Spec.goes_first. rewrite <- Si, <- Sj. exact Eji. }
    assert (Hclass :
              ScoredTask.adjusted_for_preferences si
              = ScoredTask.adjusted_for_preferences sj ->
              Spec.in_input_order tasks
                (ScoredTask.task si) (ScoredTask.task sj)).
    { intros Esame.
      apply (filter_order_is_input_order
               (fun t =>
                  Spec.tie_class (ScoredTask.priority_score si)
                    (ScoredTask.adjusted_for_preferences si) (final_view t))).
      rewrite <- (Hties (ScoredTask.priority_score si)
                        (ScoredTask.adjusted_for_preferences si)).
      destruct (filter_keeps_order
                  (fun s =>
                     Spec.tie_class (ScoredTask.priority_score si)
                       (ScoredTask.adjusted_for_preferences si) (Spec.view s))
                  out i j si sj Hij Hi Hj) as (i' & j' & Hij' & Hi' & Hj').
      - unfold Spec.tie_class, Spec.view, Spec.view_score,
          Spec.view_adjusted. cbn [fst snd].
        rewrite (float_eqb_refl _ Ni). destruct
          (ScoredTask.adjusted_for_preferences si); reflexivity.
      - unfold Spec.tie_class, Spec.view, Spec.view_score,
          Spec.view_adjusted. cbn [fst snd].
        rewrite (float_eqb_sym _ _ E), <- Esame. destruct
          (ScoredTask.adjusted_for_preferences si); reflexivity.
      - exists i', j'. repeat split; [exact Hij' | |];
          apply map_nth_error; assumption. }
    destruct (ScoredTask.adjusted_for_preferences si) eqn:Fi,
      (ScoredTask.adjusted_for_preferences sj) eqn:Fj.
    + right. split; [reflexivity | apply Hclass; reflexivity].
    + exfalso.
      unfold Spec.final_score in Si, Sj. rewrite <- Ai in Si.
      rewrite <- Aj in Sj.
      destruct (possible_scores_facts _
                  (base_score_possible days_remaining (ScoredTask.task si)))
        as (_ & _ & Hinc & _).
      rewrite <- Si in Hinc. rewrite Sj in E.
      rewrite (float_ltb_eqb _ _ _ Hinc E) in Hb. discriminate Hb.
    + left. split; reflexivity.
    + right. split; [reflexivity | apply Hclass; reflexivity].
Qed.

End Ranking.

(** The review task is ranked below the long task although it comes first
    in the input and the final scores are both the float 3.0: the first
    ranking put it second (2.8 against 3.0) and the second ranking, being
    stable, left it there. *)
Lemma C2_ranking_of_tie :
  map (fun s => (ScoredTask.task s, ScoredTask.priority_score s,
                 ScoredTask.rank s))
      (Spec.ranking Examples.no_deadlines Examples.empty_bank
         [Examples.review_task; Examples.long_task])
  = [(Examples.long_task, Binary64.of_int 3, Some 1);
     (Examples.review_task, Binary64.of_int 3, Some 2)].
Proof. vm_compute. reflexivity. Qed.

(** C2, as stated, fails: equal final scores, but not the input order. *)
Lemma C2_counterexample :
  ~ Spec.ties_keep_input_order
      [Examples.review_task; Examples.long_task]
      (Spec.ranking Examples.no_deadlines Examples.empty_bank
         [Examples.review_task; Examples.long_task]).
Proof.
  remember (Spec.ranking Examples.no_deadlines Examples.empty_bank
              [Examples.review_task; Examples.long_task]) as out eqn:E.
  vm_compute in E. subst out. intros H.
  destruct (H 0%nat 1%nat _ _ (Nat.lt_0_1) eq_refl eq_refl)
    as (i & j & Hij & Hi & Hj).
  - vm_compute. reflexivity.
  - destruct i as [| [| i]]; vm_compute in Hi; try discriminate Hi.
    + destruct j as [| [| [| j]]]; vm_compute in Hj; try discriminate Hj; lia.
    + destruct i; discriminate Hi.
Qed.

(** Floats are not decimals: 2.6 + 0.2 is above the float 2.8, so a coding
    task of medium priority and three hours (2.6), once adjusted, does not
    tie with the review task (2.8) but ranks before it. *)
Lemma adjusted_score_without_tie :
  Binary64.ltb (Binary64.lit 28 10)
               (Binary64.lit 26 10 + Binary64.lit 2 10)%f64 = true.
Proof. vm_compute. reflexivity. Qed.

(** ** The scheduler *)

(** *** The order of strings *)

Lemma ascii_compare_refl (a : ascii) : Ascii.compare a a = Eq.
Proof. unfold Ascii.compare. apply N.compare_refl. Qed.

Lemma ascii_compare_lt_trans (a b c : ascii) :
  Ascii.compare a b = Lt -> Ascii.compare b c = Lt -> Ascii.compare a c = Lt.
Proof.
  unfold Ascii.compare. rewrite !N.compare_lt_iff. lia.
Qed.

Lemma string_compare_lt_trans (x y z : string) :
  String.compare x y = Lt -> String.compare y z = Lt ->
  String.compare x z = Lt.
Proof.
  revert y z. induction x as [| a x IH]; intros [| b y] [| c z];
    simpl; try discriminate; try reflexivity.
  destruct (Ascii.compare a b) eqn:E1, (Ascii.compare b c) eqn:E2;
    try discriminate; intros H1 H2.
  - apply Ascii.compare_eq_iff in E1, E2. subst.
    rewrite ascii_compare_refl. eapply IH; eassumption.
  - apply Ascii.compare_eq_iff in E1. subst. rewrite E2. reflexivity.
  - apply Ascii.compare_eq_iff in E2. subst. rewrite E1. reflexivity.
  - rewrite (ascii_compare_lt_trans a b c E1 E2). reflexivity.
Qed.

Lemma string_ltb_asym (x y : string) :
  String.ltb x y = true -> String.ltb y x = false.
Proof.
  unfold String.ltb. rewrite (String.compare_antisym y x).
  destruct (String.compare x y); simpl; congruence.
Qed.

Lemma string_ltb_negtrans (x y z : string) :
  String.ltb y x = false -> String.ltb z y = false -> String.ltb z x = false.
Proof.
  unfold String.ltb. intros Hyx Hzy.
  destruct (String.compare z x) eqn:Ezx; try reflexivity.
  exfalso.
  destruct (String.compare y x) eqn:Eyx; try discriminate Hyx.
  - apply String.compare_eq_iff in Eyx. subst y.
    rewrite Ezx in Hzy. discriminate Hzy.
  - assert (Exy : String.compare x y = Lt).
    { rewrite String.compare_antisym, Eyx. reflexivity. }
    rewrite (string_compare_lt_trans z x y Ezx Exy) in Hzy.
    discriminate Hzy.
Qed.

Lemma string_ltb_false_leb (x y : string) :
  String.ltb y x = false -> String.leb x y = true.
Proof.
  unfold String.ltb, String.leb. rewrite (String.compare_antisym y x).
  destruct (String.compare x y); simpl; congruence.
Qed.

Lemma string_leb_empty (x : string) : String.leb x "" = true -> x = "".
Proof.
  destruct x; [reflexivity | discriminate].
Qed.

(** *** The sort keys *)

Lemma comparable_refl (k : PlannerAgent.sort_key_t) :
  PlannerAgent.comparable k k = true.
Proof.
  destruct k as [r [| s]]; unfold PlannerAgent.comparable, PlannerAgent.key_lt;
    simpl; rewrite Z.eqb_refl; reflexivity.
Qed.

Lemma comparable_sym (a b : PlannerAgent.sort_key_t) :
  PlannerAgent.comparable a b = PlannerAgent.comparable b a.
Proof.
  destruct a as [ra da], b as [rb db].
  unfold PlannerAgent.comparable, PlannerAgent.key_lt. simpl.
  rewrite (Z.eqb_sym rb ra).
  destruct (ra =? rb); [destruct da, db |]; reflexivity.
Qed.

Lemma all_comparable_In (keys : list PlannerAgent.sort_key_t) :
  PlannerAgent.all_comparable keys = true ->
  forall a b, In a keys -> In b keys -> PlannerAgent.comparable a b = true.
Proof.
  induction keys as [| k keys IH]; simpl; intros H a b Ha Hb.
  - destruct Ha.
  - apply andb_true_iff in H. destruct H as [Hk Hrest].
    rewrite forallb_forall in Hk.
    destruct Ha as [<- | Ha], Hb as [<- | Hb].
    + apply comparable_refl.
    + apply Hk; exact Hb.
    + rewrite comparable_sym. apply Hk; exact Ha.
    + apply IH; assumption.
Qed.

Lemma key_ltb_asym (a b : PlannerAgent.sort_key_t) :
  PlannerAgent.key_ltb a b = true -> PlannerAgent.key_ltb b a = false.
Proof.
  destruct a as [ra da], b as [rb db].
  unfold PlannerAgent.key_ltb, PlannerAgent.key_lt. simpl.
  rewrite (Z.eqb_sym rb ra).
  destruct (Z.eqb_spec ra rb) as [E | N].
  - destruct da as [| sa], db as [| sb]; try discriminate; try reflexivity.
    apply string_ltb_asym.
  - intros H. apply Z.ltb_lt in H. apply Z.ltb_ge. lia.
Qed.

Lemma key_ltb_negtrans (a b c : PlannerAgent.sort_key_t) :
  PlannerAgent.comparable a b = true ->
  PlannerAgent.comparable b c = true ->
  PlannerAgent.comparable a c = true ->
  PlannerAgent.key_ltb b a = false -> PlannerAgent.key_ltb c b = false ->
  PlannerAgent.key_ltb c a = false.
Proof.
  destruct a as [ra da], b as [rb db], c as [rc dc].
  unfold PlannerAgent.comparable, PlannerAgent.key_ltb, PlannerAgent.key_lt.
  simpl.
  rewrite (Z.eqb_sym rb ra), (Z.eqb_sym rc rb), (Z.eqb_sym rc ra).
  destruct (Z.eqb_spec ra rb) as [Eab | Nab],
    (Z.eqb_spec rb rc) as [Ebc | Nbc],
    (Z.eqb_spec ra rc) as [Eac | Nac];
    try (exfalso; lia);
    intros Cab Cbc Cac Hba Hcb;
    try (apply Z.ltb_ge in Hba); try (apply Z.ltb_ge in Hcb);
    try (apply Z.ltb_ge; lia); try (exfalso; lia).
  destruct da as [| sa], db as [| sb], dc as [| sc];
    try discriminate; try reflexivity.
  eapply string_ltb_negtrans; eassumption.
Qed.

(** Where the keys compare, [not (b < a)] is the order of the plan. *)
Lemma key_ltb_false_le (a b : Task.t) :
  PlannerAgent.comparable (Spec.key_of a) (Spec.key_of b) = true ->
  PlannerAgent.key_ltb (Spec.key_of b) (Spec.key_of a) = false ->
  Spec.planner_le a b.
Proof.
  unfold PlannerAgent.comparable, PlannerAgent.key_ltb, PlannerAgent.key_lt,
    Spec.planner_le, Spec.key_of, Spec.deadline_key_of, Spec.deadline_text.
  simpl. rewrite (Z.eqb_sym (Spec.task_rank b) (Spec.task_rank a)).
  destruct (Z.eqb_spec (Spec.task_rank a) (Spec.task_rank b)) as [E | N].
  - intros C H. right. split; [exact E |].
    destruct (Task.deadline a), (Task.deadline b);
      try discriminate C; try reflexivity;
      apply string_ltb_false_leb; exact H.
  - intros _ H. apply Z.ltb_ge in H. left. lia.
Qed.

(** *** [sorted_tasks] *)

Lemma traverse_sort_key (tasks : list Task.t)
    (keys : list PlannerAgent.sort_key_t) :
  Py.traverse PlannerAgent.sort_key tasks = Ok keys ->
  keys = map Spec.key_of tasks
  /\ Forall (fun t => Task.priority t <> None) tasks.
Proof.
  revert keys. induction tasks as [| t tasks IH]; simpl; intros keys H.
  - inversion H. split; [reflexivity | constructor].
  - bind_inv H. bind_inv H. inversion H; subst keys.
    destruct (IH _ Ha0) as [-> Hall].
    unfold PlannerAgent.sort_key in Ha.
    destruct (Task.priority t) as [p |] eqn:Ep; simpl in Ha;
      [| discriminate Ha].
    inversion Ha; subst a. split.
    + unfold Spec.key_of, Spec.task_rank, Spec.deadline_key_of.
      rewrite Ep. reflexivity.
    + constructor; [congruence | exact Hall].
Qed.

Lemma traverse_sort_key_Ok (tasks : list Task.t) :
  Forall (fun t => Task.priority t <> None) tasks ->
  Py.traverse PlannerAgent.sort_key tasks = Ok (map Spec.key_of tasks).
Proof.
  induction 1 as [| t tasks Ht _ IH]; simpl; [reflexivity |].
  unfold PlannerAgent.sort_key at 1.
  destruct (Task.priority t) as [p |] eqn:Ep; [| congruence]. simpl.
  rewrite IH. simpl.
  unfold Spec.key_of, Spec.task_rank, Spec.deadline_key_of.
  rewrite Ep. reflexivity.
Qed.

Lemma combine_keys (tasks : list Task.t) :
  combine (map Spec.key_of tasks) tasks
  = map (fun t => (Spec.key_of t, t)) tasks.
Proof.
  induction tasks as [| t tasks IH]; simpl; [reflexivity |].
  rewrite IH. reflexivity.
Qed.

(** The sort, when it does not raise, sorts the tasks by their keys. *)
Lemma sorted_tasks_Ok (tasks order : list Task.t) :
  PlannerAgent.sorted_tasks tasks = Ok order ->
  order = Py.sorted PlannerAgent.key_ltb Spec.key_of false tasks
  /\ PlannerAgent.all_comparable (map Spec.key_of tasks) = true
  /\ Forall (fun t => Task.priority t <> None) tasks.
Proof.
  unfold PlannerAgent.sorted_tasks. intros H. bind_inv H.
  destruct (traverse_sort_key _ _ Ha) as [-> Hprio].
  destruct (PlannerAgent.all_comparable (map Spec.key_of tasks)) eqn:C;
    [| discriminate H].
  inversion H; subst order. split; [| split; [reflexivity | exact Hprio]].
  rewrite combine_keys.
  rewrite <- (sorted_map PlannerAgent.key_ltb fst false
                (fun t => (Spec.key_of t, t)) tasks).
  rewrite map_map. simpl. apply map_id.
Qed.

(** *** The layout *)

Section Layout.

Variables anchor earliest latest : datetime.

Local Abbreviation layout := (PlannerAgent.layout earliest latest).

Lemma add_minutes_Ok (t minutes t' : datetime) :
  PlannerAgent.add_minutes earliest latest t minutes = Ok t' ->
  t' = t + minutes.
Proof.
  unfold PlannerAgent.add_minutes.
  destruct ((earliest <=? t + minutes) && (t + minutes <=? latest));
    intros H; inversion H; reflexivity.
Qed.

Lemma layout_laid_out (tasks : list Task.t) :
  forall (current : datetime) (schedule : list Block.t),
    layout current tasks = Ok schedule -> Spec.laid_out current schedule.
Proof.
  induction tasks as [| t tasks IH]; intros current schedule H; simpl in H.
  - inversion H. constructor.
  - bind_inv H. bind_inv H. bind_inv H. bind_inv H. bind_inv H. bind_inv H.
    inversion H; subst schedule.
    apply add_minutes_Ok in Ha, Ha3. subst.
    constructor; simpl; try reflexivity.
    apply IH. exact Ha4.
Qed.

(** The task blocks are the tasks, in the order given. *)
Lemma layout_lines (tasks : list Task.t) :
  forall (current : datetime) (schedule : list Block.t),
    layout current tasks = Ok schedule ->
    map Spec.block_line (filter Spec.is_task schedule)
    = map Spec.task_line tasks.
Proof.
  induction tasks as [| t tasks IH]; intros current schedule H; simpl in H.
  - inversion H. reflexivity.
  - bind_inv H. bind_inv H. bind_inv H. bind_inv H. bind_inv H. bind_inv H.
    inversion H; subst schedule. simpl.
    rewrite (IH _ _ Ha4). f_equal.
    unfold Spec.block_line, Spec.task_line. simpl.
    unfold Py.subscript in Ha0, Ha1, Ha2.
    destruct (Task.name t), (Task.category t), (Task.priority t);
      try discriminate.
    inversion Ha0; inversion Ha1; inversion Ha2. reflexivity.
Qed.

(** Tasks that can be laid out within the range of [datetime]. *)
Lemma layout_produces (tasks : list Task.t) :
  Forall (fun t => Task.name t <> None /\ Task.category t <> None
                   /\ Task.priority t <> None
                   /\ 0 <= Py.get (Task.estimated_duration t) 60) tasks ->
  forall current : datetime,
    earliest <= current ->
    current
    + Py.sum (map (fun t =>
                     Py.get (Task.estimated_duration t) 60
                     + Spec.break_after (Py.get (Task.estimated_duration t) 60))
                  tasks)
    <= latest ->
    exists schedule, layout current tasks = Ok schedule.
Proof.
  induction 1 as [| t tasks (Hn & Hc & Hp & Hd) Hall IH];
    intros current Hlo Hhi.
  - exists []. reflexivity.
  - cbn [map] in Hhi. rewrite sum_cons in Hhi.
    set (d := Py.get (Task.estimated_duration t) 60) in *.
    assert (Hb : 0 < Spec.break_after d)
      by (unfold Spec.break_after; destruct (d >=? 60); lia).
    assert (Hs : 0 <= Py.sum
                        (map (fun t =>
                                Py.get (Task.estimated_duration t) 60
                                + Spec.break_after
                                    (Py.get (Task.estimated_duration t) 60))
                             tasks)).
    { clear - Hall. induction Hall as [| x l (_ & _ & _ & Hx) _ IHl].
      - unfold Py.sum. simpl. lia.
      - cbn [map]. rewrite sum_cons.
        unfold Spec.break_after in *.
        destruct (Py.get (Task.estimated_duration x) 60 >=? 60); lia. }
    destruct (IH (current + d + Spec.break_after d)) as [rest Hrest];
      [lia | lia |].
    cbn [PlannerAgent.layout]. fold d.
    unfold PlannerAgent.add_minutes at 1.
    replace ((earliest <=? current + d) && (current + d <=? latest))
      with true by (symmetry; apply andb_true_iff; split; apply Z.leb_le; lia).
    simpl.
    destruct (Task.name t) as [n |]; [| congruence].
    destruct (Task.category t) as [c |]; [| congruence].
    destruct (Task.priority t) as [p |]; [| congruence].
    simpl. unfold PlannerAgent.add_minutes at 1.
    fold (Spec.break_after d).
    replace ((earliest <=? current + d + Spec.break_after d)
             && (current + d + Spec.break_after d <=? latest))
      with true by (symmetry; apply andb_true_iff; split; apply Z.leb_le; lia).
    simpl. rewrite Hrest. simpl. eexists. reflexivity.
Qed.

End Layout.

(** *** A schedule that is laid out *)

Lemma laid_out_first (current : datetime) (schedule : list Block.t)
    (b : Block.t) :
  Spec.laid_out current schedule ->
  nth_error schedule 0 = Some b -> Block.start_time b = current.
Proof.
  intros H. destruct H; simpl; intros E; [discriminate E | congruence].
Qed.

Lemma laid_out_contiguous (current : datetime) (schedule : list Block.t) :
  Spec.laid_out current schedule ->
  forall (i : nat) (b b' : Block.t),
    nth_error schedule i = Some b -> nth_error schedule (S i) = Some b' ->
    Block.end_time b = Block.start_time b'.
Proof.
  induction 1 as [| current tb bb rest Htb Hs He Hbb Hbs Hbd Hbe Hrest IH];
    intros i b b' Hi Hi'.
  - destruct i; discriminate Hi.
  - destruct i as [| [| i]]; simpl in Hi, Hi'.
    + inversion Hi; inversion Hi'; subst. symmetry. assumption.
    + inversion Hi; subst b. symmetry.
      eapply laid_out_first; [exact Hrest | exact Hi'].
    + eapply IH; eassumption.
Qed.

Lemma laid_out_alternates (current : datetime) (schedule : list Block.t) :
  Spec.laid_out current schedule ->
  forall (i : nat) (b : Block.t),
    nth_error schedule i = Some b ->
    Block.type b = if Nat.even i then Block.task else Block.break.
Proof.
  induction 1 as [| current tb bb rest Htb Hs He Hbb Hbs Hbd Hbe Hrest IH];
    intros i b Hi.
  - destruct i; discriminate Hi.
  - destruct i as [| [| i]]; simpl in Hi.
    + inversion Hi; subst. assumption.
    + inversion Hi; subst. assumption.
    + apply IH in Hi. exact Hi.
Qed.

Lemma laid_out_break_follows (current : datetime) (schedule : list Block.t) :
  Spec.laid_out current schedule ->
  forall (i : nat) (b : Block.t),
    nth_error schedule i = Some b -> Block.type b = Block.task ->
    exists b' : Block.t,
      nth_error schedule (S i) = Some b'
      /\ Block.type b' = Block.break
      /\ Block.duration b' = Spec.break_after (Block.duration b).
Proof.
  induction 1 as [| current tb bb rest Htb Hs He Hbb Hbs Hbd Hbe Hrest IH];
    intros i b Hi Hb.
  - destruct i; discriminate Hi.
  - destruct i as [| [| i]]; simpl in Hi.
    + inversion Hi; subst b. exists bb. simpl. auto.
    + inversion Hi; subst b. congruence.
    + destruct (IH i b Hi Hb) as (b' & Hb' & Hrest').
      exists b'. split; [exact Hb' | exact Hrest'].
Qed.

Lemma laid_out_durations (current : datetime) (schedule : list Block.t) :
  Spec.laid_out current schedule ->
  Forall (fun b => Block.end_time b = Block.start_time b + Block.duration b)
         schedule.
Proof.
  induction 1; repeat constructor; assumption.
Qed.

(** *** The order of the schedule *)

Lemma same_key_no_overtake (r : Z) (d : string) (x y : Task.t) :
  Spec.same_key r d x = true -> Spec.same_key r d y = true ->
  Spec.goes_first PlannerAgent.key_ltb Spec.key_of false x y = false.
Proof.
  unfold Spec.same_key. rewrite !andb_true_iff.
  intros [Rx Dx] [Ry Dy].
  apply Z.eqb_eq in Rx, Ry. apply String.eqb_eq in Dx, Dy.
  unfold Spec.goes_first, PlannerAgent.key_ltb, PlannerAgent.key_lt,
    Spec.key_of. simpl.
  rewrite Rx, Ry, Z.eqb_refl.
  unfold Spec.deadline_text in Dx, Dy. unfold Spec.deadline_key_of.
  destruct (Task.deadline x), (Task.deadline y); subst; try reflexivity;
    unfold String.ltb;
    match goal with
    | |- context [String.compare ?s ?s] =>
        destruct (String.compare s s) eqn:E; try reflexivity;
        pose proof (String.compare_antisym s s) as A;
        rewrite E in A; discriminate A
    end.
Qed.

(** C3, as the code has it.  The scheduler, when it produces a schedule,
    lays the tasks out in this order: by priority rank (high, then medium or
    an unknown priority, then low), within a rank by the deadline string
    ascending, where a task with no deadline key counts as the empty string
    and so stands before every dated task of its rank; tasks that tie on
    both keep their input order. *)
Theorem C3_schedule_order
    (anchor earliest latest : datetime)
    (tasks : list Task.t) (schedule : list Block.t) :
  PlannerAgent._schedule_tasks anchor earliest latest tasks = Ok schedule ->
  exists order : list Task.t,
    PlannerAgent.sorted_tasks tasks = Ok order
    /\ map Spec.block_line (filter Spec.is_task schedule)
       = map Spec.task_line order
    /\ Permutation order tasks
    /\ StronglySorted Spec.planner_le order
    /\ (forall (r : Z) (d : string),
          filter (Spec.same_key r d) order = filter (Spec.same_key r d) tasks)
    /\ (forall (i j : nat) (a b : Task.t),
          nth_error order i = Some a -> nth_error order j = Some b ->
          Spec.task_rank a = Spec.task_rank b ->
          Spec.has_deadline a = false -> Spec.has_deadline b = true ->
          (i < j)%nat).
Proof.
  unfold PlannerAgent._schedule_tasks. intros H. bind_inv H.
  rename a into order.
  destruct (sorted_tasks_Ok _ _ Ha) as (Eorder & Hcmp & _).
  pose proof (all_comparable_In _ Hcmp) as Hpairs.
  assert (Hperm : Permutation order tasks)
    by (rewrite Eorder; apply sorted_perm).
  assert (Hsorted : StronglySorted Spec.planner_le order).
  { rewrite Eorder.
    apply (StronglySorted_weaken
             (fun t => In t tasks)
             (Spec.by_key_then PlannerAgent.key_ltb Spec.key_of false
                (fun _ _ => True))).
    - intros a b Da Db [Hab _]. apply key_ltb_false_le; [| exact Hab].
      apply Hpairs; apply in_map; assumption.
    - apply sorted_Forall. apply Forall_forall. auto.
    - apply (sorted_sorted PlannerAgent.key_ltb Spec.key_of false
               (fun t => In t tasks)).
      + intros a b _ _. apply key_ltb_asym.
      + intros a b c Da Db Dc. unfold Spec.goes_first.
        intros Hab Hbc.
        apply (key_ltb_negtrans (Spec.key_of a) (Spec.key_of b)
                 (Spec.key_of c)); try apply Hpairs; try apply in_map;
          assumption.
      + apply Forall_forall. auto.
      + apply StronglySorted_True. }
  exists order. repeat split.
  - exact Ha.
  - eapply layout_lines. exact H.
  - exact Hperm.
  - exact Hsorted.
  - intros r d. rewrite Eorder. apply sorted_filter.
    intros x y _ _. apply same_key_no_overtake.
  - intros i j a b Hi Hj Hr Hda Hdb.
    destruct (Nat.lt_trichotomy i j) as [Hlt | [Heq | Hgt]]; [exact Hlt | |].
    + subst j. rewrite Hi in Hj. inversion Hj; subst b. congruence.
    + exfalso.
      destruct (StronglySorted_nth _ _ Hsorted j i b a Hgt Hj Hi)
        as [Hrank | [_ Hle]]; [lia |].
      unfold Spec.has_deadline in Hda, Hdb.
      apply negb_false_iff, String.eqb_eq in Hda. rewrite Hda in Hle.
      apply string_leb_empty in Hle. rewrite Hle in Hdb. discriminate Hdb.
Qed.

Lemma C3_witness :
  PlannerAgent._schedule_tasks Examples.nine Examples.midnight
    Examples.last_minute [Examples.dated_task; Examples.undated_task]
  = Ok Examples.two_task_schedule
  /\ exists order : list Task.t,
       PlannerAgent.sorted_tasks [Examples.dated_task; Examples.undated_task]
       = Ok order
       /\ map Spec.block_line
              (filter Spec.is_task Examples.two_task_schedule)
          = map Spec.task_line order
       /\ Permutation order [Examples.dated_task; Examples.undated_task]
       /\ StronglySorted Spec.planner_le order
       /\ (forall (r : Z) (d : string),
             filter (Spec.same_key r d) order
             = filter (Spec.same_key r d)
                      [Examples.dated_task; Examples.undated_task])
       /\ (forall (i j : nat) (a b : Task.t),
             nth_error order i = Some a -> nth_error order j = Some b ->
             Spec.task_rank a = Spec.task_rank b ->
             Spec.has_deadline a = false -> Spec.has_deadline b = true ->
             (i < j)%nat).
Proof.
  split.
  - vm_compute. reflexivity.
  - apply (C3_schedule_order Examples.nine Examples.midnight
             Examples.last_minute).
    vm_compute. reflexivity.
Defined.

(** C3, as stated, fails: the task without a deadline is scheduled first,
    before the dated task of the same priority. *)
Lemma C3_counterexample :
  exists order : list Task.t,
    PlannerAgent.sorted_tasks [Examples.dated_task; Examples.undated_task]
    = Ok order
    /\ map Spec.block_line (filter Spec.is_task Examples.two_task_schedule)
       = map Spec.task_line order
    /\ ~ Spec.undated_after_dated order.
Proof.
  exists [Examples.undated_task; Examples.dated_task].
  split; [vm_compute; reflexivity |].
  split; [vm_compute; reflexivity |].
  intros H.
  specialize (H 0%nat 1%nat Examples.undated_task Examples.dated_task
                eq_refl eq_refl eq_refl eq_refl).
  lia.
Qed.

(** A deadline stored as [None] cannot be compared with a deadline string
    of the same rank: the sort raises. *)
Lemma sorted_tasks_None_deadline :
  PlannerAgent.sorted_tasks
    [Examples.dated_task; Examples.none_deadline_task]
  = Raise TypeError.
Proof. vm_compute. reflexivity. Qed.

(** In general: a deadline stored as [None] and a deadline string in one
    priority rank make the sort raise, wherever the two tasks stand. *)
Lemma sorted_tasks_raises (tasks : list Task.t) (a b : Task.t) (s : string) :
  Forall (fun t => Task.priority t <> None) tasks ->
  In a tasks -> In b tasks ->
  Spec.task_rank a = Spec.task_rank b ->
  Task.deadline a = Task.IsNone -> Task.deadline b = Task.Str s ->
  PlannerAgent.sorted_tasks tasks = Raise TypeError.
Proof.
  intros Hprio Ha Hb Hrank Da Db.
  unfold PlannerAgent.sorted_tasks.
  rewrite (traverse_sort_key_Ok _ Hprio). simpl.
  destruct (PlannerAgent.all_comparable (map Spec.key_of tasks)) eqn:C;
    [| reflexivity].
  exfalso.
  pose proof (all_comparable_In _ C (Spec.key_of a) (Spec.key_of b)
                (in_map _ _ _ Ha) (in_map _ _ _ Hb)) as H.
  unfold PlannerAgent.comparable, PlannerAgent.key_lt, Spec.key_of,
    Spec.deadline_key_of in H. simpl in H.
  rewrite Hrank, Z.eqb_refl, Da, Db in H. discriminate H.
Qed.

(** The sort does not raise when every task has a priority and no deadline
    is stored as [None]. *)
Lemma sorted_tasks_produces (tasks : list Task.t) :
  Forall (fun t => Task.priority t <> None /\ Task.deadline t <> Task.IsNone)
         tasks ->
  exists order, PlannerAgent.sorted_tasks tasks = Ok order.
Proof.
  intros H. unfold PlannerAgent.sorted_tasks.
  rewrite traverse_sort_key_Ok
    by (eapply Forall_impl; [| exact H]; intros t [Hp _]; exact Hp).
  simpl.
  assert (C : PlannerAgent.all_comparable (map Spec.key_of tasks) = true).
  { induction H as [| t tasks [_ Hd] Hall IH]; simpl; [reflexivity |].
    rewrite IH, andb_true_r. apply forallb_forall.
    intros k Hk. apply in_map_iff in Hk. destruct Hk as (t' & <- & Ht').
    rewrite Forall_forall in Hall. destruct (Hall t' Ht') as [_ Hd'].
    unfold PlannerAgent.comparable, PlannerAgent.key_lt, Spec.key_of,
      Spec.deadline_key_of. simpl.
    destruct (Spec.task_rank t =? Spec.task_rank t'); [| reflexivity].
    destruct (Task.deadline t), (Task.deadline t'); congruence. }
  rewrite C. eexists. reflexivity.
Qed.

(** *** The shape of the schedule *)

(** The schedule is the layout, from the anchor, of the sorted tasks. *)
Lemma schedule_is_layout
    (anchor earliest latest : datetime)
    (tasks : list Task.t) (schedule : list Block.t) :
  PlannerAgent._schedule_tasks anchor earliest latest tasks = Ok schedule ->
  exists order : list Task.t,
    Permutation order tasks
    /\ map Spec.block_line (filter Spec.is_task schedule)
       = map Spec.task_line order
    /\ Spec.laid_out anchor schedule.
Proof.
  unfold PlannerAgent._schedule_tasks. intros H. bind_inv H.
  destruct (sorted_tasks_Ok _ _ Ha) as (Eorder & _ & _).
  exists a. split; [rewrite Eorder; apply sorted_perm |].
  split; [eapply layout_lines; exact H | eapply layout_laid_out; exact H].
Qed.


(** C6.  For every schedule the scheduler produces: each block ends where
    the next one starts; the blocks alternate task, break, task, break, ...;
    every task block is followed at once by a break block of 15 minutes when
    the task's duration is at least 60 minutes and of 5 minutes otherwise.
    Besides, each block lasts its [duration], the first one starts at the
    anchor, and the task blocks carry the tasks' estimated durations. *)
Theorem C6_schedule_shape
    (anchor earliest latest : datetime)
    (tasks : list Task.t) (schedule : list Block.t) :
  PlannerAgent._schedule_tasks anchor earliest latest tasks = Ok schedule ->
  (forall (i : nat) (b b' : Block.t),
     nth_error schedule i = Some b -> nth_error schedule (S i) = Some b' ->
     Block.end_time b = Block.start_time b')
  /\ (forall (i : nat) (b : Block.t),
        nth_error schedule i = Some b ->
        Block.type b = if Nat.even i then Block.task else Block.break)
  /\ (forall (i : nat) (b : Block.t),
        nth_error schedule i = Some b -> Block.type b = Block.task ->
        exists b' : Block.t,
          nth_error schedule (S i) = Some b'
          /\ Block.type b' = Block.break
          /\ Block.duration b'
             = if Block.duration b >=? 60 then 15 else 5)
  /\ Forall (fun b => Block.end_time b
                      = Block.start_time b + Block.duration b) schedule
  /\ (forall b : Block.t,
        nth_error schedule 0 = Some b -> Block.start_time b = anchor)
  /\ (exists order : list Task.t,
        Permutation order tasks
        /\ map Block.duration (filter Spec.is_task schedule)
           = map (fun t => Py.get (Task.estimated_duration t) 60) order).
Proof.
  intros H.
  destruct (schedule_is_layout anchor earliest latest tasks schedule H)
    as (order & Hperm & Hlines & Hlaid).
  repeat split.
  - apply (laid_out_contiguous _ _ Hlaid).
  - apply (laid_out_alternates _ _ Hlaid).
  - apply (laid_out_break_follows _ _ Hlaid).
  - apply (laid_out_durations _ _ Hlaid).
  - intros b. apply (laid_out_first _ _ _ Hlaid).
  - exists order. split; [exact Hperm |].
    apply (f_equal (map snd)) in Hlines.
    rewrite !map_map in Hlines. exact Hlines.
Qed.

Lemma C6_witness :
  PlannerAgent._schedule_tasks Examples.nine Examples.midnight
    Examples.last_minute [Examples.dated_task; Examples.undated_task]
  = Ok Examples.two_task_schedule
  /\ (forall (i : nat) (b b' : Block.t),
        nth_error Examples.two_task_schedule i = Some b ->
        nth_error Examples.two_task_schedule (S i) = Some b' ->
        Block.end_time b = Block.start_time b')
  /\ (forall (i : nat) (b : Block.t),
        nth_error Examples.two_task_schedule i = Some b ->
        Block.type b = if Nat.even i then Block.task else Block.break)
  /\ (forall (i : nat) (b : Block.t),
        nth_error Examples.two_task_schedule i = Some b ->
        Block.type b = Block.task ->
        exists b' : Block.t,
          nth_error Examples.two_task_schedule (S i) = Some b'
          /\ Block.type b' = Block.break
          /\ Block.duration b'
             = if Block.duration b >=? 60 then 15 else 5)
  /\ Forall (fun b => Block.end_time b
                      = Block.start_time b + Block.duration b)
            Examples.two_task_schedule
  /\ (forall b : Block.t,
        nth_error Examples.two_task_schedule 0 = Some b ->
        Block.start_time b = Examples.nine)
  /\ (exists order : list Task.t,
        Permutation order [Examples.dated_task; Examples.undated_task]
        /\ map Block.duration
               (filter Spec.is_task Examples.two_task_schedule)
           = map (fun t => Py.get (Task.estimated_duration t) 60) order).
Proof.
  split.
  - vm_compute. reflexivity.
  - apply (C6_schedule_shape Examples.nine Examples.midnight
             Examples.last_minute).
    vm_compute. reflexivity.
Defined.

(** The specification's scenario: the stand-up from 09:00 to 09:30, a break
    of 5 minutes, the documentation from 09:35 to 11:05, a break of 15. *)
Lemma schedule_scenario :
  match
    PlannerAgent._schedule_tasks Examples.nine Examples.midnight
      Examples.last_minute
      [Examples.standup; Examples.plain "Docs" "writing" "medium" 90]
  with
  | Ok schedule =>
      map (fun b => (Block.type b, Block.start_time b, Block.end_time b))
          schedule
  | Raise _ => []
  end
  = [(Block.task, 540, 570); (Block.break, 570, 575);
     (Block.task, 575, 665); (Block.break, 665, 680)].
Proof. vm_compute. reflexivity. Qed.

(** The scheduler produces a schedule when every task has a name, a
    category and a priority, no deadline is stored as [None], no duration
    is negative and the day's work ends within the range of [datetime]. *)
Lemma schedule_produced
    (anchor earliest latest : datetime) (tasks : list Task.t) :
  Forall (fun t => Task.name t <> None /\ Task.category t <> None
                   /\ Task.priority t <> None
                   /\ 0 <= Py.get (Task.estimated_duration t) 60) tasks ->
  Forall (fun t => Task.deadline t <> Task.IsNone) tasks ->
  earliest <= anchor ->
  anchor
  + Py.sum (map (fun t => Py.get (Task.estimated_duration t) 60) tasks)
  + 15 * Py.len tasks <= latest ->
  exists schedule,
    PlannerAgent._schedule_tasks anchor earliest latest tasks = Ok schedule.
Proof.
  intros Hfields Hdead Hlo Hhi.
  destruct (sorted_tasks_produces tasks) as [order Horder].
  { rewrite Forall_forall in Hfields, Hdead |- *.
    intros t Ht. split; [apply (Hfields t Ht) | apply (Hdead t Ht)]. }
  unfold PlannerAgent._schedule_tasks. rewrite Horder. simpl.
  destruct (sorted_tasks_Ok _ _ Horder) as (Eorder & _ & _).
  assert (Hperm : Permutation order tasks)
    by (rewrite Eorder; apply sorted_perm).
  apply layout_produces.
  - eapply Permutation_Forall; [apply Permutation_sym; exact Hperm |].
    exact Hfields.
  - exact Hlo.
  - assert (Hbound :
              forall l : list Task.t,
                Py.sum (map (fun t =>
                               Py.get (Task.estimated_duration t) 60
                               + Spec.break_after
                                   (Py.get (Task.estimated_duration t) 60)) l)
                <= Py.sum (map (fun t =>
                                  Py.get (Task.estimated_duration t) 60) l)
                   + 15 * Py.len l).
    { induction l as [| x l IH].
      - unfold Py.sum, Py.len. simpl. lia.
      - cbn [map]. rewrite !sum_cons. unfold Py.len in *.
        cbn [List.length]. rewrite Nat2Z.inj_succ.
        unfold Spec.break_after at 1.
        destruct (Py.get (Task.estimated_duration x) 60 >=? 60); lia. }
    assert (Hsum :
              forall (f : Task.t -> Z) (l l' : list Task.t),
                Permutation l l' -> Py.sum (map f l) = Py.sum (map f l')).
    { intros f l l' P. induction P; cbn [map]; rewrite ?sum_cons; lia. }
    pose proof (Hbound order) as B.
    rewrite (Hsum (fun t => Py.get (Task.estimated_duration t) 60)
               _ _ Hperm) in B.
    unfold Py.len in *. rewrite (Permutation_length Hperm) in B. lia.
Qed.

(** ** The plan evaluator *)

Lemma max0_nonneg (score : Q) : (0 <= PlanEvaluator.max0 score)%Q.
Proof.
  unfold PlanEvaluator.max0.
  destruct (Py.Qlt_bool 0 score) eqn:E; [| lra].
  apply Qlt_bool_iff in E. lra.
Qed.

Lemma max0_le (score bound : Q) :
  (0 <= bound)%Q -> (score <= bound)%Q ->
  (PlanEvaluator.max0 score <= bound)%Q.
Proof.
  intros Hb Hs. unfold PlanEvaluator.max0.
  destruct (Py.Qlt_bool 0 score); assumption.
Qed.

(** Penalties only lower a score. *)
Lemma fold_penalties {B : Type} (f : Q -> B -> Q) (l : list B) (score : Q) :
  (forall s b, (f s b <= s)%Q) -> (fold_left f l score <= score)%Q.
Proof.
  intros Hf. revert score. induction l as [| b l IH]; intros score; simpl.
  - lra.
  - eapply Qle_trans; [apply IH | apply Hf].
Qed.

Lemma time_efficiency_range (plan : Plan.t) :
  (0 <= PlanEvaluator._score_time_efficiency plan <= 25)%Q.
Proof.
  unfold PlanEvaluator._score_time_efficiency.
  destruct (PlanEvaluator.is_empty (Plan.scheduled_tasks plan)); [lra |].
  split; [apply max0_nonneg | apply max0_le; [lra |]].
  destruct (PlanEvaluator.total_duration_of _ <? 360);
    [| destruct (PlanEvaluator.total_duration_of _ >? 480)];
    destruct (Py.len _ <? 3); lra.
Qed.

Lemma priority_alignment_range (plan : Plan.t) (original_tasks : list Task.t) :
  (0 <= PlanEvaluator._score_priority_alignment plan original_tasks <= 25)%Q.
Proof.
  unfold PlanEvaluator._score_priority_alignment.
  split; [apply max0_nonneg | apply max0_le; [lra |]].
  apply fold_penalties. intros s it.
  destruct ((_ =? "high")%string && _); [lra |].
  destruct ((_ =? "low")%string && _); lra.
Qed.

Lemma feasibility_range (plan : Plan.t) :
  (0 <= PlanEvaluator._score_feasibility plan <= 25)%Q.
Proof.
  unfold PlanEvaluator._score_feasibility.
  split; [apply max0_nonneg | apply max0_le; [lra |]].
  eapply Qle_trans.
  - apply fold_penalties. intros s b.
    destruct (Block.duration b >? 180); lra.
  - destruct (PlanEvaluator.total_duration_of _ >? 540);
      [| destruct (PlanEvaluator.total_duration_of _ >? 480)]; lra.
Qed.

Lemma work_life_balance_range
    (plan : Plan.t) (user_preferences : PlanEvaluator.preferences) :
  (0 <= PlanEvaluator._score_work_life_balance plan user_preferences <= 25)%Q.
Proof.
  unfold PlanEvaluator._score_work_life_balance.
  split; [apply max0_nonneg | apply max0_le; [lra |]].
  destruct (negb _), (PlanEvaluator.total_duration_of _ >? 600),
    (Py.Qlt_bool _ _); lra.
Qed.

Lemma Qle_bool_false (x y : Q) : Qle_bool x y = false -> (y < x)%Q.
Proof.
  intros E. apply Qnot_le_lt. intros C.
  apply Qle_bool_iff in C. congruence.
Qed.

(** The grade, by its thresholds. *)
Lemma grade_thresholds (total : Q) :
  (PlanEvaluator._calculate_grade total = "A" <-> (90 <= total)%Q)
  /\ (PlanEvaluator._calculate_grade total = "B"
      <-> (80 <= total)%Q /\ (total < 90)%Q)
  /\ (PlanEvaluator._calculate_grade total = "C"
      <-> (70 <= total)%Q /\ (total < 80)%Q)
  /\ (PlanEvaluator._calculate_grade total = "D"
      <-> (60 <= total)%Q /\ (total < 70)%Q)
  /\ (PlanEvaluator._calculate_grade total = "F" <-> (total < 60)%Q).
Proof.
  unfold PlanEvaluator._calculate_grade.
  destruct (Qle_bool 90 total) eqn:E90;
    [apply Qle_bool_iff in E90 | apply Qle_bool_false in E90];
    [repeat split; intros; try discriminate; try reflexivity; try lra |].
  destruct (Qle_bool 80 total) eqn:E80;
    [apply Qle_bool_iff in E80 | apply Qle_bool_false in E80];
    [repeat split; intros; try discriminate; try reflexivity; try lra |].
  destruct (Qle_bool 70 total) eqn:E70;
    [apply Qle_bool_iff in E70 | apply Qle_bool_false in E70];
    [repeat split; intros; try discriminate; try reflexivity; try lra |].
  destruct (Qle_bool 60 total) eqn:E60;
    [apply Qle_bool_iff in E60 | apply Qle_bool_false in E60];
    repeat split; intros; try discriminate; try reflexivity; try lra.
Qed.

(** C7.  For every plan, task list and preferences each of the four
    sub-scores lies in [0, 25]; [total_score] is their sum and lies in
    [0, 100]; and the grade is the function of [total_score] with the
    thresholds 90 (A), 80 (B), 70 (C), 60 (D), below that F. *)
Theorem C7_scores_and_grade
    (plan : Plan.t) (original_tasks : list Task.t)
    (user_preferences : option PlanEvaluator.preferences) :
  let e := PlanEvaluator.evaluate_plan plan original_tasks user_preferences in
  let s := PlanEvaluator.scores_breakdown e in
  let total := PlanEvaluator.total_score e in
  (0 <= PlanEvaluator.time_efficiency s <= 25)%Q
  /\ (0 <= PlanEvaluator.priority_alignment s <= 25)%Q
  /\ (0 <= PlanEvaluator.feasibility s <= 25)%Q
  /\ (0 <= PlanEvaluator.work_life_balance s <= 25)%Q
  /\ (total == PlanEvaluator.time_efficiency s
               + PlanEvaluator.priority_alignment s
               + PlanEvaluator.feasibility s
               + PlanEvaluator.work_life_balance s)%Q
  /\ (0 <= total <= 100)%Q
  /\ PlanEvaluator.grade e = PlanEvaluator._calculate_grade total
  /\ (PlanEvaluator.grade e = "A" <-> (90 <= total)%Q)
  /\ (PlanEvaluator.grade e = "B" <-> (80 <= total)%Q /\ (total < 90)%Q)
  /\ (PlanEvaluator.grade e = "C" <-> (70 <= total)%Q /\ (total < 80)%Q)
  /\ (PlanEvaluator.grade e = "D" <-> (60 <= total)%Q /\ (total < 70)%Q)
  /\ (PlanEvaluator.grade e = "F" <-> (total < 60)%Q).
Proof.
  intros e s total.
  pose proof (time_efficiency_range plan) as H1.
  pose proof (priority_alignment_range plan original_tasks) as H2.
  pose proof (feasibility_range plan) as H3.
  pose proof (work_life_balance_range plan
                (Py.get user_preferences PlanEvaluator.no_preferences)) as H4.
  assert (Etotal :
            (total == PlanEvaluator.time_efficiency s
                      + PlanEvaluator.priority_alignment s
                      + PlanEvaluator.feasibility s
                      + PlanEvaluator.work_life_balance s)%Q).
  { subst total s e. unfold PlanEvaluator.evaluate_plan. simpl. ring. }
  subst s e. unfold PlanEvaluator.evaluate_plan in *. simpl in *.
  split; [exact H1 |]. split; [exact H2 |]. split; [exact H3 |].
  split; [exact H4 |]. split; [exact Etotal |].
  split; [rewrite Etotal; lra |].
  split; [reflexivity |].
  apply grade_thresholds.
Qed.

(** The scenario of seven tasks of two hours: feasibility is 15 of 25. *)
Lemma feasibility_scenario :
  match
    PlannerAgent.create_plan Examples.nine Examples.midnight 100000
      (repeat (Examples.plain "Task" "general" "high" 120) 7)
  with
  | Ok plan => Qred (PlanEvaluator._score_feasibility plan)
  | Raise _ => 0%Q
  end = 15%Q.
Proof. vm_compute. reflexivity. Qed.

(** *** Breaks and the work-life balance *)

Lemma create_plan_Ok
    (anchor earliest latest : datetime) (tasks : list Task.t) (plan : Plan.t) :
  PlannerAgent.create_plan anchor earliest latest tasks = Ok plan ->
  PlannerAgent._schedule_tasks anchor earliest latest tasks
  = Ok (Plan.scheduled_tasks plan)
  /\ Plan.includes_breaks plan = None.
Proof.
  unfold PlannerAgent.create_plan. intros H. bind_inv H.
  inversion H; subst plan. simpl. split; [exact Ha | reflexivity].
Qed.

(** Whatever the planner hands over, the evaluator finds no
    [includes_breaks] in it and takes the 5 points, although the schedule
    of a non-empty task list does contain break blocks. *)
Lemma planner_plans_lose_the_break_points
    (anchor earliest latest : datetime) (tasks : list Task.t) (plan : Plan.t)
    (user_preferences : PlanEvaluator.preferences) :
  PlannerAgent.create_plan anchor earliest latest tasks = Ok plan ->
  tasks <> [] ->
  existsb Spec.is_break (Plan.scheduled_tasks plan) = true
  /\ (PlanEvaluator._score_work_life_balance plan user_preferences <= 20)%Q.
Proof.
  intros H Hne. destruct (create_plan_Ok _ _ _ _ _ H) as [Hs Hb].
  split.
  - destruct (schedule_is_layout _ _ _ _ _ Hs) as (order & Hperm & Hl & Hlaid).
    destruct Hlaid as [| current tb bb rest _ _ _ Hbb].
    + exfalso. simpl in Hl. symmetry in Hl. apply map_eq_nil in Hl.
      subst order. apply Permutation_nil in Hperm. contradiction.
    + simpl. unfold Spec.is_break at 2. rewrite Hbb. simpl.
      apply orb_true_r.
  - unfold PlanEvaluator._score_work_life_balance. rewrite Hb. simpl.
    apply max0_le; [lra |].
    destruct (PlanEvaluator.total_duration_of _ >? 600),
      (Py.Qlt_bool _ _); lra.
Qed.

(** C4: the code at the failing input.  The plan of the stand-up contains
    a break block, and its work-life balance is 20, not 25: the 5 points go
    because the planner never sets [includes_breaks].  The same schedule
    with the flag set scores 25, and with the flag set a schedule with no
    break block at all scores 25 too. *)
Theorem C4_planner_plan_is_penalized :
  PlannerAgent.create_plan Examples.nine Examples.midnight
    Examples.last_minute [Examples.standup]
  = Ok Examples.standup_plan
  /\ existsb Spec.is_break (Plan.scheduled_tasks Examples.standup_plan) = true
  /\ (PlanEvaluator._score_work_life_balance
        Examples.standup_plan PlanEvaluator.no_preferences == 20)%Q
  /\ (PlanEvaluator._score_work_life_balance
        (Plan.Build (Plan.scheduled_tasks Examples.standup_plan) 1 30
                    (Some true))
        PlanEvaluator.no_preferences == 25)%Q
  /\ (PlanEvaluator._score_work_life_balance
        (Plan.Build
           (filter Spec.is_task (Plan.scheduled_tasks Examples.standup_plan))
           1 30 (Some true))
        PlanEvaluator.no_preferences == 25)%Q.
Proof. repeat split; vm_compute; reflexivity. Qed.

(** ** The store *)

Lemma last_1000_length {A : Type} (l : list A) :
  List.length (MemoryBank.last_1000 l) = Nat.min 1000 (List.length l).
Proof. unfold MemoryBank.last_1000. rewrite length_skipn. lia. Qed.

Lemma last_1000_short {A : Type} (l : list A) :
  (List.length l <= 1000)%nat -> MemoryBank.last_1000 l = l.
Proof.
  intros H. unfold MemoryBank.last_1000.
  replace (List.length l - 1000)%nat with 0%nat by lia. reflexivity.
Qed.

(** The history after one call: the last 1000 of the old history with the
    new record appended. *)
Lemma store_task_completion_history
    (bank : MemoryBank.t) (task : Task.t) (completion_time : datetime)
    (actual : option Z) :
  Spec.history
    (MemoryBank.store_task_completion bank task completion_time actual)
  = MemoryBank.last_1000
      (Spec.history bank ++ [Spec.record_of task completion_time actual]).
Proof.
  unfold Spec.history, MemoryBank.store_task_completion, Spec.record_of.
  simpl.
  set (appended := MemoryBank.task_history (MemoryBank.in_memory bank) ++ _).
  destruct (Z.gtb_spec (Py.len appended) 1000) as [Hgt | Hle].
  - reflexivity.
  - symmetry. apply last_1000_short. unfold Py.len in Hle. lia.
Qed.

(** C8.  After every [store_task_completion] call the history has at most
    1000 entries; it is the end of the old history with the new record
    appended, of length [min 1000] of that, so the entries evicted are the
    oldest ones and the entries kept are the most recent 1000. *)
Theorem C8_history_bounded
    (bank : MemoryBank.t) (task : Task.t) (completion_time : datetime)
    (actual_duration_minutes : option Z) :
  let bank' :=
    MemoryBank.store_task_completion
      bank task completion_time actual_duration_minutes in
  let appended :=
    Spec.history bank
    ++ [Spec.record_of task completion_time actual_duration_minutes] in
  (List.length (Spec.history bank') <= 1000)%nat
  /\ (exists evicted : list MemoryBank.task_record,
        appended = evicted ++ Spec.history bank')
  /\ List.length (Spec.history bank') = Nat.min 1000 (List.length appended)
  /\ Spec.history bank'
     = skipn (List.length appended - 1000) appended
  /\ MemoryBank.on_disk bank' = MemoryBank.in_memory bank'.
Proof.
  intros bank' appended.
  assert (E : Spec.history bank' = MemoryBank.last_1000 appended)
    by apply store_task_completion_history.
  split; [rewrite E, last_1000_length; lia |].
  split.
  { exists (firstn (List.length appended - 1000) appended).
    rewrite E. unfold MemoryBank.last_1000.
    symmetry. apply firstn_skipn. }
  split; [rewrite E; apply last_1000_length |].
  split; [exact E | reflexivity].
Qed.

Lemma last_1000_app {A : Type} (l m : list A) :
  MemoryBank.last_1000 (MemoryBank.last_1000 l ++ m)
  = MemoryBank.last_1000 (l ++ m).
Proof.
  destruct (Nat.le_gt_cases (List.length l) 1000) as [Hle | Hgt].
  - rewrite (last_1000_short l Hle). reflexivity.
  - unfold MemoryBank.last_1000 at 1 3.
    rewrite !length_app, last_1000_length.
    replace (Nat.min 1000 (List.length l) + List.length m - 1000)%nat
      with (List.length m) by lia.
    replace (List.length l + List.length m - 1000)%nat
      with (List.length m + (List.length l - 1000))%nat by lia.
    rewrite <- skipn_skipn. f_equal.
    unfold MemoryBank.last_1000. rewrite skipn_app.
    replace (List.length l - 1000 - List.length l)%nat with 0%nat by lia.
    reflexivity.
Qed.

(** A bank that starts within the bound keeps, over any run of calls, the
    last 1000 of everything recorded. *)
Lemma history_is_last_1000
    (calls : list Spec.completion) (bank : MemoryBank.t) :
  (List.length (Spec.history bank) <= 1000)%nat ->
  Spec.history (Spec.store_all bank calls)
  = MemoryBank.last_1000
      (Spec.history bank
       ++ map (fun c => Spec.record_of (fst (fst c)) (snd (fst c)) (snd c))
              calls).
Proof.
  revert bank. induction calls as [| c calls IH]; intros bank Hlen.
  - simpl. rewrite app_nil_r. symmetry. apply last_1000_short. exact Hlen.
  - unfold Spec.store_all in *. simpl.
    rewrite IH.
    + rewrite store_task_completion_history, last_1000_app.
      rewrite <- app_assoc. reflexivity.
    + rewrite store_task_completion_history, last_1000_length. lia.
Qed.

(** ** Binary64 arithmetic

    What [binary_round_aux], the division of integers, the product and
    [round(x, 1)] return, as numbers: the float nearest to the exact
    result.  The statements are for positive results within the range of
    the normal numbers, which is where the completion rate lies. *)

(** *** The right shift and the rounding of SpecFloat *)

Lemma shr_1_nonneg (m : Z) (r s : bool) :
  0 <= m ->
  shr_1 (Build_shr_record m r s)
  = Build_shr_record (m / 2) (Z.odd m) (r || s).
Proof.
  intros Hm. rewrite <- Z.div2_div.
  destruct m as [| [p | p |] | p]; try reflexivity. lia.
Qed.

Lemma shr_1_locates (N D : Z) (mrs : shr_record) :
  Binary64.locates N D mrs -> Binary64.locates N (D * 2) (shr_1 mrs).
Proof.
  destruct mrs as [m r s]. intros (HN & HD & Hm & Hr & Hs).
  cbn [shr_m shr_r shr_s] in Hm, Hr, Hs.
  assert (Hm0 : 0 <= m) by (subst m; apply Z.div_pos; lia).
  rewrite shr_1_nonneg by exact Hm0. unfold Binary64.locates.
  cbn [shr_m shr_r shr_s].
  pose proof (Z.mod_pos_bound N D HD) as Hrho.
  pose proof (Z.mod_pos_bound (N / D) 2 ltac:(lia)) as Hb.
  rewrite Z.rem_mul_r by lia. rewrite <- Z.div_div by lia.
  rewrite <- Hm in *.
  assert (Hodd : Z.odd m = (m mod 2 =? 1)).
  { rewrite Zmod_odd. destruct (Z.odd m); reflexivity. }
  assert (B : m mod 2 = 0 \/ m mod 2 = 1) by lia.
  repeat split; try lia.
  - rewrite Hodd. destruct B as [B | B]; rewrite B; cbn [Z.eqb Pos.eqb]; symmetry.
    + apply Z.leb_gt. lia.
    + apply Z.leb_le. lia.
  - rewrite Hr, Hs.
    destruct B as [B | B]; rewrite B;
      rewrite ?Z.mul_0_r, ?Z.mul_1_r, ?Z.add_0_r;
      destruct (Z.leb_spec D (2 * (N mod D)));
      destruct (Z.eqb_spec (N mod D) 0);
      destruct (Z.eqb_spec (2 * (N mod D)) D);
      try destruct (Z.eqb_spec (N mod D + D) 0);
      try destruct (Z.eqb_spec (2 * (N mod D + D)) (D * 2));
      try destruct (Z.eqb_spec (2 * (N mod D)) (D * 2));
      simpl; try reflexivity; lia.
Qed.

Lemma iter_pos_locates (k : positive) :
  forall (N D : Z) (mrs : shr_record),
    Binary64.locates N D mrs ->
    Binary64.locates N (D * 2 ^ Zpos k) (iter_pos shr_1 k mrs).
Proof.
  induction k as [k IH | k IH |]; intros N D mrs H; simpl iter_pos.
  - apply shr_1_locates in H. apply IH in H. apply IH in H.
    replace (D * 2 ^ Zpos k~1) with (D * 2 * 2 ^ Zpos k * 2 ^ Zpos k);
      [exact H |].
    replace (Zpos k~1) with (Zpos k + Zpos k + 1) by lia.
    rewrite !Z.pow_add_r by lia. change (2 ^ 1) with 2. ring.
  - apply IH in H. apply IH in H.
    replace (D * 2 ^ Zpos k~0) with (D * 2 ^ Zpos k * 2 ^ Zpos k);
      [exact H |].
    replace (Zpos k~0) with (Zpos k + Zpos k) by lia.
    rewrite !Z.pow_add_r by lia. ring.
  - apply shr_1_locates in H. exact H.
Qed.

(** [shr] by [n] binary places, [n] not negative. *)
Lemma shr_locates (N D e n : Z) (mrs : shr_record) :
  0 <= n -> Binary64.locates N D mrs ->
  Binary64.locates N (D * 2 ^ n) (fst (shr mrs e n)) /\ snd (shr mrs e n) = e + n.
Proof.
  intros Hn H. destruct n as [| k | k]; simpl; [| | lia].
  - rewrite Z.mul_1_r, Z.add_0_r. split; [exact H | reflexivity].
  - split; [apply iter_pos_locates; exact H | reflexivity].
Qed.


Lemma round_nearest_even_locates (N D : Z) (mrs : shr_record) :
  Binary64.locates N D mrs ->
  round_nearest_even (shr_m mrs) (loc_of_shr_record mrs)
  = Py.round_half_even (N # Z.to_pos D).
Proof.
  destruct mrs as [m r s]. intros (HN & HD & Hm & Hr & Hs).
  cbn [shr_m shr_r shr_s] in Hm, Hr, Hs.
  pose proof (Z.mod_pos_bound N D HD) as Hrho.
  pose proof (Z.div_mod N D ltac:(lia)) as Hdm.
  unfold Py.round_half_even.
  assert (Hf : Qfloor (N # Z.to_pos D) = m).
  { unfold Qfloor. rewrite Z2Pos.id by exact HD. symmetry. exact Hm. }
  rewrite Hf.
  assert (Hc : ((N # Z.to_pos D) - inject_Z m ?= 1 # 2)%Q
               = (2 * (N mod D) ?= D)).
  { unfold Qcompare, Qminus, Qplus, Qopp, inject_Z. cbn [Qnum Qden].
    rewrite Pos.mul_1_r, Z2Pos.id by exact HD.
    destruct (Z.compare_spec (2 * (N mod D)) D) as [E | E | E].
    - apply Z.compare_eq_iff. subst m. nia.
    - apply Z.compare_lt_iff. subst m. nia.
    - apply Z.compare_gt_iff. subst m. nia. }
  rewrite Hc. cbn [shr_m loc_of_shr_record].
  destruct (Z.compare_spec (2 * (N mod D)) D) as [E | E | E].
  - assert (Er : r = true) by (rewrite Hr; apply Z.leb_le; lia).
    assert (Es : s = false).
    { rewrite Hs. destruct (Z.eqb_spec (2 * (N mod D)) D); [| lia].
      rewrite orb_true_r. reflexivity. }
    rewrite Er, Es. reflexivity.
  - assert (Er : r = false) by (rewrite Hr; apply Z.leb_gt; lia).
    rewrite Er. destruct s; reflexivity.
  - assert (Er : r = true) by (rewrite Hr; apply Z.leb_le; lia).
    assert (Es : s = true).
    { rewrite Hs. destruct (Z.eqb_spec (2 * (N mod D)) D); [lia |].
      destruct (Z.eqb_spec (N mod D) 0); [lia | reflexivity]. }
    rewrite Er, Es. reflexivity.
Qed.

Lemma digits2_pos_size (p : positive) : digits2_pos p = Pos.size p.
Proof. induction p; simpl; congruence. Qed.

Lemma Zdigits2_log2 (p : positive) :
  Zdigits2 (Zpos p) = Z.succ (Z.log2 (Zpos p)).
Proof.
  destruct p as [p | p |]; simpl; rewrite ?digits2_pos_size;
    rewrite ?Pos2Z.inj_succ; reflexivity.
Qed.

Lemma Zdigits2_spec (m : Z) :
  0 < m -> 2 ^ (Zdigits2 m - 1) <= m < 2 ^ Zdigits2 m.
Proof.
  intros Hm. destruct m as [| p | p]; try lia.
  rewrite Zdigits2_log2. replace (Z.succ (Z.log2 (Zpos p)) - 1)
    with (Z.log2 (Zpos p)) by lia.
  apply Z.log2_spec. lia.
Qed.

Lemma Zdigits2_unique (m d : Z) :
  0 < d -> 2 ^ (d - 1) <= m < 2 ^ d -> Zdigits2 m = d.
Proof.
  intros Hd H.
  assert (Hm : 0 < m).
  { pose proof (Z.pow_pos_nonneg 2 (d - 1) ltac:(lia) ltac:(lia)). lia. }
  destruct m as [| p | p]; try lia.
  rewrite Zdigits2_log2.
  rewrite (Z.log2_unique (Zpos p) (d - 1)); [lia | lia |].
  replace (Z.succ (d - 1)) with d by lia. exact H.
Qed.

Lemma fexp_normal (e : Z) : -1074 <= e - 53 -> fexp 53 1024 e = e - 53.
Proof. unfold fexp, emin. lia. Qed.

(** What [binary_round_aux] returns for a mantissa of at least 53 digits
    within the range of the normal numbers. *)
Lemma binary_round_aux_normal (N D mx ex : Z) (lx : location) :
  Binary64.locates N D (shr_record_of_loc mx lx) ->
  53 <= Zdigits2 mx ->
  -1074 <= Zdigits2 mx + ex - 53 <= 970 ->
  let k := Zdigits2 mx - 53 in
  let E := ex + k in
  let M := Py.round_half_even (N # Z.to_pos (D * 2 ^ k)) in
  2 ^ 52 <= N / (D * 2 ^ k) < 2 ^ 53
  /\ 2 ^ 52 <= M <= 2 ^ 53
  /\ exists (m : positive) (e : Z),
       binary_round_aux 53 1024 false mx ex lx = S754_finite false m e
       /\ Zdigits2 (Zpos m) = 53
       /\ -1074 <= e <= 971
       /\ ((Zpos m = M /\ e = E)
           \/ (M = 2 ^ 53 /\ Zpos m = 2 ^ 52 /\ e = E + 1)).
Proof.
  intros Hloc Hd Hrange k E M.
  assert (Hk : 0 <= k) by (unfold k; lia).
  assert (Hmx : mx = N / D).
  { destruct Hloc as (_ & _ & H & _). destruct lx as [| []]; exact H. }
  assert (HD : 0 < D) by (destruct Hloc as (_ & H & _); exact H).
  assert (Hmx0 : 0 < mx).
  { assert (0 <= mx).
    { rewrite Hmx. apply Z.div_pos; [| exact HD].
      destruct Hloc as (H & _). exact H. }
    destruct mx as [| p | p]; simpl in Hd; lia. }
  pose proof (Zdigits2_spec mx Hmx0) as Hdig.
  assert (Hpk : 0 < 2 ^ k) by (apply Z.pow_pos_nonneg; lia).
  assert (Hq : 2 ^ 52 <= N / (D * 2 ^ k) < 2 ^ 53).
  { rewrite <- Z.div_div by lia. rewrite <- Hmx.
    assert (Hlo : 2 ^ 52 * 2 ^ k <= mx).
    { rewrite <- Z.pow_add_r by lia.
      replace (52 + k) with (Zdigits2 mx - 1) by (unfold k; lia). lia. }
    assert (Hhi : mx < 2 ^ 53 * 2 ^ k).
    { rewrite <- Z.pow_add_r by lia.
      replace (53 + k) with (Zdigits2 mx) by (unfold k; lia). lia. }
    split.
    - apply Z.div_le_lower_bound; lia.
    - apply Z.div_lt_upper_bound; lia. }
  unfold binary_round_aux, shr_fexp.
  rewrite fexp_normal by lia.
  replace (Zdigits2 mx + ex - 53 - ex) with k by (unfold k; lia).
  destruct (shr_locates N D ex k _ Hk Hloc) as [L1 E1].
  destruct (shr (shr_record_of_loc mx lx) ex k) as [mrs' e'].
  cbn [fst snd] in L1, E1. subst e'. fold E.
  rewrite (round_nearest_even_locates _ _ _ L1). fold M.
  assert (HM : M = N / (D * 2 ^ k) \/ M = N / (D * 2 ^ k) + 1).
  { unfold M. rewrite <- (round_nearest_even_locates _ _ _ L1).
    destruct L1 as (_ & _ & <- & _).
    unfold round_nearest_even.
    destruct (loc_of_shr_record mrs') as [| []]; auto.
    destruct (Z.even (shr_m mrs')); auto. }
  split; [exact Hq |]. split; [lia |].
  destruct (Z.eq_dec M (2 ^ 53)) as [Ecarry | Ncarry].
  - rewrite Ecarry.
    replace (Zdigits2 (2 ^ 53)) with 54 by reflexivity.
    rewrite fexp_normal by (unfold E, k; lia).
    replace (54 + E - 53 - E) with 1 by lia.
    cbn [shr_record_of_loc shr iter_pos].
    exists (Z.to_pos (2 ^ 52)), (E + 1).
    split.
    { vm_compute shr_1. cbn [shr_m].
      replace (E + 1 <=? 1024 - 53) with true
        by (symmetry; apply Z.leb_le; unfold E, k; lia).
      reflexivity. }
    split; [reflexivity |]. split; [unfold E, k; lia |].
    right. split; [reflexivity |]. split; reflexivity.
  - assert (HdM : Zdigits2 M = 53) by (apply Zdigits2_unique; lia).
    rewrite HdM, fexp_normal by (unfold E, k; lia).
    replace (53 + E - 53 - E) with 0 by lia.
    cbn [shr_record_of_loc shr shr_m].
    destruct M as [| m | m]; try lia.
    exists m, E.
    split.
    { replace (E <=? 1024 - 53) with true
        by (symmetry; apply Z.leb_le; unfold E, k; lia).
      reflexivity. }
    split; [exact HdM |]. split; [unfold E, k; lia |].
    left. split; reflexivity.
Qed.

Lemma new_location_locates (N D : Z) :
  0 <= N -> 0 < D ->
  Binary64.locates N D (shr_record_of_loc (N / D) (new_location D (N mod D))).
Proof.
  intros HN HD. pose proof (Z.mod_pos_bound N D HD) as Hrho.
  set (rho := N mod D) in *.
  assert (L : forall r s : bool,
             r = (D <=? 2 * rho) ->
             s = negb ((rho =? 0) || (2 * rho =? D)) ->
             Binary64.locates N D (Build_shr_record (N / D) r s)).
  { intros r s Hr Hs. unfold Binary64.locates. cbn [shr_m shr_r shr_s].
    fold rho. auto. }
  unfold new_location, new_location_even, new_location_odd.
  destruct (Z.even D) eqn:Ev.
  - destruct (Z.eqb_spec rho 0) as [E0 | N0].
    + apply L; [symmetry; apply Z.leb_gt; lia | reflexivity].
    + destruct (Z.compare_spec (2 * rho) D) as [E | E | E];
        cbn [shr_record_of_loc]; apply L;
        try (symmetry; apply Z.leb_le; lia);
        try (symmetry; apply Z.leb_gt; lia);
        destruct (Z.eqb_spec (2 * rho) D); try lia; reflexivity.
  - assert (Hodd : 2 * rho <> D).
    { intros C. rewrite <- C in Ev. rewrite Z.even_mul in Ev.
      discriminate Ev. }
    destruct (Z.eqb_spec rho 0) as [E0 | N0].
    + apply L; [symmetry; apply Z.leb_gt; lia | reflexivity].
    + destruct (Z.compare_spec (2 * rho + 1) D) as [E | E | E];
        cbn [shr_record_of_loc]; apply L;
        try (symmetry; apply Z.leb_le; lia);
        try (symmetry; apply Z.leb_gt; lia);
        destruct (Z.eqb_spec (2 * rho) D); try lia; reflexivity.
Qed.

Lemma Zdigits2_between (q a : Z) :
  0 <= a -> 2 ^ a <= q < 2 ^ (a + 2) ->
  Zdigits2 q = a + 1 \/ Zdigits2 q = a + 2.
Proof.
  intros Ha [Hlo Hhi].
  assert (Hq : 0 < q).
  { pose proof (Z.pow_pos_nonneg 2 a ltac:(lia) Ha). lia. }
  pose proof (Zdigits2_spec q Hq) as [S1 S2].
  assert (Hd : 0 < Zdigits2 q).
  { destruct q; simpl; lia. }
  destruct (Z.le_gt_cases (Zdigits2 q) a) as [L | G].
  - exfalso. pose proof (Z.pow_le_mono_r 2 _ _ ltac:(lia) L). lia.
  - destruct (Z.le_gt_cases (Zdigits2 q) (a + 2)) as [L' | G'];
      [lia | exfalso].
    pose proof (Z.pow_le_mono_r 2 (a + 2) (Zdigits2 q - 1) ltac:(lia)
                  ltac:(lia)). lia.
Qed.

(** *** The nearest float *)

Section Rounding.

Local Open Scope Q_scope.

Lemma pow2_pos (e : Z) : 0 < 2 ^ e.
Proof. apply Qpower_0_lt. reflexivity. Qed.

Lemma pow2_add (a b : Z) : 2 ^ (a + b) == 2 ^ a * 2 ^ b.
Proof. apply Qpower_plus. discriminate. Qed.

Lemma pow2_le (a b : Z) : (a <= b)%Z -> 2 ^ a <= 2 ^ b.
Proof. intros H. apply Qpower_le_compat_l; [exact H | discriminate]. Qed.

Lemma pow2_Z (n : Z) : (0 <= n)%Z -> 2 ^ n == inject_Z (2 ^ n).
Proof. intros H. rewrite Zpower_Qpower by exact H. reflexivity. Qed.

Lemma pow2_succ (a : Z) : 2 ^ (a + 1) == 2 * 2 ^ a.
Proof. rewrite pow2_add. change (2 ^ 1) with 2. ring. Qed.

Lemma round_half_even_le (n : Z) (x : Q) :
  x <= inject_Z n -> (Py.round_half_even x <= n)%Z.
Proof.
  intros H. unfold Py.round_half_even.
  pose proof (Qfloor_le x) as Hf. pose proof (Qlt_floor x) as Hl.
  assert (Hfn : (Qfloor x <= n)%Z).
  { rewrite Zle_Qle. lra. }
  destruct (Qcompare_spec (x - inject_Z (Qfloor x)) (1 # 2)) as [E | E | E].
  - assert (Hlt : (Qfloor x < n)%Z).
    { rewrite Zlt_Qlt. lra. }
    destruct (Z.even (Qfloor x)); lia.
  - exact Hfn.
  - assert (Hlt : (Qfloor x < n)%Z).
    { rewrite Zlt_Qlt. lra. }
    lia.
Qed.

Lemma round_half_even_mono (x y : Q) :
  x <= y -> (Py.round_half_even x <= Py.round_half_even y)%Z.
Proof.
  intros H. destruct (Qlt_le_dec x y) as [Hlt | Hge].
  - destruct (Z.le_gt_cases (Py.round_half_even x) (Py.round_half_even y))
      as [L | G]; [exact L | exfalso].
    pose proof (round_half_even_near x) as Nx.
    pose proof (round_half_even_near y) as Ny.
    assert (G' : (Py.round_half_even y + 1 <= Py.round_half_even x)%Z)
      by lia.
    rewrite Zle_Qle, inject_Z_plus in G'.
    change (inject_Z 1) with 1 in G'. lra.
  - rewrite (round_half_even_comp x y); [lia |].
    apply Qle_antisym; assumption.
Qed.

Lemma to_Q_finite (m : positive) (e : Z) :
  Binary64.to_Q (S754_finite false m e) = inject_Z (Zpos m) * 2 ^ e.
Proof. reflexivity. Qed.

Lemma normal_inv (f : Binary64.float) :
  Binary64.normal f = true ->
  exists (m : positive) (e : Z),
    f = S754_finite false m e
    /\ (2 ^ 52 <= Zpos m < 2 ^ 53)%Z /\ (-1074 <= e <= 971)%Z.
Proof.
  destruct f as [| | | [|] m e]; try discriminate.
  unfold Binary64.normal. intros H. apply andb_true_iff in H. destruct H as [H H3].
  apply andb_true_iff in H. destruct H as [H1 H2].
  apply Z.eqb_eq in H1. apply Z.leb_le in H2, H3.
  exists m, e. split; [reflexivity |]. split; [| lia].
  pose proof (Zdigits2_spec (Zpos m) ltac:(lia)) as S.
  rewrite H1 in S. exact S.
Qed.

Lemma normal_intro (m : positive) (e : Z) :
  Zdigits2 (Zpos m) = 53%Z -> (-1074 <= e <= 971)%Z ->
  Binary64.normal (S754_finite false m e) = true.
Proof.
  intros H1 H2. unfold Binary64.normal. rewrite H1.
  apply andb_true_iff. split; [apply andb_true_iff; split |].
  - reflexivity.
  - apply Z.leb_le. lia.
  - apply Z.leb_le. lia.
Qed.

(** The mantissa of the nearest float. *)
Lemma nearest_mantissa (x : Q) (E : Z) :
  inject_Z (2 ^ 52) * 2 ^ E <= x < inject_Z (2 ^ 53) * 2 ^ E ->
  (2 ^ 52 <= Py.round_half_even (x / 2 ^ E) <= 2 ^ 53)%Z.
Proof.
  intros [Hlo Hhi]. pose proof (pow2_pos E) as P.
  split.
  - apply round_half_even_ge. apply Qle_shift_div_l; assumption.
  - apply round_half_even_le. apply Qle_shift_div_r; [exact P |].
    apply Qlt_le_weak. exact Hhi.
Qed.

Lemma nearest_mono (x y : Q) (f g : Binary64.float) :
  Binary64.nearest x f -> Binary64.nearest y g -> x <= y ->
  Binary64.to_Q f <= Binary64.to_Q g.
Proof.
  intros (_ & Ex & Bx & Vx) (_ & Ey & By & Vy) H.
  rewrite Vx, Vy.
  pose proof (nearest_mantissa x Ex Bx) as Mx.
  pose proof (nearest_mantissa y Ey By) as My.
  pose proof (pow2_pos Ex) as Px. pose proof (pow2_pos Ey) as Py'.
  destruct (Z.lt_trichotomy Ex Ey) as [L | [E | G]].
  - apply Qle_trans with (inject_Z (2 ^ 53) * 2 ^ Ex).
    + apply Qmult_le_compat_r; [| apply Qlt_le_weak; exact Px].
      rewrite <- Zle_Qle. lia.
    + apply Qle_trans with (inject_Z (2 ^ 52) * 2 ^ Ey).
      * pose proof (pow2_le (Ex + 1) Ey ltac:(lia)) as P1.
        rewrite pow2_succ in P1.
        change (inject_Z (2 ^ 53)) with (2 * inject_Z (2 ^ 52)).
        change (inject_Z (2 ^ 52)) with 4503599627370496 in *.
        lra.
      * apply Qmult_le_compat_r; [| apply Qlt_le_weak; exact Py'].
        rewrite <- Zle_Qle. lia.
  - subst Ey. apply Qmult_le_compat_r; [| apply Qlt_le_weak; exact Px].
    rewrite <- Zle_Qle. apply round_half_even_mono.
    apply Qmult_le_compat_r; [exact H |].
    apply Qlt_le_weak. apply Qinv_lt_0_compat. exact Px.
  - exfalso.
    pose proof (pow2_le (Ey + 1) Ex ltac:(lia)) as P1.
    rewrite pow2_succ in P1.
    change (inject_Z (2 ^ 53)) with (2 * inject_Z (2 ^ 52)) in *.
    change (inject_Z (2 ^ 52)) with 4503599627370496 in *.
    lra.
Qed.

Lemma nearest_exact (f : Binary64.float) :
  Binary64.normal f = true -> Binary64.nearest (Binary64.to_Q f) f.
Proof.
  intros Hn. split; [exact Hn |].
  destruct (normal_inv f Hn) as (m & e & -> & Hm & He).
  exists e. rewrite to_Q_finite. pose proof (pow2_pos e) as P.
  split.
  - split.
    + apply Qmult_le_compat_r; [| apply Qlt_le_weak; exact P].
      rewrite <- Zle_Qle. lia.
    + apply Qmult_lt_compat_r; [exact P |].
      rewrite <- Zlt_Qlt. lia.
  - rewrite (round_half_even_comp _ (inject_Z (Zpos m))).
    + rewrite round_half_even_Z. reflexivity.
    + field. intros C. rewrite C in P. apply (Qlt_irrefl 0). exact P.
Qed.

(** Rounding changes a number by at most one part in 2^53. *)
Lemma nearest_error (x : Q) (f : Binary64.float) :
  Binary64.nearest x f ->
  x - x * (1 # 9007199254740992) <= Binary64.to_Q f
  <= x + x * (1 # 9007199254740992).
Proof.
  intros (_ & E & [Blo Bhi] & V). rewrite V.
  pose proof (pow2_pos E) as P.
  pose proof (round_half_even_near (x / 2 ^ E)) as N.
  set (r := inject_Z (Py.round_half_even (x / 2 ^ E))) in *.
  set (p := 2 ^ E) in *.
  assert (Hp : ~ p == 0) by lra.
  assert (Hx : x == (x / p) * p) by (field; exact Hp).
  set (y := x / p) in *. clearbody r y p.
  change (inject_Z (2 ^ 53)) with 9007199254740992 in *.
  change (inject_Z (2 ^ 52)) with 4503599627370496 in *.
  assert (A1 : (y - (1 # 2)) * p <= r * p).
  { apply Qmult_le_compat_r; lra. }
  assert (A2 : r * p <= (y + (1 # 2)) * p).
  { apply Qmult_le_compat_r; lra. }
  assert (A3 : (y - (1 # 2)) * p == y * p - (1 # 2) * p) by ring.
  assert (A4 : (y + (1 # 2)) * p == y * p + (1 # 2) * p) by ring.
  lra.
Qed.

Lemma Qmake_div (a : Z) (b : positive) :
  a # b == inject_Z a / inject_Z (Zpos b).
Proof. rewrite Qmake_Qdiv. reflexivity. Qed.

Lemma inject_Z_pos_neq (z : Z) : (0 < z)%Z -> ~ inject_Z z == 0.
Proof. intros H C. unfold Qeq in C. simpl in C. lia. Qed.

(** What [binary_round_aux] returns, as a number. *)
Lemma binary_round_aux_nearest (N D mx ex : Z) (lx : location) :
  Binary64.locates N D (shr_record_of_loc mx lx) ->
  (53 <= Zdigits2 mx)%Z ->
  (-1074 <= Zdigits2 mx + ex - 53 <= 970)%Z ->
  Binary64.nearest (inject_Z N / inject_Z D * 2 ^ ex)
    (binary_round_aux 53 1024 false mx ex lx).
Proof.
  intros Hloc Hd Hrange.
  assert (HD : (0 < D)%Z) by (destruct Hloc as (_ & H & _); exact H).
  destruct (binary_round_aux_normal N D mx ex lx Hloc Hd Hrange)
    as (Hq & HM & m & e & -> & Hdig & He & Hval).
  set (k := (Zdigits2 mx - 53)%Z) in *.
  assert (Hk : (0 <= k)%Z) by (unfold k; lia).
  assert (Hpk : (0 < 2 ^ k)%Z) by (apply Z.pow_pos_nonneg; lia).
  set (W := (D * 2 ^ k)%Z) in *.
  assert (HW : (0 < W)%Z) by (unfold W; lia).
  set (x := inject_Z N / inject_Z D * 2 ^ ex).
  assert (Hx : x / 2 ^ (ex + k) == N # Z.to_pos W).
  { unfold x. rewrite (Qmake_div N (Z.to_pos W)), Z2Pos.id by exact HW.
    unfold W. rewrite inject_Z_mult, pow2_add, <- (pow2_Z k) by exact Hk.
    pose proof (pow2_pos ex). pose proof (pow2_pos k).
    field. repeat split; try lra. apply inject_Z_pos_neq. exact HD. }
  split; [apply normal_intro; assumption |].
  exists (ex + k)%Z.
  pose proof (pow2_pos (ex + k)) as P.
  assert (Hxe : x == (N # Z.to_pos W) * 2 ^ (ex + k)).
  { rewrite <- Hx. field. lra. }
  split.
  - rewrite Hxe. split.
    + apply Qmult_le_compat_r; [| lra].
      unfold Qle. cbn [Qnum Qden inject_Z]. rewrite Z2Pos.id by exact HW.
      destruct Hq as [Hq _].
      apply (Z.mul_le_mono_nonneg_r _ _ W) in Hq; [| lia].
      pose proof (Z.mul_div_le N W HW). lia.
    + apply Qmult_lt_compat_r; [exact P |].
      unfold Qlt. cbn [Qnum Qden inject_Z]. rewrite Z2Pos.id by exact HW.
      destruct Hq as [_ Hq].
      pose proof (Z.mul_succ_div_gt N W HW). nia.
  - rewrite (round_half_even_comp _ _ Hx), to_Q_finite.
    destruct Hval as [[-> ->] | (-> & -> & ->)]; [reflexivity |].
    rewrite pow2_succ.
    change (inject_Z (2 ^ 53)) with (2 * inject_Z (2 ^ 52)). ring.
Qed.

(** The float nearest to [n / d]. *)
Lemma lit_nearest (n d : positive) :
  (Zpos n < 2 ^ 1023)%Z -> (Zpos d < 2 ^ 1021)%Z ->
  Binary64.nearest (Zpos n # d) (Binary64.lit (Zpos n) d).
Proof.
  intros Hn Hd. unfold Binary64.lit, SFdiv_core_binary.
  unfold Binary64.prec, Binary64.emax.
  set (d1 := Zdigits2 (Zpos n)). set (d2 := Zdigits2 (Zpos d)).
  pose proof (Zdigits2_spec (Zpos n) ltac:(lia)) as S1.
  pose proof (Zdigits2_spec (Zpos d) ltac:(lia)) as S2.
  fold d1 in S1. fold d2 in S2.
  assert (Hd1 : (1 <= d1 <= 1023)%Z).
  { split; [unfold d1; simpl; lia |].
    destruct (Z.le_gt_cases d1 1023) as [L | G]; [exact L | exfalso].
    pose proof (Z.pow_le_mono_r 2 1023 (d1 - 1) ltac:(lia) ltac:(lia)).
    lia. }
  assert (Hd2 : (1 <= d2 <= 1021)%Z).
  { split; [unfold d2; simpl; lia |].
    destruct (Z.le_gt_cases d2 1021) as [L | G]; [exact L | exfalso].
    pose proof (Z.pow_le_mono_r 2 1021 (d2 - 1) ltac:(lia) ltac:(lia)).
    lia. }
  replace (d1 + 0 - (d2 + 0))%Z with (d1 - d2)%Z by lia.
  rewrite fexp_normal by lia.
  change (0 - 0)%Z with 0%Z.
  set (e' := Z.min (d1 - d2 - 53) 0).
  set (s := (0 - e')%Z).
  assert (Hs : (0 <= s)%Z) by (unfold s, e'; lia).
  assert (Hm' : match s with
                | Zpos _ => Z.shiftl (Zpos n) s
                | 0%Z => Zpos n
                | Zneg _ => 0%Z
                end = (Zpos n * 2 ^ s)%Z).
  { destruct s as [| p | p] eqn:Es; [lia | | lia].
    rewrite Z.shiftl_mul_pow2 by lia. reflexivity. }
  rewrite Hm'. clear Hm'.
  set (num := (Zpos n * 2 ^ s)%Z).
  assert (Hps : (0 < 2 ^ s)%Z) by (apply Z.pow_pos_nonneg; lia).
  assert (HN : (0 <= num)%Z) by (unfold num; lia).
  assert (Hdiv : Z.div_eucl num (Zpos d) = (num / Zpos d, num mod Zpos d)%Z).
  { unfold Z.div, Z.modulo. destruct (Z.div_eucl num (Zpos d)). reflexivity. }
  rewrite Hdiv. clear Hdiv.
  pose proof (new_location_locates num (Zpos d) HN ltac:(lia)) as Hloc.
  set (a := (d1 - d2 + s - 1)%Z).
  assert (Ha : (52 <= a)%Z) by (unfold a, s, e'; lia).
  assert (Hq : (2 ^ a <= num / Zpos d < 2 ^ (a + 2))%Z).
  { assert (P1 : (2 ^ a * 2 ^ d2 <= num)%Z).
    { rewrite <- Z.pow_add_r by lia.
      replace (a + d2)%Z with ((d1 - 1) + s)%Z by (unfold a; lia).
      rewrite Z.pow_add_r by lia. unfold num.
      apply Z.mul_le_mono_nonneg_r; lia. }
    assert (P2 : (num < 2 ^ (a + 2) * 2 ^ (d2 - 1))%Z).
    { rewrite <- Z.pow_add_r by lia.
      replace (a + 2 + (d2 - 1))%Z with (d1 + s)%Z by (unfold a; lia).
      rewrite Z.pow_add_r by lia. unfold num.
      apply Z.mul_lt_mono_pos_r; lia. }
    assert (Pa : (0 < 2 ^ a)%Z) by (apply Z.pow_pos_nonneg; lia).
    assert (Pa2 : (0 < 2 ^ (a + 2))%Z) by (apply Z.pow_pos_nonneg; lia).
    split.
    - apply Z.div_le_lower_bound; [lia |]. nia.
    - apply Z.div_lt_upper_bound; [lia |]. nia. }
  assert (Dq : (a + 1 <= Zdigits2 (num / Zpos d) <= a + 2)%Z).
  { destruct (Zdigits2_between _ a ltac:(lia) Hq); lia. }
  pose proof (binary_round_aux_nearest num (Zpos d) (num / Zpos d) e'
                (new_location (Zpos d) (num mod Zpos d)) Hloc
                ltac:(lia) ltac:(unfold a, s, e' in *; lia)) as R.
  assert (Hx : (inject_Z num / inject_Z (Zpos d) * 2 ^ e' == Zpos n # d)%Q).
  { unfold num. rewrite inject_Z_mult, <- (pow2_Z s) by exact Hs.
    rewrite (Qmake_div (Zpos n) d).
    replace e' with (- s)%Z by (unfold s; lia).
    rewrite Qpower_opp. pose proof (pow2_pos s).
    field. split; [apply inject_Z_pos_neq; lia |].
    intros C. rewrite C in H. apply (Qlt_irrefl 0). exact H. }
  destruct R as (Rn & E & RB & RV). split; [exact Rn |]. exists E.
  split; [rewrite <- Hx; exact RB |].
  rewrite RV. apply Qmult_comp; [| reflexivity].
  rewrite (round_half_even_comp _ _ (Qdiv_comp _ _ Hx _ _ (Qeq_refl _))).
  reflexivity.
Qed.


Lemma nearest_comp (x y : Q) (f : Binary64.float) :
  x == y -> Binary64.nearest x f -> Binary64.nearest y f.
Proof.
  intros H (Hn & E & HB & HV). split; [exact Hn |]. exists E.
  split; [rewrite <- H; exact HB |].
  rewrite HV. apply Qmult_comp; [| reflexivity].
  rewrite (round_half_even_comp _ _ (Qdiv_comp _ _ H _ _ (Qeq_refl _))).
  reflexivity.
Qed.

Lemma nearest_normal (x : Q) (f : Binary64.float) :
  Binary64.nearest x f -> Binary64.normal f = true.
Proof. intros [H _]. exact H. Qed.

(** The product of two normal numbers. *)
Lemma mul_nearest (mx my : positive) (ex ey : Z) :
  Binary64.normal (S754_finite false mx ex) = true ->
  Binary64.normal (S754_finite false my ey) = true ->
  (-1126 <= ex + ey <= 917)%Z ->
  Binary64.nearest
    (Binary64.to_Q (S754_finite false mx ex)
     * Binary64.to_Q (S754_finite false my ey))
    (Binary64.mul (S754_finite false mx ex) (S754_finite false my ey)).
Proof.
  intros Hx Hy He.
  destruct (normal_inv _ Hx) as (mx' & ex' & Ex & Bx & _).
  destruct (normal_inv _ Hy) as (my' & ey' & Ey & By & _).
  inversion Ex; subst mx' ex'. inversion Ey; subst my' ey'.
  unfold Binary64.mul, SFmul, Binary64.prec, Binary64.emax.
  cbn [xorb].
  assert (Hp : (2 ^ 104 <= Zpos (mx * my) < 2 ^ 106)%Z).
  { rewrite Pos2Z.inj_mul.
    change (2 ^ 104)%Z with (2 ^ 52 * 2 ^ 52)%Z.
    change (2 ^ 106)%Z with (2 ^ 53 * 2 ^ 53)%Z. nia. }
  assert (Hd : (105 <= Zdigits2 (Zpos (mx * my)) <= 106)%Z).
  { destruct (Zdigits2_between _ 104 ltac:(lia) Hp); lia. }
  assert (Hloc : Binary64.locates (Zpos (mx * my)) 1
                   (shr_record_of_loc (Zpos (mx * my)) loc_Exact)).
  { unfold Binary64.locates. cbn [shr_record_of_loc shr_m shr_r shr_s].
    rewrite Z.div_1_r, Z.mod_1_r. repeat split; try lia. }
  pose proof (binary_round_aux_nearest _ _ _ (ex + ey) _ Hloc
                ltac:(lia) ltac:(lia)) as R.
  eapply nearest_comp; [| exact R].
  rewrite !to_Q_finite, Pos2Z.inj_mul, inject_Z_mult, pow2_add.
  change (inject_Z 1) with 1. field.
Qed.

(** The order of two normal numbers is the order of their values. *)
Lemma normal_value_lt (m1 m2 : positive) (e1 e2 : Z) :
  (2 ^ 52 <= Zpos m1 < 2 ^ 53)%Z -> (2 ^ 52 <= Zpos m2 < 2 ^ 53)%Z ->
  (e1 < e2)%Z ->
  inject_Z (Zpos m1) * 2 ^ e1 < inject_Z (Zpos m2) * 2 ^ e2.
Proof.
  intros B1 B2 H.
  pose proof (pow2_pos e1) as P1. pose proof (pow2_pos e2) as P2.
  pose proof (pow2_le (e1 + 1) e2 ltac:(lia)) as L.
  rewrite pow2_succ in L.
  apply Qlt_le_trans with (inject_Z (2 ^ 53) * 2 ^ e1).
  - apply Qmult_lt_compat_r; [exact P1 |]. rewrite <- Zlt_Qlt. lia.
  - apply Qle_trans with (inject_Z (2 ^ 52) * 2 ^ e2).
    + change (inject_Z (2 ^ 53)) with (2 * inject_Z (2 ^ 52)).
      change (inject_Z (2 ^ 52)) with 4503599627370496.
      set (p1 := 2 ^ e1) in *. set (p2 := 2 ^ e2) in *.
      clearbody p1 p2. lra.
    + apply Qmult_le_compat_r; [| apply Qlt_le_weak; exact P2].
      rewrite <- Zle_Qle. lia.
Qed.

Lemma normal_compare (x y : Binary64.float) :
  Binary64.normal x = true -> Binary64.normal y = true ->
  SFcompare x y = Some (Binary64.to_Q x ?= Binary64.to_Q y).
Proof.
  intros Hx Hy.
  destruct (normal_inv _ Hx) as (m1 & e1 & -> & B1 & _).
  destruct (normal_inv _ Hy) as (m2 & e2 & -> & B2 & _).
  rewrite !to_Q_finite. cbn [SFcompare]. f_equal.
  destruct (Z.compare_spec e1 e2) as [E | L | G].
  - subst e2. rewrite Pos.compare_cont_spec. cbn [Pos.switch_Eq].
    pose proof (pow2_pos e1) as P.
    destruct (Pos.compare_spec m1 m2) as [E | L | G]; symmetry.
    + subst m2. apply Qeq_alt. reflexivity.
    + apply Qlt_alt. apply Qmult_lt_compat_r; [exact P |].
      rewrite <- Zlt_Qlt. lia.
    + apply Qgt_alt. apply Qmult_lt_compat_r; [exact P |].
      rewrite <- Zlt_Qlt. lia.
  - symmetry. apply Qlt_alt. apply normal_value_lt; assumption.
  - symmetry. apply Qgt_alt. apply normal_value_lt; assumption.
Qed.

Lemma leb_normal (x y : Binary64.float) :
  Binary64.normal x = true -> Binary64.normal y = true ->
  Binary64.leb x y = true <-> Binary64.to_Q x <= Binary64.to_Q y.
Proof.
  intros Hx Hy. unfold Binary64.leb, SFleb.
  rewrite (normal_compare x y Hx Hy).
  rewrite Qle_alt.
  destruct (Binary64.to_Q x ?= Binary64.to_Q y); split; intros H;
    try reflexivity; try discriminate; try congruence.
Qed.

Lemma ltb_normal (x y : Binary64.float) :
  Binary64.normal x = true -> Binary64.normal y = true ->
  Binary64.ltb x y = true <-> Binary64.to_Q x < Binary64.to_Q y.
Proof.
  intros Hx Hy. unfold Binary64.ltb, SFltb.
  rewrite (normal_compare x y Hx Hy).
  rewrite Qlt_alt.
  destruct (Binary64.to_Q x ?= Binary64.to_Q y); split; intros H;
    try reflexivity; try discriminate; try congruence.
Qed.

(** The exponent of a normal number that is below a power of two. *)
Lemma normal_exponent (m : positive) (e a : Z) :
  Binary64.normal (S754_finite false m e) = true ->
  Binary64.to_Q (S754_finite false m e) < 2 ^ a ->
  (e + 52 < a)%Z.
Proof.
  intros Hn H. destruct (normal_inv _ Hn) as (m' & e' & Ef & Bm & _).
  inversion Ef; subst m' e'. rewrite to_Q_finite in H.
  destruct (Z.lt_ge_cases (e + 52) a) as [L | G]; [exact L | exfalso].
  pose proof (pow2_le a (e + 52) ltac:(lia)) as P.
  rewrite Z.add_comm, pow2_add, (pow2_Z 52) in P by lia.
  pose proof (pow2_pos e) as Pe.
  assert (inject_Z (2 ^ 52) * 2 ^ e <= inject_Z (Zpos m) * 2 ^ e).
  { apply Qmult_le_compat_r; [| apply Qlt_le_weak; exact Pe].
    rewrite <- Zle_Qle. lia. }
  set (pa := 2 ^ a) in *. clearbody pa. lra.
Qed.

(** [round(x, 1)] of a normal number that is not too small. *)
Lemma round_1_nearest (x : Binary64.float) :
  Binary64.normal x = true ->
  let n := Py.round_half_even (Binary64.to_Q x * 10) in
  (0 < n < 2 ^ 1023)%Z ->
  Binary64.nearest (n # 10) (Binary64.round x 1).
Proof.
  intros Hn n Hrange.
  destruct (normal_inv _ Hn) as (m & e & -> & _).
  unfold Binary64.round.
  change (10 ^ Z.of_nat 1)%Z with 10%Z. change (inject_Z 10) with 10.
  fold n. destruct (Z.eqb_spec n 0) as [E | _]; [lia |].
  destruct n as [| pn | pn] eqn:En; try lia.
  apply lit_nearest; [lia | reflexivity].
Qed.

End Rounding.

(** ** The reflection *)

(** *** The completion rate in binary64 *)

Lemma truediv_counts (c p : Z) :
  0 <= c < 2 ^ 1023 -> 0 < p < 2 ^ 1021 ->
  Binary64.truediv c p = Ok (Binary64.lit c (Z.to_pos p)).
Proof.
  intros Hc Hp. unfold Binary64.truediv.
  destruct (Z.eqb_spec p 0) as [E | _]; [lia |].
  destruct (Z.ltb_spec p 0) as [L | _]; [lia |].
  destruct c as [| pc | pc]; [reflexivity | | lia].
  pose proof (lit_nearest pc (Z.to_pos p) ltac:(lia)
                ltac:(rewrite Z2Pos.id; lia)) as [Hn _].
  destruct (normal_inv _ Hn) as (m & e & -> & _). reflexivity.
Qed.

(** A division raises for a zero divisor or for a quotient beyond the
    floats, and for nothing else. *)
Lemma truediv_raises (a b : Z) (e : exn) :
  Binary64.truediv a b = Raise e ->
  (e = ZeroDivisionError /\ b = 0) \/ (e = OverflowError /\ b <> 0).
Proof.
  unfold Binary64.truediv.
  destruct (Z.eqb_spec b 0) as [E | N]; intros H.
  - left. inversion H. auto.
  - right. destruct (if b <? 0 then _ else _); inversion H. auto.
Qed.

Lemma len_pos {A : Type} (l : list A) : l <> [] -> 0 < Py.len l.
Proof. unfold Py.len. destruct l; [contradiction | simpl; lia]. Qed.

Lemma len_nonneg {A : Type} (l : list A) : 0 <= Py.len l.
Proof. unfold Py.len. lia. Qed.

(** What the analysis holds when something was planned. *)
Lemma analyze_completion_planned (completed planned : list Task.t) :
  planned <> [] ->
  Py.len completed < 2 ^ 1023 -> Py.len planned < 2 ^ 1021 ->
  ReflectionAgent._analyze_completion completed planned
  = Ok (ReflectionAgent.Analysis (Py.len planned) (Py.len completed)
          (Py.len planned - Py.len completed)
          (Binary64.round (Spec.float_rate completed planned) 1)
          (ReflectionAgent._get_completion_status
             (Spec.float_rate completed planned))).
Proof.
  intros Hne Hc Hp. pose proof (len_pos planned Hne) as Hp0.
  pose proof (len_nonneg completed) as Hc0.
  unfold ReflectionAgent._analyze_completion.
  destruct (Z.eqb_spec (Py.len planned) 0) as [E | _]; [lia |].
  rewrite truediv_counts by lia. reflexivity.
Qed.

Section Rate.

Local Open Scope Q_scope.

Lemma of_int_100 :
  Binary64.of_int 100 = S754_finite false 7036874417766400 (-46).
Proof. reflexivity. Qed.

(** A float of a whole number below 2^53 is that number. *)
Lemma of_int_value (n : Z) (f : Binary64.float) (v : Q) :
  Binary64.of_int n = f -> Binary64.normal f = true ->
  Binary64.to_Q f == v -> Binary64.nearest v (Binary64.of_int n).
Proof.
  intros -> Hn Hv. eapply nearest_comp; [exact Hv |].
  apply nearest_exact. exact Hn.
Qed.

Lemma nearest_ge (t : Binary64.float) (x : Q) (f : Binary64.float) :
  Binary64.normal t = true -> Binary64.nearest x f ->
  Binary64.to_Q t <= x -> Binary64.to_Q t <= Binary64.to_Q f.
Proof.
  intros Ht Hf H. apply (nearest_mono (Binary64.to_Q t) x t f);
    [apply nearest_exact; exact Ht | exact Hf | exact H].
Qed.

Lemma nearest_le (t : Binary64.float) (x : Q) (f : Binary64.float) :
  Binary64.normal t = true -> Binary64.nearest x f ->
  x <= Binary64.to_Q t -> Binary64.to_Q f <= Binary64.to_Q t.
Proof.
  intros Ht Hf H. apply (nearest_mono x (Binary64.to_Q t) f t);
    [exact Hf | apply nearest_exact; exact Ht | exact H].
Qed.

(** The quotient of two counts and its product with 100 are the nearest
    floats. *)
Lemma float_rate_nearest (c p : positive) :
  (Zpos c < 2 ^ 63)%Z -> (Zpos p < 2 ^ 63)%Z ->
  Binary64.nearest (Zpos c # p) (Binary64.lit (Zpos c) p)
  /\ Binary64.nearest (Binary64.to_Q (Binary64.lit (Zpos c) p) * 100)
       (Binary64.lit (Zpos c) p * Binary64.of_int 100)%f64.
Proof.
  intros Hc Hp.
  assert (Hq : Binary64.nearest (Zpos c # p) (Binary64.lit (Zpos c) p))
    by (apply lit_nearest; lia).
  split; [exact Hq |].
  pose proof (nearest_error _ _ Hq) as [_ Hup].
  destruct (normal_inv _ (nearest_normal _ _ Hq)) as (m & e & Eq & Bm & Be).
  rewrite Eq in *.
  assert (Hx : Zpos c # p <= inject_Z (2 ^ 63)).
  { unfold Qle. cbn [Qnum Qden inject_Z]. nia. }
  assert (Hx0 : 0 < Zpos c # p) by reflexivity.
  assert (Hlt : Binary64.to_Q (S754_finite false m e) < 2 ^ 64).
  { rewrite (pow2_Z 64) by lia.
    change (inject_Z (2 ^ 64)) with (2 * inject_Z (2 ^ 63)).
    assert (Hb : 0 < inject_Z (2 ^ 63)) by reflexivity.
    set (x := Zpos c # p) in *. clearbody x.
    set (b := inject_Z (2 ^ 63)) in *. clearbody b.
    lra. }
  pose proof (normal_exponent m e 64 (nearest_normal _ _ Hq) Hlt) as He.
  rewrite of_int_100.
  eapply nearest_comp;
    [| apply mul_nearest;
       [exact (nearest_normal _ _ Hq) | reflexivity | lia]].
  assert (H100 : Binary64.to_Q (S754_finite false 7036874417766400 (-46))
                 == 100) by (vm_compute; reflexivity).
  rewrite H100. reflexivity.
Qed.

Lemma of_int_1_value :
  Binary64.normal (Binary64.of_int 1) = true
  /\ Binary64.to_Q (Binary64.of_int 1) == 1.
Proof. split; vm_compute; reflexivity. Qed.

Lemma of_int_100_value :
  Binary64.normal (Binary64.of_int 100) = true
  /\ Binary64.to_Q (Binary64.of_int 100) == 100.
Proof. split; vm_compute; reflexivity. Qed.

Lemma of_int_90_value :
  Binary64.normal (Binary64.of_int 90) = true
  /\ Binary64.to_Q (Binary64.of_int 90) == 90.
Proof. split; vm_compute; reflexivity. Qed.

(** At least as many completed as planned: the float rate is at least 100
    and so is its rounding to one decimal, which lies within 0.05 and the
    errors of three roundings of the exact rate. *)
Lemma float_rate_above (c p : positive) :
  (Zpos p <= Zpos c)%Z -> (Zpos c < 2 ^ 63)%Z ->
  let r := (Binary64.lit (Zpos c) p * Binary64.of_int 100)%f64 in
  let x := 100 * (Zpos c # p) in
  Binary64.normal r = true
  /\ 100 <= Binary64.to_Q r
  /\ Binary64.normal (Binary64.round r 1) = true
  /\ 100 <= Binary64.to_Q (Binary64.round r 1)
  /\ x - (1 # 20) - x * (1 # 2 ^ 50)
     <= Binary64.to_Q (Binary64.round r 1)
     <= x + (1 # 20) + x * (1 # 2 ^ 50).
Proof.
  intros Hle Hc r x.
  destruct (float_rate_nearest c p Hc ltac:(lia)) as [Hq Hr].
  fold r in Hr.
  set (q := Binary64.lit (Zpos c) p) in *.
  set (x0 := Zpos c # p) in *.
  assert (Hx0 : 1 <= x0).
  { unfold x0, Qle. cbn [Qnum Qden]. lia. }
  assert (Hx63 : x0 <= inject_Z (2 ^ 63)).
  { unfold x0, Qle. cbn [Qnum Qden inject_Z]. nia. }
  destruct of_int_1_value as [N1 V1].
  destruct of_int_100_value as [N100 V100].
  pose proof (nearest_ge (Binary64.of_int 1) x0 q N1 Hq
                ltac:(rewrite V1; exact Hx0)) as Q1.
  rewrite V1 in Q1.
  pose proof (nearest_ge (Binary64.of_int 100) _ r N100 Hr
                ltac:(rewrite V100; lra)) as R100.
  rewrite V100 in R100.
  pose proof (nearest_error _ _ Hq) as Eq.
  pose proof (nearest_error _ _ Hr) as Er.
  pose proof (round_half_even_near (Binary64.to_Q r * 10)) as Nn.
  set (n := Py.round_half_even (Binary64.to_Q r * 10)) in *.
  assert (Hn1000 : (1000 <= n)%Z).
  { apply round_half_even_ge. change (inject_Z 1000) with 1000. lra. }
  assert (Hn90 : (n <= 2 ^ 90)%Z).
  { apply round_half_even_le.
    assert (Hb : inject_Z (2 ^ 63) * 8000 <= inject_Z (2 ^ 90))
      by (vm_compute; discriminate).
    set (b := inject_Z (2 ^ 63)) in *. set (b' := inject_Z (2 ^ 90)) in *.
    clearbody b b'. set (Q := Binary64.to_Q q) in *.
    set (R := Binary64.to_Q r) in *. clearbody Q R. lra. }
  pose proof (round_1_nearest r (nearest_normal _ _ Hr)) as Hrep.
  fold n in Hrep. cbv zeta in Hrep.
  specialize (Hrep ltac:(lia)).
  assert (Hv : n # 10 == inject_Z n * (1 # 10)).
  { unfold Qeq. cbn [Qnum Qden inject_Z Qmult]. lia. }
  pose proof (nearest_ge (Binary64.of_int 100) _ _ N100 Hrep
                ltac:(rewrite V100, Hv; rewrite Zle_Qle in Hn1000;
                      change (inject_Z 1000) with 1000 in Hn1000; lra))
    as Rep100.
  rewrite V100 in Rep100.
  pose proof (nearest_error _ _ Hrep) as Ep. rewrite Hv in Ep.
  split; [exact (nearest_normal _ _ Hr) |].
  split; [exact R100 |].
  split; [exact (nearest_normal _ _ Hrep) |].
  split; [exact Rep100 |].
  unfold x. change (1 # 2 ^ 50) with (1 # 1125899906842624).
  set (Q := Binary64.to_Q q) in *. set (R := Binary64.to_Q r) in *.
  set (P := Binary64.to_Q (Binary64.round r 1)) in *.
  set (nq := inject_Z n) in *.
  clearbody Q R P nq x0. lra.
Qed.

End Rate.

(** *** More completed than planned *)

(** C10, as the code has it.  For a non-empty planned list and a strictly
    longer completed list the analysis reports the rate, not clamped: the
    binary64 product [(|completed| / |planned|) * 100] rounded to one
    decimal.  The reported float is at least 100.0 (it can be exactly
    100.0), it differs from the exact rate by at most 0.05 and one part in
    2^50 of the rate, and the status is "excellent".  The bound on the
    length is the one every list of CPython meets. *)
Theorem C10_rate_not_clamped (completed planned : list Task.t) :
  planned <> [] ->
  (List.length planned < List.length completed)%nat ->
  Py.len completed < 2 ^ 63 ->
  exists a : ReflectionAgent.completion_analysis,
    ReflectionAgent._analyze_completion completed planned = Ok a
    /\ ReflectionAgent.completion_rate a
       = Binary64.round (Spec.float_rate completed planned) 1
    /\ Binary64.leb (Binary64.of_int 100) (ReflectionAgent.completion_rate a)
       = true
    /\ (Spec.exact_rate completed planned - (1 # 20)
        - Spec.exact_rate completed planned * (1 # 2 ^ 50)
        <= Binary64.to_Q (ReflectionAgent.completion_rate a)
        <= Spec.exact_rate completed planned + (1 # 20)
           + Spec.exact_rate completed planned * (1 # 2 ^ 50))%Q
    /\ ReflectionAgent.status a = "excellent".
Proof.
  intros Hne Hlt Hc.
  pose proof (len_pos planned Hne) as Hp0.
  assert (Hpc : Py.len planned < Py.len completed)
    by (unfold Py.len; lia).
  rewrite analyze_completion_planned by (try exact Hne; lia).
  eexists. split; [reflexivity |].
  cbn [ReflectionAgent.completion_rate ReflectionAgent.status].
  unfold Spec.float_rate, Spec.exact_rate.
  destruct (Py.len completed) as [| c | c] eqn:Ec; try lia.
  destruct (Py.len planned) as [| p | p] eqn:Ep; try lia.
  cbn [Z.to_pos].
  destruct (float_rate_above c p ltac:(lia) Hc)
    as (Nr & R100 & Nrep & Rep100 & Hnear).
  destruct of_int_100_value as [N100 V100].
  destruct of_int_90_value as [N90 V90].
  split; [reflexivity |]. split; [| split].
  - apply leb_normal; [exact N100 | exact Nrep |].
    rewrite V100. exact Rep100.
  - assert (E : (100 * inject_Z (Zpos c) / inject_Z (Zpos p)
                 == 100 * (Zpos c # p))%Q).
    { rewrite (Qmake_div (Zpos c) p). field.
      apply inject_Z_pos_neq. lia. }
    rewrite E. exact Hnear.
  - unfold ReflectionAgent._get_completion_status.
    assert (H90 : Binary64.leb (Binary64.of_int 90)
                    (Binary64.lit (Zpos c) p * Binary64.of_int 100)%f64
                  = true).
    { apply leb_normal; [exact N90 | exact Nr |]. rewrite V90. lra. }
    rewrite H90. reflexivity.
Qed.

Lemma C10_witness :
  ([Examples.task_a] <> []
   /\ (List.length [Examples.task_a]
       < List.length [Examples.task_a; Examples.task_b])%nat
   /\ Py.len [Examples.task_a; Examples.task_b] < 2 ^ 63)
  /\ exists a : ReflectionAgent.completion_analysis,
       ReflectionAgent._analyze_completion
         [Examples.task_a; Examples.task_b] [Examples.task_a] = Ok a
       /\ ReflectionAgent.completion_rate a
          = Binary64.round
              (Spec.float_rate [Examples.task_a; Examples.task_b]
                 [Examples.task_a]) 1
       /\ Binary64.leb (Binary64.of_int 100)
            (ReflectionAgent.completion_rate a) = true
       /\ (Spec.exact_rate [Examples.task_a; Examples.task_b]
             [Examples.task_a] - (1 # 20)
           - Spec.exact_rate [Examples.task_a; Examples.task_b]
               [Examples.task_a] * (1 # 2 ^ 50)
           <= Binary64.to_Q (ReflectionAgent.completion_rate a)
           <= Spec.exact_rate [Examples.task_a; Examples.task_b]
                [Examples.task_a] + (1 # 20)
              + Spec.exact_rate [Examples.task_a; Examples.task_b]
                  [Examples.task_a] * (1 # 2 ^ 50))%Q
       /\ ReflectionAgent.status a = "excellent".
Proof.
  split.
  - split; [discriminate |]. split; [simpl; lia | reflexivity].
  - apply (C10_rate_not_clamped
             [Examples.task_a; Examples.task_b] [Examples.task_a]).
    + discriminate.
    + simpl. lia.
    + reflexivity.
Defined.

(** C10, as stated, fails: 2002 completed of 2001 planned is reported as
    the float 100.0, which is neither the exact rate nor above 100. *)
Lemma C10_counterexample :
  exists a : ReflectionAgent.completion_analysis,
    ReflectionAgent._analyze_completion
      (repeat Examples.task_a 2002) (repeat Examples.task_a 2001) = Ok a
    /\ ReflectionAgent.completion_rate a = Binary64.of_int 100
    /\ ~ (Binary64.to_Q (ReflectionAgent.completion_rate a)
          == 100 * 2002 / 2001)%Q
    /\ Binary64.ltb (Binary64.of_int 100) (ReflectionAgent.completion_rate a)
       = false.
Proof.
  eexists. split; [vm_compute; reflexivity |].
  cbn [ReflectionAgent.completion_rate]. split; [reflexivity |]. split.
  - intros C. vm_compute in C. discriminate C.
  - reflexivity.
Qed.

(** The rounding is that of the float: 87 completed of 80 planned are
    108.75 percent, which rounded half to even is 108.8; the product in
    binary64 lies below 108.75 and the report is the float 108.7. *)
Lemma rate_of_87_in_80 :
  exists a : ReflectionAgent.completion_analysis,
    ReflectionAgent._analyze_completion
      (repeat Examples.task_a 87) (repeat Examples.task_a 80) = Ok a
    /\ ReflectionAgent.completion_rate a = Binary64.lit 1087 10
    /\ (Py.round (100 * 87 / 80) 1 == 1088 # 10)%Q.
Proof.
  eexists. split; [vm_compute; reflexivity |].
  split; reflexivity.
Qed.

(** So is the rate in the reason of the decision: 23 completed of 80
    planned are 28.75 percent, formatted and rounded as the 28.7 of the
    float product; and 93 of 80 are reported as 116.3. *)
Lemma rates_in_binary64 :
  (exists d : ReflectionAgent.decision,
     ReflectionAgent._should_replan
       (repeat Examples.task_a 23) (repeat Examples.task_a 80) = Ok d
     /\ ReflectionAgent.reason d
        = "Low completion rate (28.7%). Tasks may need re-prioritization."
     /\ ReflectionAgent.decision_completion_rate d
        = Some (Binary64.lit 287 10))
  /\ exists a : ReflectionAgent.completion_analysis,
       ReflectionAgent._analyze_completion
         (repeat Examples.task_a 93) (repeat Examples.task_a 80) = Ok a
       /\ ReflectionAgent.completion_rate a = Binary64.lit 1163 10.
Proof.
  split; eexists; (split; [vm_compute; reflexivity |]);
    repeat split; reflexivity.
Qed.

(** *** The reflection as a whole *)

Lemma learn_from_session_raises (completed : list Task.t) (e : exn) :
  ReflectionAgent._learn_from_session completed = Raise e ->
  e = OverflowError /\ completed <> [].
Proof.
  unfold ReflectionAgent._learn_from_session.
  destruct completed as [| t completed]; cbn [PlanEvaluator.is_empty];
    intros H; [discriminate H |].
  apply bind_Raise in H. destruct H as [H | (? & _ & H)];
    [| discriminate H].
  apply truediv_raises in H. destruct H as [[_ H] | [-> _]].
  - unfold Py.len in H. simpl in H. lia.
  - split; [reflexivity | discriminate].
Qed.

Section Reflection.

Variable analyze_productivity_hours :
  list MemoryBank.task_record -> result (option (list Z)).
Variable analyze_task_duration_accuracy :
  list MemoryBank.task_record -> result (option string).
Variable identify_task_patterns :
  list MemoryBank.task_record
  -> result (option (list ReflectionAgent.top_category)).

Local Abbreviation _analyze_patterns :=
  (ReflectionAgent._analyze_patterns analyze_productivity_hours
     analyze_task_duration_accuracy identify_task_patterns).
Local Abbreviation reflect_and_learn :=
  (ReflectionAgent.reflect_and_learn analyze_productivity_hours
     analyze_task_duration_accuracy identify_task_patterns).

(** The reflection when the two steps on the counts have returned. *)
Lemma reflect_and_learn_steps
    (task_history : list MemoryBank.task_record)
    (completed_tasks planned_tasks : option (list Task.t))
    (a : ReflectionAgent.completion_analysis) (d : ReflectionAgent.decision) :
  ReflectionAgent._analyze_completion
    (Py.get completed_tasks []) (Py.get planned_tasks []) = Ok a ->
  ReflectionAgent._should_replan
    (Py.get completed_tasks []) (Py.get planned_tasks []) = Ok d ->
  reflect_and_learn task_history completed_tasks planned_tasks
  = (p <- _analyze_patterns task_history ;;
     l <- ReflectionAgent._learn_from_session (Py.get completed_tasks []) ;;
     Ok (ReflectionAgent.Reflection a p l (ReflectionAgent.needed d)
           (ReflectionAgent.reason d)
           (ReflectionAgent._generate_recommendations a p l))).
Proof.
  intros Ha Hd. unfold ReflectionAgent.reflect_and_learn.
  rewrite Ha, Hd. cbn [bind].
  destruct (_analyze_patterns task_history); [| reflexivity]. cbn [bind].
  destruct (ReflectionAgent._learn_from_session _); reflexivity.
Qed.

(** It returns exactly when the analysis of the history and the learning
    return, and raises what the first of them to raise does. *)
Lemma reflect_and_learn_outcome
    (task_history : list MemoryBank.task_record)
    (completed_tasks planned_tasks : option (list Task.t))
    (a : ReflectionAgent.completion_analysis) (d : ReflectionAgent.decision) :
  ReflectionAgent._analyze_completion
    (Py.get completed_tasks []) (Py.get planned_tasks []) = Ok a ->
  ReflectionAgent._should_replan
    (Py.get completed_tasks []) (Py.get planned_tasks []) = Ok d ->
  (forall r,
     reflect_and_learn task_history completed_tasks planned_tasks = Ok r ->
     ReflectionAgent.result_completion_analysis r = a
     /\ ReflectionAgent.replan_needed r = ReflectionAgent.needed d
     /\ ReflectionAgent.replan_reason r = ReflectionAgent.reason d
     /\ _analyze_patterns task_history
        = Ok (ReflectionAgent.result_pattern_insights r)
     /\ ReflectionAgent._learn_from_session (Py.get completed_tasks [])
        = Ok (ReflectionAgent.result_learning_insights r)
     /\ ReflectionAgent.recommendations r
        = ReflectionAgent._generate_recommendations a
            (ReflectionAgent.result_pattern_insights r)
            (ReflectionAgent.result_learning_insights r))
  /\ (forall p l,
        _analyze_patterns task_history = Ok p ->
        ReflectionAgent._learn_from_session (Py.get completed_tasks [])
        = Ok l ->
        exists r,
          reflect_and_learn task_history completed_tasks planned_tasks
          = Ok r)
  /\ (forall e,
        reflect_and_learn task_history completed_tasks planned_tasks
        = Raise e ->
        _analyze_patterns task_history = Raise e
        \/ (e = OverflowError
            /\ ReflectionAgent._learn_from_session
                 (Py.get completed_tasks []) = Raise e)).
Proof.
  intros Ha Hd.
  rewrite (reflect_and_learn_steps _ _ _ a d Ha Hd).
  split; [| split].
  - intros r H. bind_inv H. bind_inv H. inversion H; subst r. clear H.
    cbn [ReflectionAgent.result_completion_analysis
         ReflectionAgent.replan_needed ReflectionAgent.replan_reason
         ReflectionAgent.result_pattern_insights
         ReflectionAgent.result_learning_insights
         ReflectionAgent.recommendations].
    repeat split; assumption.
  - intros p l Hp Hl. rewrite Hp. cbn [bind]. rewrite Hl. cbn [bind].
    eexists. reflexivity.
  - intros e H. apply bind_Raise in H. destruct H as [H | (p & Hp & H)];
      [left; exact H |].
    apply bind_Raise in H. destruct H as [H | (? & _ & H)];
      [| discriminate H].
    right. split; [| exact H].
    apply learn_from_session_raises in H. apply H.
Qed.


(** C1, as the code has it.  With nothing completed and two planned tasks
    of high priority that have no [id], the decision is to re-plan and its
    reason holds both texts, the low completion rate and the two
    high-priority tasks incomplete: no completed task carries the (missing)
    id of a planned one, so both planned tasks count as incomplete.  The
    rate is 0.0, and [reflect_and_learn] reports all this whenever it
    returns, which is whenever the analysis of the stored history does. *)
Theorem C1_both_triggers
    (task_history : list MemoryBank.task_record) (a b : Task.t) :
  Task.priority a = Some "high" -> Task.priority b = Some "high" ->
  Task.id a = None -> Task.id b = None ->
  (exists d : ReflectionAgent.decision,
     ReflectionAgent._should_replan [] [a; b] = Ok d
     /\ ReflectionAgent.needed d = true
     /\ ReflectionAgent.reason d
        = (Spec.low_rate_reason ++ " " ++ Spec.two_high_reason)%string
     /\ ReflectionAgent.decision_completion_rate d
        = Some (Binary64.of_int 0))
  /\ (forall r : ReflectionAgent.reflection,
        reflect_and_learn task_history (Some []) (Some [a; b]) = Ok r ->
        Spec.reported_rate r = Binary64.of_int 0
        /\ ReflectionAgent.replan_needed r = true
        /\ ReflectionAgent.replan_reason r
           = (Spec.low_rate_reason ++ " " ++ Spec.two_high_reason)%string)
  /\ (forall p : ReflectionAgent.pattern_insights,
        _analyze_patterns task_history = Ok p ->
        exists r : ReflectionAgent.reflection,
          reflect_and_learn task_history (Some []) (Some [a; b]) = Ok r).
Proof.
  intros Pa Pb Ia Ib.
  assert (Ha : ReflectionAgent._analyze_completion [] [a; b]
               = Ok (ReflectionAgent.Analysis 2 0 2 (Binary64.of_int 0)
                       "needs_improvement")) by reflexivity.
  assert (Hd : ReflectionAgent._should_replan [] [a; b]
               = Ok (ReflectionAgent.Decision true
                       (Spec.low_rate_reason ++ " " ++ Spec.two_high_reason)
                       (Some 2) (Some (Binary64.of_int 0)))).
  { unfold ReflectionAgent._should_replan, ReflectionAgent.is_high.
    cbn [Py.len List.length map filter]. rewrite Pa, Pb.
    vm_compute. reflexivity. }
  destruct (reflect_and_learn_outcome task_history (Some []) (Some [a; b])
              _ _ Ha Hd) as (Hr & Hok & _).
  split; [eexists; split; [exact Hd | repeat split] |].
  split.
  - intros r H. destruct (Hr r H) as (E1 & E2 & E3 & _).
    unfold Spec.reported_rate. rewrite E1, E2, E3. repeat split.
  - intros p Hp. eapply Hok; [exact Hp | reflexivity].
Qed.

End Reflection.

Lemma C1_witness :
  (Task.priority Examples.task_a = Some "high"
   /\ Task.priority Examples.task_b = Some "high"
   /\ Task.id Examples.task_a = None /\ Task.id Examples.task_b = None)
  /\ exists r : ReflectionAgent.reflection,
       ReflectionAgent.reflect_and_learn Examples.failing_tool
         Examples.failing_tool Examples.failing_tool []
         (Some []) (Some [Examples.task_a; Examples.task_b]) = Ok r
       /\ Spec.reported_rate r = Binary64.of_int 0
       /\ ReflectionAgent.replan_needed r = true
       /\ ReflectionAgent.replan_reason r
          = (Spec.low_rate_reason ++ " " ++ Spec.two_high_reason)%string.
Proof.
  split; [repeat split; reflexivity |].
  destruct (C1_both_triggers Examples.failing_tool Examples.failing_tool
              Examples.failing_tool [] Examples.task_a Examples.task_b
              eq_refl eq_refl eq_refl eq_refl) as (_ & Hr & Hok).
  destruct (Hok ReflectionAgent.Insufficient eq_refl) as [r H].
  exists r. split; [exact H | apply Hr; exact H].
Defined.

(** C1, as stated, fails: on an empty history, where no tool of the habit
    analyzer is called, the reflection returns and the reason is not the
    low-completion text alone. *)
Lemma C1_counterexample :
  ~ (exists r : ReflectionAgent.reflection,
       ReflectionAgent.reflect_and_learn Examples.failing_tool
         Examples.failing_tool Examples.failing_tool []
         (Some []) (Some [Examples.task_a; Examples.task_b]) = Ok r
       /\ Spec.reported_rate r = Binary64.of_int 0
       /\ ReflectionAgent.replan_needed r = true
       /\ ReflectionAgent.replan_reason r = Spec.low_rate_reason).
Proof.
  intros (r & Hr & _ & _ & Hreason).
  vm_compute in Hr. inversion Hr; subst r.
  vm_compute in Hreason. discriminate Hreason.
Qed.

(** A planned task without an id is matched by a completed task without
    one: then the second trigger counts nothing. *)
Lemma missing_ids_match :
  match
    ReflectionAgent._should_replan
      [Examples.task_a] [Examples.task_a; Examples.task_b]
  with
  | Ok d => (ReflectionAgent.needed d, ReflectionAgent.reason d)
  | Raise _ => (true, "")
  end = (false, "On track, no re-planning needed").
Proof. vm_compute. reflexivity. Qed.

(** With nothing planned and an empty history the reflection returns. *)
Lemma nothing_planned_returns :
  exists r : ReflectionAgent.reflection,
    ReflectionAgent.reflect_and_learn Examples.failing_tool
      Examples.failing_tool Examples.failing_tool []
      (Some [Examples.task_a]) (Some []) = Ok r
    /\ Spec.reported_rate r = Binary64.of_int 0
    /\ ReflectionAgent.replan_needed r = false.
Proof. eexists. split; [vm_compute; reflexivity | split; reflexivity]. Qed.

(** A tool that raises on a history makes the reflection raise. *)
Lemma reflection_raises_with_the_tools :
  ReflectionAgent.reflect_and_learn Examples.failing_tool
    Examples.failing_tool Examples.failing_tool
    [Spec.record_of Examples.task_a 600 None] (Some []) (Some [])
  = Raise TypeError.
Proof. reflexivity. Qed.

(** ** The collector and the pipeline *)

(** *** Which exceptions the steps can raise *)

Lemma forallb_false_In {A : Type} (f : A -> bool) (l : list A) :
  forallb f l = false -> exists x, In x l /\ f x = false.
Proof.
  induction l as [| y l IH]; simpl; [discriminate |].
  destruct (f y) eqn:E; simpl.
  - intros H. destruct (IH H) as (x & Hx & Fx). exists x. auto.
  - intros _. exists y. auto.
Qed.

Lemma all_comparable_false (keys : list PlannerAgent.sort_key_t) :
  PlannerAgent.all_comparable keys = false ->
  exists a b,
    In a keys /\ In b keys /\ PlannerAgent.comparable a b = false.
Proof.
  induction keys as [| k keys IH]; simpl; [discriminate |].
  intros H. apply andb_false_iff in H. destruct H as [H | H].
  - destruct (forallb_false_In _ _ H) as (x & Hx & Fx).
    exists k, x. auto.
  - destruct (IH H) as (a & b & Ha & Hb & F). exists a, b. auto.
Qed.

Lemma all_comparable_intro (keys : list PlannerAgent.sort_key_t) :
  (forall a b, In a keys -> In b keys ->
               PlannerAgent.comparable a b = true) ->
  PlannerAgent.all_comparable keys = true.
Proof.
  induction keys as [| k keys IH]; simpl; intros H; [reflexivity |].
  apply andb_true_iff. split.
  - apply forallb_forall. intros x Hx. apply H; auto.
  - apply IH. intros a b Ha Hb. apply H; auto.
Qed.

(** Two keys cannot be compared when their ranks are equal and one
    deadline is [None] while the other is a string. *)
Lemma comparable_false (a b : Task.t) :
  PlannerAgent.comparable (Spec.key_of a) (Spec.key_of b) = false <->
  Spec.task_rank a = Spec.task_rank b
  /\ ((Task.deadline a = Task.IsNone /\ Task.deadline b <> Task.IsNone)
      \/ (Task.deadline a <> Task.IsNone /\ Task.deadline b = Task.IsNone)).
Proof.
  unfold PlannerAgent.comparable, PlannerAgent.key_lt, Spec.key_of,
    Spec.deadline_key_of. simpl.
  destruct (Z.eqb_spec (Spec.task_rank a) (Spec.task_rank b)) as [E | N].
  - destruct (Task.deadline a), (Task.deadline b); simpl; split;
      try discriminate; try (intros _; split; [exact E |]);
      try (left; split; congruence); try (right; split; congruence);
      intros [_ [[H1 H2] | [H1 H2]]]; congruence.
  - split; [discriminate | intros [E _]; contradiction].
Qed.

(** The sort raises a [TypeError] when two tasks cannot be compared, and
    nothing else once every task has a priority. *)
Lemma sorted_tasks_cases (tasks : list Task.t) :
  Forall (fun t => Task.priority t <> None) tasks ->
  (PlannerAgent.sorted_tasks tasks
   = Ok (Py.sorted PlannerAgent.key_ltb Spec.key_of false tasks)
   /\ forall a b, In a tasks -> In b tasks ->
        PlannerAgent.comparable (Spec.key_of a) (Spec.key_of b) = true)
  \/ (PlannerAgent.sorted_tasks tasks = Raise TypeError
      /\ exists a b, In a tasks /\ In b tasks
           /\ PlannerAgent.comparable (Spec.key_of a) (Spec.key_of b)
              = false).
Proof.
  intros Hprio.
  destruct (PlannerAgent.sorted_tasks tasks) as [order | e] eqn:E.
  - left. destruct (sorted_tasks_Ok _ _ E) as (-> & C & _).
    split; [reflexivity |].
    intros a b Ha Hb. apply (all_comparable_In _ C); apply in_map; assumption.
  - right. unfold PlannerAgent.sorted_tasks in E.
    rewrite (traverse_sort_key_Ok _ Hprio) in E. simpl in E.
    destruct (PlannerAgent.all_comparable (map Spec.key_of tasks)) eqn:C;
      [discriminate E |].
    inversion E; subst e. split; [reflexivity |].
    destruct (all_comparable_false _ C) as (ka & kb & Ha & Hb & F).
    apply in_map_iff in Ha, Hb.
    destruct Ha as (a & <- & Ha), Hb as (b & <- & Hb).
    exists a, b. auto.
Qed.

Section Steps.

Variables anchor earliest latest : datetime.

Lemma add_minutes_raises (t minutes : datetime) (e : exn) :
  PlannerAgent.add_minutes earliest latest t minutes = Raise e ->
  e = OverflowError.
Proof.
  unfold PlannerAgent.add_minutes.
  destruct ((earliest <=? t + minutes) && (t + minutes <=? latest));
    intros H; inversion H; reflexivity.
Qed.

Lemma subscript_raises {A : Type} (field : option A) (e : exn) :
  Py.subscript field = Raise e -> e = KeyError.
Proof. destruct field; intros H; inversion H; reflexivity. Qed.

(** The layout raises for a task without a name, a category or a priority,
    and for an instant out of range; it raises no [TypeError]. *)
Lemma layout_raises (tasks : list Task.t) :
  forall (current : datetime) (e : exn),
    PlannerAgent.layout earliest latest current tasks = Raise e ->
    e = KeyError \/ e = OverflowError.
Proof.
  induction tasks as [| t tasks IH]; intros current e H; simpl in H.
  - discriminate H.
  - repeat
      (apply bind_Raise in H;
       destruct H as [H | (? & _ & H)];
       [first [ apply add_minutes_raises in H; right; exact H
              | apply subscript_raises in H; left; exact H ] |]).
    apply bind_Raise in H. destruct H as [H | (? & _ & H)].
    + eapply IH. exact H.
    + discriminate H.
Qed.

Lemma generate_reminders_raises (blocks : list Block.t) (e : exn) :
  ReminderAgent._generate_reminders earliest latest blocks = Raise e ->
  e = OverflowError.
Proof.
  induction blocks as [| b blocks IH]; simpl; intros H; [discriminate H |].
  destruct (negb (Block.kind_eqb (Block.type b) Block.task));
    [apply IH; exact H |].
  apply bind_Raise in H. destruct H as [H | (? & _ & H)].
  - destruct (ReminderAgent.minutes_before_of _ _ >? 0);
      [apply add_minutes_raises in H; exact H | discriminate H].
  - apply bind_Raise in H. destruct H as [H | (? & _ & H)];
      [apply IH; exact H | discriminate H].
Qed.

End Steps.

(** *** The pipeline *)

Lemma sum_perm {A : Type} (f : A -> Z) (l l' : list A) :
  Permutation l l' -> Py.sum (map f l) = Py.sum (map f l').
Proof.
  intros P. induction P; cbn [map]; rewrite ?sum_cons; lia.
Qed.

Lemma sum_nonneg (l : list Z) : Forall (fun z => 0 <= z) l -> 0 <= Py.sum l.
Proof.
  induction 1 as [| z l Hz _ IH]; [unfold Py.sum; simpl; lia |].
  rewrite sum_cons. lia.
Qed.

Lemma sum_with_breaks (l : list Task.t) :
  Py.sum (map (fun t =>
                 Py.get (Task.estimated_duration t) 60
                 + Spec.break_after (Py.get (Task.estimated_duration t) 60))
              l)
  <= Py.sum (map (fun t => Py.get (Task.estimated_duration t) 60) l)
     + 15 * Py.len l.
Proof.
  induction l as [| x l IH].
  - unfold Py.sum, Py.len. simpl. lia.
  - cbn [map]. rewrite !sum_cons. unfold Py.len in *.
    cbn [List.length]. rewrite Nat2Z.inj_succ.
    unfold Spec.break_after at 1.
    destruct (Py.get (Task.estimated_duration x) 60 >=? 60); lia.
Qed.

Lemma len_map {A B : Type} (f : A -> B) (l : list A) :
  Py.len (map f l) = Py.len l.
Proof. unfold Py.len. rewrite length_map. reflexivity. Qed.

Section Pipeline.

Variable days_remaining : string -> option Z.
Variable memory_bank : MemoryBank.t.
Variables anchor earliest latest : datetime.
Variable reflect : result ReflectionAgent.reflection.

Local Abbreviation process_tasks :=
  (Orchestrator.process_tasks days_remaining memory_bank anchor earliest
     latest reflect).
Local Abbreviation ranked :=
  (Spec.second_ranking days_remaining memory_bank).

(** The planner is given the tasks in the order of the ranking. *)
Lemma process_tasks_steps (collected : list Task.t) :
  process_tasks collected
  = (planned <-
       PlannerAgent.create_plan anchor earliest latest (ranked collected) ;;
     reminders <-
       ReminderAgent._generate_reminders earliest latest
         (Plan.scheduled_tasks planned) ;;
     reflection <- reflect ;;
     Ok (Orchestrator.Outputs
           (PriorityAgent.prioritize_tasks days_remaining memory_bank
              collected)
           planned (PlanEvaluator.evaluate_plan planned collected None)
           reminders (Py.len reminders) reflection)).
Proof.
  unfold Orchestrator.process_tasks.
  rewrite <- (ranking_tasks days_remaining memory_bank collected).
  reflexivity.
Qed.

(** Every block of a layout of tasks with durations that are not negative
    starts at or after the layout's first instant, within the range. *)
Lemma layout_starts (tasks : list Task.t) :
  Forall (fun t => 0 <= Py.get (Task.estimated_duration t) 60) tasks ->
  forall (current : datetime) (schedule : list Block.t),
    PlannerAgent.layout earliest latest current tasks = Ok schedule ->
    Forall (fun b => current <= Block.start_time b <= latest) schedule.
Proof.
  induction 1 as [| t tasks Hd _ IH]; intros current schedule H;
    simpl in H.
  - inversion H. constructor.
  - bind_inv H. bind_inv H. bind_inv H. bind_inv H. bind_inv H. bind_inv H.
    inversion H; subst schedule. clear H.
    pose proof Ha as Ra. pose proof Ha3 as Ra3.
    apply add_minutes_Ok in Ha, Ha3. subst a a3.
    unfold PlannerAgent.add_minutes in Ra, Ra3.
    destruct ((earliest <=? current + _) && (current + _ <=? latest)) eqn:B1;
      [| discriminate Ra].
    destruct ((earliest <=? _) && (_ <=? latest)) eqn:B2 in Ra3;
      [| discriminate Ra3].
    apply andb_true_iff in B1, B2.
    destruct B1 as [_ B1], B2 as [_ B2]. apply Z.leb_le in B1, B2.
    set (d := Py.get (Task.estimated_duration t) 60) in *.
    assert (Hb : 0 < (if d >=? 60 then 15 else 5))
      by (destruct (d >=? 60); lia).
    constructor; [simpl; lia |].
    constructor; [simpl; lia |].
    eapply Forall_impl; [| apply (IH _ _ Ha4)].
    simpl. intros b Hb'. lia.
Qed.

(** One reminder for every task block, when a quarter of an hour before
    each block is within the range. *)
Lemma generate_reminders_produces (blocks : list Block.t) :
  Forall (fun b => earliest + 15 <= Block.start_time b <= latest) blocks ->
  exists reminders,
    ReminderAgent._generate_reminders earliest latest blocks = Ok reminders
    /\ Py.len reminders = Py.len (filter Spec.is_task blocks).
Proof.
  induction 1 as [| b blocks Hb _ IH].
  - exists []. split; reflexivity.
  - destruct IH as (rs & Hrs & Hlen). cbn [ReminderAgent._generate_reminders].
    cbn [filter]. unfold Spec.is_task at 1.
    destruct (Block.kind_eqb (Block.type b) Block.task); cbn [negb].
    + assert (Hm :
        exists rt,
          (if ReminderAgent.minutes_before_of
                (Py.get (Block.category b) "general")
                (Py.get (Block.priority b) "medium") >? 0
           then PlannerAgent.add_minutes earliest latest (Block.start_time b)
                  (- ReminderAgent.minutes_before_of
                       (Py.get (Block.category b) "general")
                       (Py.get (Block.priority b) "medium"))
           else Ok (Block.start_time b)) = Ok rt).
      { unfold ReminderAgent.minutes_before_of, PlannerAgent.add_minutes.
        destruct (String.eqb _ "meeting"); [| destruct (String.eqb _ "high")];
          simpl;
          try (replace ((earliest <=? _) && (_ <=? latest)) with true
                by (symmetry; apply andb_true_iff;
                    split; apply Z.leb_le; lia));
          eexists; reflexivity. }
      destruct Hm as (rt & ->). simpl. rewrite Hrs. simpl.
      eexists. split; [reflexivity |].
      unfold Py.len in *. cbn [List.length]. lia.
    + exists rs. split; assumption.
Qed.

(** The pipeline returns when every task has a name, a category and a
    priority, a duration that is not negative and a deadline that can be
    compared with every other of its rank, the day fits the range, and the
    reflection returns. *)
Lemma process_tasks_produces (collected : list Task.t)
    (r : ReflectionAgent.reflection) :
  reflect = Ok r ->
  Forall (fun t => Task.name t <> None /\ Task.category t <> None
                   /\ Task.priority t <> None
                   /\ 0 <= Py.get (Task.estimated_duration t) 60)
         collected ->
  (forall a b, In a collected -> In b collected ->
     PlannerAgent.comparable (Spec.key_of a) (Spec.key_of b) = true) ->
  earliest + 15 <= anchor ->
  anchor
  + Py.sum (map (fun t => Py.get (Task.estimated_duration t) 60) collected)
  + 15 * Py.len collected <= latest ->
  exists out,
    process_tasks collected = Ok out
    /\ Plan.task_count (Orchestrator.planned out) = Py.len collected
    /\ Plan.total_work_minutes (Orchestrator.planned out)
       = Py.sum (map (fun t => Py.get (Task.estimated_duration t) 60)
                     collected)
    /\ Orchestrator.reminder_count out = Py.len collected.
Proof.
  intros Hreflect Hfields Hcmp Hlo Hhi.
  pose proof (second_ranking_perm days_remaining memory_bank collected)
    as Hrank.
  assert (Hprio : Forall (fun t => Task.priority t <> None)
                         (ranked collected)).
  { eapply Permutation_Forall; [apply Permutation_sym; exact Hrank |].
    eapply Forall_impl; [| exact Hfields]. intros t (_ & _ & Hp & _).
    exact Hp. }
  destruct (sorted_tasks_cases _ Hprio) as [[Hsort _] | [_ Hbad]].
  2:{ exfalso. destruct Hbad as (a & b & Ha & Hb & F).
      rewrite Hcmp in F; [discriminate F | |];
        eapply Permutation_in; eassumption. }
  set (order := Py.sorted PlannerAgent.key_ltb Spec.key_of false
                  (ranked collected)) in *.
  assert (Hperm : Permutation order collected).
  { eapply perm_trans; [apply sorted_perm | exact Hrank]. }
  assert (Hof : Forall (fun t => Task.name t <> None
                                 /\ Task.category t <> None
                                 /\ Task.priority t <> None
                                 /\ 0 <= Py.get (Task.estimated_duration t) 60)
                       order).
  { eapply Permutation_Forall; [apply Permutation_sym; exact Hperm |].
    exact Hfields. }
  destruct (layout_produces earliest latest order Hof anchor) as [sched Hs].
  { lia. }
  { pose proof (sum_with_breaks order) as B.
    rewrite (sum_perm (fun t => Py.get (Task.estimated_duration t) 60)
               _ _ Hperm) in B.
    unfold Py.len in *. rewrite (Permutation_length Hperm) in B. lia. }
  assert (Hstart : Forall (fun b => earliest + 15 <= Block.start_time b
                                    <= latest) sched).
  { eapply Forall_impl;
      [| apply (layout_starts order) with (current := anchor);
         [| exact Hs]].
    - simpl. intros b Hb. lia.
    - eapply Forall_impl; [| exact Hof]. intros t (_ & _ & _ & Hd).
      exact Hd. }
  destruct (generate_reminders_produces _ Hstart) as (rs & Hrs & Hlen).
  pose proof (layout_lines earliest latest order anchor sched Hs) as Hlines.
  rewrite process_tasks_steps.
  unfold PlannerAgent.create_plan, PlannerAgent._schedule_tasks.
  rewrite Hsort. cbn [bind]. rewrite Hs. cbn [bind Plan.scheduled_tasks].
  rewrite Hrs. cbn [bind]. rewrite Hreflect. cbn [bind].
  eexists. split; [reflexivity |].
  cbn [Orchestrator.planned Orchestrator.reminder_count Plan.task_count
       Plan.total_work_minutes].
  change (PlannerAgent.is_type Block.task) with Spec.is_task.
  assert (Hcount : Py.len (filter Spec.is_task sched) = Py.len collected).
  { rewrite <- (len_map Spec.block_line), Hlines, len_map.
    unfold Py.len. rewrite (Permutation_length Hperm). reflexivity. }
  split; [exact Hcount |]. split; [| rewrite Hlen; exact Hcount].
  apply (f_equal (map snd)) in Hlines. rewrite !map_map in Hlines.
  transitivity
    (Py.sum (map (fun t => Py.get (Task.estimated_duration t) 60) order)).
  - apply (f_equal Py.sum). exact Hlines.
  - apply sum_perm. exact Hperm.
Qed.

End Pipeline.

(** *** What the collector hands to the pipeline *)

(** A value that is not true is passed over; an integer that is true is
    taken. *)
Lemma first_nonzero_falsy (a : Json.value) (rest : list Json.value)
    (default : Z) :
  Json.truthy a = false ->
  CollectorAgent.first_nonzero (a :: rest) default
  = CollectorAgent.first_nonzero rest default.
Proof.
  destruct a as [| b | z | f | s | items | members];
    cbn [Json.truthy CollectorAgent.first_nonzero]; intros H;
    try reflexivity.
  apply negb_false_iff in H. rewrite H. reflexivity.
Qed.

Lemma first_nonzero_truthy (a : Json.value) (rest : list Json.value)
    (default z : Z) :
  Json.truthy a = true -> a = Json.Int z ->
  CollectorAgent.first_nonzero (a :: rest) default = z.
Proof.
  intros H ->. cbn [Json.truthy CollectorAgent.first_nonzero] in *.
  apply negb_true_iff in H. rewrite H. reflexivity.
Qed.

(** The duration [_normalize] stores, when it is an integer, is the first
    of the three that is not 0, or 60. *)
Lemma normalize_minutes (a b c : Json.value) (z : Z) :
  Json.Int z = Json.or (Json.or (Json.or a b) c) (Json.Int 60) ->
  CollectorAgent.first_nonzero [a; b; c] 60 = z.
Proof.
  unfold Json.or. intros H.
  destruct (Json.truthy a) eqn:Ta.
  - rewrite Ta in H. rewrite (first_nonzero_truthy a _ _ z Ta);
      [reflexivity |].
    destruct (Json.truthy a); congruence.
  - rewrite (first_nonzero_falsy a _ _ Ta).
    destruct (Json.truthy b) eqn:Tb.
    + rewrite Tb in H. rewrite (first_nonzero_truthy b _ _ z Tb);
        [reflexivity | congruence].
    + rewrite (first_nonzero_falsy b _ _ Tb).
      destruct (Json.truthy c) eqn:Tc.
      * rewrite (first_nonzero_truthy c _ _ z Tc);
          [reflexivity | congruence].
      * rewrite (first_nonzero_falsy c _ _ Tc).
        cbn [CollectorAgent.first_nonzero]. congruence.
Qed.

(** The reading of a normalized dict in the data model. *)
Lemma as_task_fields (task : CollectorAgent.raw_task) (t : Task.t) :
  CollectorAgent.as_task (CollectorAgent._normalize task) = Some t ->
  Task.name t <> None /\ Task.category t <> None
  /\ Task.priority t <> None
  /\ Spec.task_rank t = CollectorAgent.rank_of task
  /\ (Task.deadline t = Task.IsNone <-> CollectorAgent.dated task = false)
  /\ Task.estimated_duration t = Some (CollectorAgent.minutes_of task).
Proof.
  unfold CollectorAgent.as_task, CollectorAgent.rank_of,
    CollectorAgent.dated, CollectorAgent.minutes_of.
  set (n := CollectorAgent._normalize task).
  assert (Hd : CollectorAgent.estimated_duration n
               = Json.or
                   (Json.or
                      (Json.or
                         (Json.get task "estimated_duration" Json.Null)
                         (Json.get task "estimated_time" Json.Null))
                      (Json.get task "duration" Json.Null))
                   (Json.Int 60)) by reflexivity.
  destruct (CollectorAgent.name n); try discriminate.
  destruct (CollectorAgent.category n); try discriminate.
  destruct (CollectorAgent.priority n); try discriminate.
  destruct (CollectorAgent.estimated_duration n) as [| | z | | | |] eqn:Ed;
    try discriminate.
  destruct (CollectorAgent.actual_duration n); try discriminate.
  assert (Hm : CollectorAgent.first_nonzero
                 [Json.get task "estimated_duration" Json.Null;
                  Json.get task "estimated_time" Json.Null;
                  Json.get task "duration" Json.Null] 60 = z)
    by (apply normalize_minutes; exact Hd).
  rewrite Hm.
  destruct (CollectorAgent.id n); try discriminate;
    destruct (CollectorAgent.deadline n); try discriminate;
    intros H; inversion H; subst t; cbn;
    repeat split; try discriminate; try reflexivity;
    intros C; try discriminate C; reflexivity.
Qed.

Lemma typed_tasks_Forall2 (parsed : list CollectorAgent.raw_task) :
  forall tasks : list Task.t,
    CollectorAgent.typed_tasks parsed = Some tasks ->
    Forall2 (fun task t =>
               CollectorAgent.as_task (CollectorAgent._normalize task)
               = Some t)
            parsed tasks.
Proof.
  induction parsed as [| task rest IH]; intros tasks H; simpl in H.
  - inversion H. constructor.
  - destruct (CollectorAgent.as_task _) as [t |] eqn:Et; [| discriminate].
    destruct (CollectorAgent.typed_tasks rest) as [ts |]; [| discriminate].
    inversion H; subst tasks. constructor; [exact Et | apply IH; reflexivity].
Qed.

Lemma Forall2_In_l {A B : Type} (R : A -> B -> Prop) (l : list A)
    (l' : list B) (x : A) :
  Forall2 R l l' -> In x l -> exists y, In y l' /\ R x y.
Proof.
  induction 1 as [| a b l l' Hab _ IH]; intros Hin; [contradiction |].
  destruct Hin as [<- | Hin].
  - exists b. split; [left; reflexivity | exact Hab].
  - destruct (IH Hin) as (y & Hy & Hr). exists y. split; [right |]; auto.
Qed.

Lemma Forall2_In_r {A B : Type} (R : A -> B -> Prop) (l : list A)
    (l' : list B) (y : B) :
  Forall2 R l l' -> In y l' -> exists x, In x l /\ R x y.
Proof.
  induction 1 as [| a b l l' Hab _ IH]; intros Hin; [contradiction |].
  destruct Hin as [<- | Hin].
  - exists a. split; [left; reflexivity | exact Hab].
  - destruct (IH Hin) as (x & Hx & Hr). exists x. split; [right |]; auto.
Qed.

(** The typed tasks of an input, one for every dict, with its minutes. *)
Lemma typed_tasks_minutes (parsed : list CollectorAgent.raw_task)
    (tasks : list Task.t) :
  CollectorAgent.typed_tasks parsed = Some tasks ->
  map (fun t => Py.get (Task.estimated_duration t) 60) tasks
  = map CollectorAgent.minutes_of parsed
  /\ Py.len tasks = Py.len parsed.
Proof.
  intros H. apply typed_tasks_Forall2 in H.
  induction H as [| task t parsed tasks Ht _ IH].
  - split; reflexivity.
  - destruct IH as [IH1 IH2].
    destruct (as_task_fields task t Ht) as (_ & _ & _ & _ & _ & Hm).
    cbn [map]. rewrite Hm, IH1. split; [reflexivity |].
    unfold Py.len in *. cbn [List.length]. lia.
Qed.

Lemma typed_comparable (a b : CollectorAgent.raw_task) (ta tb : Task.t) :
  CollectorAgent.as_task (CollectorAgent._normalize a) = Some ta ->
  CollectorAgent.as_task (CollectorAgent._normalize b) = Some tb ->
  PlannerAgent.comparable (Spec.key_of ta) (Spec.key_of tb) = false
  <-> CollectorAgent.rank_of a = CollectorAgent.rank_of b
      /\ CollectorAgent.dated a <> CollectorAgent.dated b.
Proof.
  intros Ha Hb.
  destruct (as_task_fields a ta Ha) as (_ & _ & _ & Ra & Da & _).
  destruct (as_task_fields b tb Hb) as (_ & _ & _ & Rb & Db & _).
  rewrite comparable_false, Ra, Rb, Da, Db.
  destruct (CollectorAgent.dated a), (CollectorAgent.dated b);
    split; intros [Hr Hd]; (split; [exact Hr |]);
    try congruence; try tauto; intuition congruence.
Qed.

Section Inputs.

Variable days_remaining : string -> option Z.
Variable memory_bank : MemoryBank.t.
Variables anchor earliest latest : datetime.
Variable reflect : result ReflectionAgent.reflection.

Local Abbreviation process_tasks :=
  (Orchestrator.process_tasks days_remaining memory_bank anchor earliest
     latest reflect).
Local Abbreviation ranked :=
  (Spec.second_ranking days_remaining memory_bank).

(** X1.  On a JSON input all of whose tasks have values of the types of
    the data model, two tasks that have the same priority rank, one with a
    deadline or a due date and one for which [_normalize] stores the
    deadline [None], make the pipeline raise a [TypeError]: the
    scheduler's sort cannot compare [None] with a string.  Up to the
    reflection step nothing else raises a [TypeError] on such an input. *)
Theorem X1_json_pipeline_type_error
    (parsed : list CollectorAgent.raw_task) (tasks : list Task.t) :
  CollectorAgent.typed_tasks parsed = Some tasks ->
  ((exists a b : CollectorAgent.raw_task,
      In a parsed /\ In b parsed
      /\ CollectorAgent.rank_of a = CollectorAgent.rank_of b
      /\ CollectorAgent.dated a = true
      /\ CollectorAgent.dated b = false) ->
   process_tasks tasks = Raise TypeError)
  /\ (process_tasks tasks = Raise TypeError ->
      (exists a b : CollectorAgent.raw_task,
         In a parsed /\ In b parsed
         /\ CollectorAgent.rank_of a = CollectorAgent.rank_of b
         /\ CollectorAgent.dated a = true
         /\ CollectorAgent.dated b = false)
      \/ reflect = Raise TypeError).
Proof.
  intros Htyped. pose proof (typed_tasks_Forall2 _ _ Htyped) as F.
  pose proof (second_ranking_perm days_remaining memory_bank tasks)
    as Hrank.
  assert (Hprio : Forall (fun t => Task.priority t <> None)
                         (ranked tasks)).
  { eapply Permutation_Forall; [apply Permutation_sym; exact Hrank |].
    apply Forall_forall. intros t Ht.
    destruct (Forall2_In_r _ _ _ _ F Ht) as (task & _ & Et).
    apply (as_task_fields task t Et). }
  rewrite process_tasks_steps.
  unfold PlannerAgent.create_plan, PlannerAgent._schedule_tasks.
  split.
  - intros (a & b & Ha & Hb & Hr & Da & Db).
    destruct (Forall2_In_l _ _ _ _ F Ha) as (ta & Hta & Ea).
    destruct (Forall2_In_l _ _ _ _ F Hb) as (tb & Htb & Eb).
    assert (Hsort : PlannerAgent.sorted_tasks (ranked tasks)
                    = Raise TypeError).
    { destruct (sorted_tasks_cases _ Hprio) as [[_ Hcmp] | [Hbad _]];
        [| exact Hbad].
      exfalso.
      assert (C : PlannerAgent.comparable (Spec.key_of ta) (Spec.key_of tb)
                  = false)
        by (apply (typed_comparable a b); [assumption | assumption |];
            split; congruence).
      rewrite Hcmp in C; [discriminate C | |];
        apply (Permutation_in _ (Permutation_sym Hrank)); assumption. }
    rewrite Hsort. reflexivity.
  - intros H.
    destruct (PlannerAgent.sorted_tasks _) as [order | e] eqn:E;
      cbn [bind] in H.
    + right.
      destruct (PlannerAgent.layout earliest latest anchor order)
        as [sched | e] eqn:L; cbn [bind Plan.scheduled_tasks] in H.
      * apply bind_Raise in H. destruct H as [H | (? & _ & H)].
        { apply generate_reminders_raises in H. discriminate H. }
        apply bind_Raise in H. destruct H as [H | (? & _ & H)];
          [exact H | discriminate H].
      * exfalso. inversion H; subst e.
        destruct (layout_raises _ _ _ _ _ L); discriminate.
    + left. inversion H; subst e.
      destruct (sorted_tasks_cases _ Hprio) as [[Hok _] | [_ Hbad]];
        [rewrite Hok in E; discriminate E |].
      destruct Hbad as (ta & tb & Ha & Hb & C).
      apply (Permutation_in _ Hrank) in Ha, Hb.
      destruct (Forall2_In_r _ _ _ _ F Ha) as (a & Hina & Ea).
      destruct (Forall2_In_r _ _ _ _ F Hb) as (b & Hinb & Eb).
      apply (typed_comparable a b ta tb Ea Eb) in C.
      destruct C as [Hr Hd].
      destruct (CollectorAgent.dated a) eqn:Da,
        (CollectorAgent.dated b) eqn:Db; try congruence.
      * exists a, b. auto.
      * exists b, a. auto.
Qed.

(** X2.  On a JSON input all of whose tasks have values of the types of
    the data model the pipeline returns when no two tasks of one priority
    rank differ in having a deadline, no task's minutes are negative, the
    day, from a quarter of an hour before the anchor to the end of the
    last break, lies within the range of [datetime], and the reflection
    step returns.  The plan then counts every task of the input, its work
    time is the sum of the tasks' minutes (the first of
    [estimated_duration], [estimated_time] and [duration] that is not 0,
    else 60), and every task has a reminder. *)
Theorem X2_json_pipeline_returns
    (parsed : list CollectorAgent.raw_task) (tasks : list Task.t)
    (reflection : ReflectionAgent.reflection) :
  CollectorAgent.typed_tasks parsed = Some tasks ->
  reflect = Ok reflection ->
  (forall a b : CollectorAgent.raw_task,
     In a parsed -> In b parsed ->
     CollectorAgent.rank_of a = CollectorAgent.rank_of b ->
     CollectorAgent.dated a = CollectorAgent.dated b) ->
  Forall (fun r => 0 <= CollectorAgent.minutes_of r) parsed ->
  earliest + 15 <= anchor ->
  anchor + Py.sum (map CollectorAgent.minutes_of parsed)
  + 15 * Py.len parsed <= latest ->
  exists out : Orchestrator.outputs,
    process_tasks tasks = Ok out
    /\ Plan.task_count (Orchestrator.planned out) = Py.len parsed
    /\ Plan.total_work_minutes (Orchestrator.planned out)
       = Py.sum (map CollectorAgent.minutes_of parsed)
    /\ Orchestrator.reminder_count out = Py.len parsed.
Proof.
  intros Htyped Hreflect Hpairs Hdur Hlo Hhi.
  pose proof (typed_tasks_Forall2 _ _ Htyped) as F.
  destruct (typed_tasks_minutes _ _ Htyped) as [Hmin Hlen].
  destruct (process_tasks_produces days_remaining memory_bank anchor
              earliest latest reflect tasks reflection Hreflect)
    as (out & Hout & Hcount & Hwork & Hrem).
  - apply Forall_forall. intros t Ht.
    destruct (Forall2_In_r _ _ _ _ F Ht) as (task & Hin & Et).
    destruct (as_task_fields task t Et) as (Hn & Hc & Hp & _ & _ & Hm).
    rewrite Hm. cbn [Py.get]. rewrite Forall_forall in Hdur.
    auto.
  - intros ta tb Ha Hb.
    destruct (Forall2_In_r _ _ _ _ F Ha) as (a & Hina & Ea).
    destruct (Forall2_In_r _ _ _ _ F Hb) as (b & Hinb & Eb).
    destruct (PlannerAgent.comparable _ _) eqn:C; [reflexivity |].
    apply (typed_comparable a b ta tb Ea Eb) in C. destruct C as [Hr Hd].
    exfalso. apply Hd. apply Hpairs; assumption.
  - exact Hlo.
  - rewrite Hmin, Hlen. exact Hhi.
  - exists out. rewrite Hmin, Hlen in *. auto.
Qed.

(** X3.  On the tasks of a plain-text input the pipeline returns whenever
    the day lies within the range of [datetime] and the reflection step
    returns: the dicts of the text path have a name, a category and a
    priority and no deadline key, so that the scheduler's sort can compare
    any two of them, and the minutes the pattern reads are not negative. *)
Theorem X3_text_pipeline_returns
    (lines : list CollectorAgent.text_line)
    (reflection : ReflectionAgent.reflection) :
  reflect = Ok reflection ->
  Forall (fun ln => 0 <= CollectorAgent.line_duration ln) lines ->
  earliest + 15 <= anchor ->
  anchor + Py.sum (map CollectorAgent.line_duration lines)
  + 15 * Py.len lines <= latest ->
  exists out : Orchestrator.outputs,
    process_tasks (CollectorAgent.collect_text lines) = Ok out
    /\ Plan.task_count (Orchestrator.planned out) = Py.len lines
    /\ Plan.total_work_minutes (Orchestrator.planned out)
       = Py.sum (map CollectorAgent.line_duration lines)
    /\ Orchestrator.reminder_count out = Py.len lines.
Proof.
  intros Hreflect Hdur Hlo Hhi.
  destruct (process_tasks_produces days_remaining memory_bank anchor
              earliest latest reflect (CollectorAgent.collect_text lines)
              reflection Hreflect)
    as (out & Hout & Hcount & Hwork & Hrem).
  - unfold CollectorAgent.collect_text. apply Forall_map.
    eapply Forall_impl; [| exact Hdur]. intros ln Hln. simpl.
    repeat split; try discriminate. exact Hln.
  - unfold CollectorAgent.collect_text. intros ta tb Ha Hb.
    apply in_map_iff in Ha, Hb.
    destruct Ha as (a & <- & Ha), Hb as (b & <- & Hb).
    destruct (PlannerAgent.comparable _ _) eqn:F; [reflexivity |].
    apply comparable_false in F. simpl in F.
    destruct F as [_ [[F _] | [_ F]]]; discriminate F.
  - exact Hlo.
  - unfold CollectorAgent.collect_text. rewrite map_map, len_map.
    exact Hhi.
  - exists out. unfold CollectorAgent.collect_text in *.
    rewrite map_map, len_map in *. auto.
Qed.

End Inputs.

Lemma X1_witness :
  CollectorAgent.typed_tasks [Inputs.report; Inputs.call]
  = Some [Inputs.report_task; Inputs.call_task]
  /\ Orchestrator.process_tasks Examples.no_deadlines Examples.empty_bank
       Examples.nine Examples.midnight Examples.last_minute
       (Ok Inputs.idle_reflection)
       [Inputs.report_task; Inputs.call_task]
     = Raise TypeError.
Proof.
  split; [reflexivity |].
  apply (X1_json_pipeline_type_error Examples.no_deadlines
           Examples.empty_bank Examples.nine Examples.midnight
           Examples.last_minute (Ok Inputs.idle_reflection)
           [Inputs.report; Inputs.call]
           [Inputs.report_task; Inputs.call_task] eq_refl).
  exists Inputs.report, Inputs.call.
  split; [left; reflexivity |]. split; [right; left; reflexivity |].
  repeat split.
Defined.

Lemma X2_witness :
  exists out : Orchestrator.outputs,
    Orchestrator.process_tasks Examples.no_deadlines Examples.empty_bank
      Examples.nine Examples.midnight Examples.last_minute
      (Ok Inputs.idle_reflection)
      [Inputs.report_task; Inputs.tidy_task] = Ok out
    /\ Plan.task_count (Orchestrator.planned out) = 2
    /\ Plan.total_work_minutes (Orchestrator.planned out) = 150
    /\ Orchestrator.reminder_count out = 2.
Proof.
  apply (X2_json_pipeline_returns Examples.no_deadlines Examples.empty_bank
           Examples.nine Examples.midnight Examples.last_minute
           (Ok Inputs.idle_reflection) [Inputs.report; Inputs.tidy]
           [Inputs.report_task; Inputs.tidy_task]
           Inputs.idle_reflection).
  - reflexivity.
  - reflexivity.
  - intros a b [<- | [<- | []]] [<- | [<- | []]]; vm_compute;
      congruence.
  - repeat constructor; vm_compute; discriminate.
  - vm_compute. discriminate.
  - vm_compute. discriminate.
Defined.

(** A dict with a value of another type has no reading as a task. *)
Lemma mistyped_has_no_reading :
  CollectorAgent.typed_tasks [Inputs.report; Inputs.mistyped] = None.
Proof. reflexivity. Qed.

Lemma X3_witness :
  exists out : Orchestrator.outputs,
    Orchestrator.process_tasks Examples.no_deadlines Examples.empty_bank
      Examples.nine Examples.midnight Examples.last_minute
      (Ok Inputs.idle_reflection)
      (CollectorAgent.collect_text [Inputs.inbox_line; Inputs.deploy_line])
    = Ok out
    /\ Plan.task_count (Orchestrator.planned out) = 2
    /\ Plan.total_work_minutes (Orchestrator.planned out) = 105
    /\ Orchestrator.reminder_count out = 2.
Proof.
  apply (X3_text_pipeline_returns Examples.no_deadlines Examples.empty_bank
           Examples.nine Examples.midnight Examples.last_minute
           (Ok Inputs.idle_reflection)
           [Inputs.inbox_line; Inputs.deploy_line] Inputs.idle_reflection).
  - reflexivity.
  - repeat constructor; vm_compute; discriminate.
  - vm_compute. discriminate.
  - vm_compute. discriminate.
Defined.

(** *** The order of the pipeline's schedule *)

Lemma StronglySorted_filter {A : Type} (R : A -> A -> Prop) (P : A -> bool)
    (l : list A) :
  StronglySorted R l -> StronglySorted R (filter P l).
Proof.
  induction 1 as [| a l Hl IH Ha]; simpl; [constructor |].
  destruct (P a); [| exact IH].
  constructor; [exact IH |].
  rewrite Forall_forall in Ha |- *. intros x Hx.
  apply filter_In in Hx. apply Ha. apply Hx.
Qed.

(** X4.  In the pipeline the planner sorts the ranking of the scorer by
    priority rank and deadline once more, so the priority score decides
    only among tasks that have the same rank and the same deadline text:
    these keep the order of the ranking, and so stand in descending order
    of their final score. *)
Theorem X4_score_orders_equal_keys
    (days_remaining : string -> option Z) (memory_bank : MemoryBank.t)
    (anchor earliest latest : datetime)
    (reflect : result ReflectionAgent.reflection)
    (collected : list Task.t) (out : Orchestrator.outputs) :
  Orchestrator.process_tasks days_remaining memory_bank anchor earliest
    latest reflect collected = Ok out ->
  map ScoredTask.task
      (PriorityAgent.prioritized_tasks (Orchestrator.prioritized out))
  = Spec.second_ranking days_remaining memory_bank collected
  /\ exists order : list Task.t,
       map Spec.block_line
           (filter Spec.is_task
                   (Plan.scheduled_tasks (Orchestrator.planned out)))
       = map Spec.task_line order
       /\ Permutation order collected
       /\ Orchestrator.keeps_order_within_keys
            (Spec.second_ranking days_remaining memory_bank collected) order
       /\ forall (r : Z) (d : string),
            StronglySorted
              (fun a b =>
                 Binary64.ltb
                   (Spec.final_score days_remaining memory_bank a)
                   (Spec.final_score days_remaining memory_bank b) = false)
              (filter (Spec.same_key r d) order).
Proof.
  intros H. rewrite process_tasks_steps in H.
  apply bind_Ok in H. destruct H as (plan & Hplan & H).
  apply bind_Ok in H. destruct H as (rs & _ & H).
  apply bind_Ok in H. destruct H as (rf & _ & H).
  inversion H; subst out. clear H.
  cbn [Orchestrator.prioritized Orchestrator.planned].
  split; [apply ranking_tasks |].
  unfold PlannerAgent.create_plan, PlannerAgent._schedule_tasks in Hplan.
  apply bind_Ok in Hplan. destruct Hplan as (sched & Hsched & Hplan).
  apply bind_Ok in Hsched. destruct Hsched as (a2 & Ha2 & Ha1).
  inversion Hplan; subst plan. clear Hplan.
  cbn [Plan.scheduled_tasks].
  destruct (sorted_tasks_Ok _ _ Ha2) as (Eorder & _ & _).
  assert (Hkeep :
            Orchestrator.keeps_order_within_keys
              (Spec.second_ranking days_remaining memory_bank collected) a2).
  { intros r d. rewrite Eorder. apply sorted_filter.
    intros x y _ _. apply same_key_no_overtake. }
  exists a2. split; [eapply layout_lines; exact Ha1 |].
  split.
  { rewrite Eorder. eapply perm_trans; [apply sorted_perm |].
    apply second_ranking_perm. }
  split; [exact Hkeep |].
  intros r d. rewrite (Hkeep r d). apply StronglySorted_filter.
  apply (StronglySorted_weaken (fun _ => True)
           (Spec.by_key_then Binary64.ltb
              (Spec.final_score days_remaining memory_bank) true
              (fun a b =>
                 Binary64.ltb (Spec.base_score days_remaining a)
                              (Spec.base_score days_remaining b) = false))).
  - intros x y _ _ [Hxy _]. exact Hxy.
  - apply Forall_forall. intros; exact I.
  - apply second_ranking_sorted.
Qed.

Lemma X4_witness :
  exists out : Orchestrator.outputs,
    Orchestrator.process_tasks Examples.no_deadlines Examples.empty_bank
      Examples.nine Examples.midnight Examples.last_minute
      (Ok Inputs.idle_reflection)
      [Examples.undated_task; Examples.standup] = Ok out
    /\ map ScoredTask.task
           (PriorityAgent.prioritized_tasks (Orchestrator.prioritized out))
       = Spec.second_ranking Examples.no_deadlines Examples.empty_bank
           [Examples.undated_task; Examples.standup]
    /\ exists order : list Task.t,
         map Spec.block_line
             (filter Spec.is_task
                     (Plan.scheduled_tasks (Orchestrator.planned out)))
         = map Spec.task_line order
         /\ Permutation order [Examples.undated_task; Examples.standup]
         /\ Orchestrator.keeps_order_within_keys
              (Spec.second_ranking Examples.no_deadlines Examples.empty_bank
                 [Examples.undated_task; Examples.standup]) order
         /\ forall (r : Z) (d : string),
              StronglySorted
                (fun a b =>
                   Binary64.ltb
                     (Spec.final_score Examples.no_deadlines
                        Examples.empty_bank a)
                     (Spec.final_score Examples.no_deadlines
                        Examples.empty_bank b) = false)
                (filter (Spec.same_key r d) order).
Proof.
  eexists. split.
  - vm_compute. reflexivity.
  - apply (X4_score_orders_equal_keys Examples.no_deadlines
             Examples.empty_bank Examples.nine Examples.midnight
             Examples.last_minute (Ok Inputs.idle_reflection)
             [Examples.undated_task; Examples.standup]).
    vm_compute. reflexivity.
Defined.

(** ** The reminders *)

(** X5.  [_generate_reminders] makes one reminder for every task block of
    the schedule, in the order of the schedule, and none for a break.  The
    reminder names the block and its start; it comes 15 minutes before a
    meeting, whatever the priority, 5 minutes before any other block of
    high priority, and at the start otherwise.  The blocks carry no
    [task_id], so every reminder has the id [reminder_None]. *)
Theorem X5_one_reminder_per_task_block
    (earliest latest : datetime)
    (scheduled_tasks : list Block.t)
    (reminders : list ReminderAgent.reminder) :
  ReminderAgent._generate_reminders earliest latest scheduled_tasks
  = Ok reminders ->
  Forall2
    (fun b r =>
       ReminderAgent.reminder_line r = ReminderAgent.block_reminder_line b
       /\ ReminderAgent.timed b r
       /\ ReminderAgent.task_id r = None
       /\ ReminderAgent.reminder_id r = "reminder_None")
    (filter Spec.is_task scheduled_tasks) reminders.
Proof.
  revert reminders.
  induction scheduled_tasks as [| b blocks IH]; intros reminders H;
    cbn [ReminderAgent._generate_reminders] in H.
  - inversion H. constructor.
  - cbn [filter]. unfold Spec.is_task at 1.
    destruct (Block.kind_eqb (Block.type b) Block.task); cbn [negb] in H.
    + bind_inv H. bind_inv H. inversion H; subst reminders. clear H.
      constructor; [| apply IH; exact Ha0].
      split; [reflexivity |]. split; [| split; reflexivity].
      unfold ReminderAgent.timed. cbn [ReminderAgent.minutes_before
        ReminderAgent.reminder_time].
      split; [reflexivity |].
      destruct (ReminderAgent.minutes_before_of _ _ >? 0) eqn:M.
      * apply add_minutes_Ok in Ha. lia.
      * inversion Ha; subst a.
        assert (ReminderAgent.minutes_before_of
                  (Py.get (Block.category b) "general")
                  (Py.get (Block.priority b) "medium") = 0).
        { unfold ReminderAgent.minutes_before_of in *.
          destruct (String.eqb _ "meeting"); [discriminate M |].
          destruct (String.eqb _ "high"); [discriminate M | reflexivity]. }
        lia.
    + apply IH. exact H.
Qed.

Lemma X5_witness :
  exists reminders : list ReminderAgent.reminder,
    ReminderAgent._generate_reminders Examples.midnight Examples.last_minute
      (Plan.scheduled_tasks Examples.standup_plan) = Ok reminders
    /\ Forall2
         (fun b r =>
            ReminderAgent.reminder_line r
            = ReminderAgent.block_reminder_line b
            /\ ReminderAgent.timed b r
            /\ ReminderAgent.task_id r = None
            /\ ReminderAgent.reminder_id r = "reminder_None")
         (filter Spec.is_task (Plan.scheduled_tasks Examples.standup_plan))
         reminders.
Proof.
  eexists. split.
  - vm_compute. reflexivity.
  - apply (X5_one_reminder_per_task_block Examples.midnight
             Examples.last_minute).
    vm_compute. reflexivity.
Defined.

(** ** The evaluator on the planner's plans *)

Lemma filter_perm {A : Type} (P : A -> bool) (l l' : list A) :
  Permutation l l' -> Permutation (filter P l) (filter P l').
Proof.
  induction 1 as [| x l l' _ IH | x y l | l l' l'' _ IH1 _ IH2]; simpl.
  - constructor.
  - destruct (P x); [constructor |]; exact IH.
  - destruct (P x), (P y); try apply Permutation_refl. apply perm_swap.
  - eapply perm_trans; eassumption.
Qed.

Lemma forallb_perm {A : Type} (P : A -> bool) (l l' : list A) :
  Permutation l l' -> forallb P l = forallb P l'.
Proof.
  induction 1 as [| x l l' _ IH | x y l | l l' l'' _ IH1 _ IH2]; simpl.
  - reflexivity.
  - rewrite IH. reflexivity.
  - destruct (P x), (P y); reflexivity.
  - congruence.
Qed.

Lemma high_count_cons (t : Task.t) (l : list Task.t) :
  PlanAdvice.high_count (t :: l)
  = (if ReflectionAgent.is_high t then 1 else 0) + PlanAdvice.high_count l.
Proof.
  unfold PlanAdvice.high_count, Py.len. cbn [filter].
  destruct (ReflectionAgent.is_high t); cbn [List.length]; lia.
Qed.

Lemma high_count_nonneg (l : list Task.t) : 0 <= PlanAdvice.high_count l.
Proof. unfold PlanAdvice.high_count, Py.len. lia. Qed.

Lemma high_count_perm (l l' : list Task.t) :
  Permutation l l' -> PlanAdvice.high_count l = PlanAdvice.high_count l'.
Proof.
  intros P. unfold PlanAdvice.high_count, Py.len.
  rewrite (Permutation_length (filter_perm ReflectionAgent.is_high _ _ P)).
  reflexivity.
Qed.

Lemma all_low_perm (l l' : list Task.t) :
  Permutation l l' -> PlanAdvice.all_low l = PlanAdvice.all_low l'.
Proof.
  intros P. unfold PlanAdvice.all_low.
  rewrite (forallb_perm _ _ _ P). f_equal.
  destruct l, l'; try reflexivity.
  - apply Permutation_nil in P. discriminate P.
  - apply Permutation_sym, Permutation_nil in P. discriminate P.
Qed.

(** The rank tells the high and the low priority. *)
Lemma rank_high (t : Task.t) :
  Spec.task_rank t = 1 <-> ReflectionAgent.is_high t = true.
Proof.
  unfold Spec.task_rank, ReflectionAgent.is_high,
    PlannerAgent.priority_rank.
  destruct (Task.priority t) as [p |]; [| split; [lia | discriminate]].
  destruct (String.eqb p "high"); [split; reflexivity |].
  destruct (String.eqb p "medium"), (String.eqb p "low");
    split; (lia || discriminate).
Qed.

Lemma rank_low (t : Task.t) :
  Spec.task_rank t = 3 <-> PlanAdvice.is_low t = true.
Proof.
  unfold Spec.task_rank, PlanAdvice.is_low, PlannerAgent.priority_rank.
  destruct (Task.priority t) as [p |]; simpl;
    [| split; [lia | discriminate]].
  destruct (String.eqb_spec p "high") as [-> | _];
    [split; [lia | discriminate] |].
  destruct (String.eqb_spec p "medium") as [-> | _];
    [split; [lia | discriminate] |].
  destruct (String.eqb p "low"); split; (reflexivity || lia || discriminate).
Qed.

Lemma rank_range (t : Task.t) : 1 <= Spec.task_rank t <= 3.
Proof.
  unfold Spec.task_rank, PlannerAgent.priority_rank.
  destruct (Task.priority t) as [p |]; [| lia].
  destruct (String.eqb p "high"), (String.eqb p "medium"),
    (String.eqb p "low"); lia.
Qed.

(** The sorted tasks stand in the order of their ranks. *)
Lemma sorted_tasks_by_rank (tasks order : list Task.t) :
  PlannerAgent.sorted_tasks tasks = Ok order ->
  Permutation order tasks
  /\ StronglySorted (fun a b => Spec.task_rank a <= Spec.task_rank b) order.
Proof.
  intros H. destruct (sorted_tasks_Ok _ _ H) as (Eorder & Hcmp & _).
  pose proof (all_comparable_In _ Hcmp) as Hpairs.
  split; [rewrite Eorder; apply sorted_perm |].
  rewrite Eorder.
  apply (StronglySorted_weaken
           (fun t => In t tasks)
           (Spec.by_key_then PlannerAgent.key_ltb Spec.key_of false
              (fun _ _ => True))).
  - intros a b Da Db [Hab _].
    assert (Hle : Spec.planner_le a b).
    { apply key_ltb_false_le; [| exact Hab].
      apply Hpairs; apply in_map; assumption. }
    destruct Hle as [Hlt | [Heq _]]; lia.
  - apply sorted_Forall. apply Forall_forall. auto.
  - apply (sorted_sorted PlannerAgent.key_ltb Spec.key_of false
             (fun t => In t tasks)).
    + intros a b _ _. apply key_ltb_asym.
    + intros a b c Da Db Dc. unfold Spec.goes_first.
      intros Hab Hbc.
      apply (key_ltb_negtrans (Spec.key_of a) (Spec.key_of b)
               (Spec.key_of c)); try apply Hpairs; try apply in_map;
        assumption.
    + apply Forall_forall. auto.
    + apply StronglySorted_True.
Qed.

Lemma max0_comp (x y : Q) :
  (x == y)%Q -> (PlanEvaluator.max0 x == PlanEvaluator.max0 y)%Q.
Proof.
  intros E. unfold PlanEvaluator.max0.
  destruct (Py.Qlt_bool 0 x) eqn:X, (Py.Qlt_bool 0 y) eqn:Y;
    try exact E; try reflexivity; exfalso.
  - apply Qlt_bool_iff in X. rewrite E in X. apply Qlt_bool_iff in X.
    congruence.
  - apply Qlt_bool_iff in Y. rewrite <- E in Y. apply Qlt_bool_iff in Y.
    congruence.
Qed.

Lemma high_count_positive (l : list Task.t) :
  0 < PlanAdvice.high_count l ->
  exists t, In t l /\ ReflectionAgent.is_high t = true.
Proof.
  unfold PlanAdvice.high_count, Py.len.
  destruct (filter ReflectionAgent.is_high l) as [| t rest] eqn:F;
    simpl; [lia |].
  intros _. exists t. apply filter_In. rewrite F. left. reflexivity.
Qed.

Section Alignment.

Variables earliest latest : datetime.

(** The body of the loop of [_score_priority_alignment]. *)
Local Abbreviation penalty :=
  (fun (score : Q) (it : Z * Block.t) =>
     if String.eqb (Py.get (Block.priority (snd it)) "medium") "high"
        && (fst it >? 2)
     then (score - 3)%Q
     else if String.eqb (Py.get (Block.priority (snd it)) "medium") "low"
             && (fst it =? 0)
          then (score - 2)%Q
          else score).

(** A task and its break in the loop: the break changes nothing. *)
Lemma penalty_step (t : Task.t) (tasks : list Task.t)
    (current : datetime) (schedule : list Block.t) (j : Z) (s : Q) :
  PlannerAgent.layout earliest latest current (t :: tasks) = Ok schedule ->
  exists (current' : datetime) (rest : list Block.t),
    PlannerAgent.layout earliest latest current' tasks = Ok rest
    /\ fold_left penalty (Py.enumerate_from j schedule) s
       = fold_left penalty (Py.enumerate_from (j + 2) rest)
           (if ReflectionAgent.is_high t && (j >? 2) then (s - 3)%Q
            else if PlanAdvice.is_low t && (j =? 0) then (s - 2)%Q
                 else s).
Proof.
  intros H. cbn [PlannerAgent.layout] in H.
  bind_inv H. bind_inv H. bind_inv H. bind_inv H. bind_inv H. bind_inv H.
  inversion H; subst schedule. clear H.
  exists a3, a4. split; [exact Ha4 |].
  cbn [Py.enumerate_from fold_left fst snd Block.priority Py.get].
  replace (j + 1 + 1) with (j + 2) by lia.
  unfold ReflectionAgent.is_high, PlanAdvice.is_low.
  destruct (Task.priority t) as [p |]; [| discriminate Ha2].
  inversion Ha2; subst a2. cbn [Py.opt_str_eqb].
  change (String.eqb "medium" "high") with false.
  change (String.eqb "medium" "low") with false.
  cbn [andb]. reflexivity.
Qed.

(** From the fourth block on every task of high priority costs 3 points. *)
Lemma penalty_tail (tasks : list Task.t) :
  forall (current : datetime) (schedule : list Block.t) (j : Z) (s : Q),
    PlannerAgent.layout earliest latest current tasks = Ok schedule ->
    2 < j ->
    (fold_left penalty (Py.enumerate_from j schedule) s
     == s - 3 * inject_Z (PlanAdvice.high_count tasks))%Q.
Proof.
  induction tasks as [| t tasks IH]; intros current schedule j s H Hj.
  - inversion H. simpl. change (inject_Z (PlanAdvice.high_count [])) with 0%Q.
    lra.
  - destruct (penalty_step t tasks current schedule j s H)
      as (current' & rest & Hrest & ->).
    rewrite (IH current' rest (j + 2) _ Hrest) by lia.
    rewrite high_count_cons.
    replace (j >? 2) with true by (symmetry; apply Z.gtb_lt; lia).
    replace (j =? 0) with false by (symmetry; apply Z.eqb_neq; lia).
    rewrite andb_true_r, andb_false_r, inject_Z_plus.
    destruct (ReflectionAgent.is_high t);
      [change (inject_Z 1) with 1%Q | change (inject_Z 0) with 0%Q]; lra.
Qed.

(** The whole loop on a layout: 2 points for a first task of low priority,
    3 for every task of high priority after the second. *)
Lemma penalty_all (order : list Task.t)
    (current : datetime) (schedule : list Block.t) (s : Q) :
  PlannerAgent.layout earliest latest current order = Ok schedule ->
  (fold_left penalty (Py.enumerate schedule) s
   == s - (match order with
           | t :: _ => if PlanAdvice.is_low t then 2 else 0
           | [] => 0
           end)
        - 3 * inject_Z (PlanAdvice.high_count (skipn 2 order)))%Q.
Proof.
  unfold Py.enumerate. intros H.
  destruct order as [| a [| b rest]].
  - inversion H. simpl.
    change (inject_Z (PlanAdvice.high_count [])) with 0%Q. lra.
  - destruct (penalty_step a [] current schedule 0 s H)
      as (current' & rest' & Hrest & ->).
    inversion Hrest; subst rest'. simpl.
    change (inject_Z (PlanAdvice.high_count [])) with 0%Q.
    rewrite andb_false_r, andb_true_r.
    destruct (PlanAdvice.is_low a); lra.
  - destruct (penalty_step a (b :: rest) current schedule 0 s H)
      as (current' & sched' & Hrest & ->).
    match goal with
    | |- (fold_left _ _ ?s0 == _)%Q =>
        destruct (penalty_step b rest current' sched' (0 + 2) s0 Hrest)
          as (current'' & sched'' & Hrest' & ->)
    end.
    rewrite (penalty_tail rest current'' sched'' (0 + 2 + 2) _ Hrest')
      by lia.
    cbn [skipn]. change (0 + 2 >? 2) with false.
    change (0 + 2 =? 0) with false. change (0 >? 2) with false.
    change (0 =? 0) with true.
    rewrite !andb_false_r, andb_true_r.
    destruct (PlanAdvice.is_low a); lra.
Qed.

End Alignment.

(** In the order of the ranks the tasks of high priority come first and
    a task of low priority comes first only when all are of low priority. *)
Lemma high_after_the_second (order : list Task.t) :
  StronglySorted (fun a b => Spec.task_rank a <= Spec.task_rank b) order ->
  PlanAdvice.high_count (skipn 2 order)
  = Z.max 0 (PlanAdvice.high_count order - 2).
Proof.
  intros S. destruct order as [| a [| b rest]].
  - reflexivity.
  - simpl. rewrite high_count_cons.
    change (PlanAdvice.high_count []) with 0.
    destruct (ReflectionAgent.is_high a); reflexivity.
  - cbn [skipn]. rewrite !high_count_cons.
    pose proof (high_count_nonneg rest) as Hn.
    destruct (Z.eq_dec (PlanAdvice.high_count rest) 0) as [E | N].
    + rewrite E. destruct (ReflectionAgent.is_high a),
        (ReflectionAgent.is_high b); reflexivity.
    + destruct (high_count_positive rest) as (c & Hc & Hhigh); [lia |].
      apply rank_high in Hhigh.
      inversion S as [| ? ? Sb Ha]; subst.
      inversion Sb as [| ? ? _ Hb]; subst.
      rewrite Forall_forall in Ha, Hb.
      pose proof (Ha c (or_intror Hc)) as Hac.
      pose proof (Hb c Hc) as Hbc.
      pose proof (rank_range a) as Ra. pose proof (rank_range b) as Rb.
      assert (Ea : ReflectionAgent.is_high a = true)
        by (apply rank_high; lia).
      assert (Eb : ReflectionAgent.is_high b = true)
        by (apply rank_high; lia).
      rewrite Ea, Eb. lia.
Qed.

Lemma low_first (order : list Task.t) :
  StronglySorted (fun a b => Spec.task_rank a <= Spec.task_rank b) order ->
  match order with
  | t :: _ => PlanAdvice.is_low t
  | [] => false
  end = PlanAdvice.all_low order.
Proof.
  intros S. destruct order as [| a rest]; [reflexivity |].
  unfold PlanAdvice.all_low. cbn [PlanEvaluator.is_empty negb forallb andb].
  destruct (PlanAdvice.is_low a) eqn:La; [| reflexivity].
  symmetry. apply forallb_forall. intros c Hc.
  apply rank_low in La. apply rank_low.
  inversion S as [| ? ? _ Ha]; subst. rewrite Forall_forall in Ha.
  pose proof (Ha c Hc). pose proof (rank_range c). lia.
Qed.

(** X6.  The priority alignment of a plan of the planner depends on two
    numbers only.  The planner puts the tasks of high priority first, and
    the evaluator counts the breaks as positions, so the first two tasks
    stand at the positions 0 and 2 and every later one beyond 2: the score
    is 25, less 3 for every task of high priority after the second, less 2
    when all tasks are of low priority, and not below 0. *)
Theorem X6_priority_alignment_of_a_plan
    (anchor earliest latest : datetime)
    (tasks original_tasks : list Task.t) (plan : Plan.t) :
  PlannerAgent.create_plan anchor earliest latest tasks = Ok plan ->
  (PlanEvaluator._score_priority_alignment plan original_tasks
   == PlanEvaluator.max0
        (25 - 3 * inject_Z (Z.max 0 (PlanAdvice.high_count tasks - 2))
         - (if PlanAdvice.all_low tasks then 2 else 0)))%Q.
Proof.
  intros H. destruct (create_plan_Ok _ _ _ _ _ H) as [Hs _].
  unfold PlannerAgent._schedule_tasks in Hs. bind_inv Hs.
  rename a into order.
  destruct (sorted_tasks_by_rank _ _ Ha) as [Hperm Hsorted].
  unfold PlanEvaluator._score_priority_alignment.
  apply max0_comp.
  etransitivity;
    [apply (penalty_all earliest latest order anchor _ 25 Hs) |].
  rewrite (high_after_the_second order Hsorted).
  rewrite (high_count_perm _ _ Hperm), <- (all_low_perm _ _ Hperm).
  rewrite <- (low_first order Hsorted).
  destruct order as [| t rest]; [lra |].
  destruct (PlanAdvice.is_low t); lra.
Qed.

Lemma X6_witness :
  exists plan : Plan.t,
    PlannerAgent.create_plan Examples.nine Examples.midnight
      Examples.last_minute
      [Examples.task_a; Examples.standup; Examples.task_b] = Ok plan
    /\ (PlanEvaluator._score_priority_alignment plan []
        == PlanEvaluator.max0
             (25 - 3 * inject_Z
                         (Z.max 0
                            (PlanAdvice.high_count
                               [Examples.task_a; Examples.standup;
                                Examples.task_b] - 2))
              - (if PlanAdvice.all_low
                      [Examples.task_a; Examples.standup; Examples.task_b]
                 then 2 else 0)))%Q.
Proof.
  eexists. split.
  - vm_compute. reflexivity.
  - apply (X6_priority_alignment_of_a_plan Examples.nine Examples.midnight
             Examples.last_minute).
    vm_compute. reflexivity.
Defined.

(** ** The evaluator's feedback and recommendations *)

Lemma In_append_if (cond : bool) (x y : string) (l : list string) :
  In y (PlanAdvice.append_if cond x l) <-> In y l \/ (cond = true /\ x = y).
Proof.
  unfold PlanAdvice.append_if. destruct cond.
  - rewrite in_app_iff. simpl. tauto.
  - split; [tauto | intros [H | [H _]]; [exact H | discriminate H]].
Qed.

Lemma append_if_nil (cond : bool) (x : string) (l : list string) :
  PlanAdvice.append_if cond x l = [] <-> l = [] /\ cond = false.
Proof.
  unfold PlanAdvice.append_if. destruct cond.
  - split; [| intros [_ H]; discriminate H].
    intros H. apply app_eq_nil in H. destruct H as [_ H]. discriminate H.
  - tauto.
Qed.

Lemma below_15_below_20 (x : Q) :
  Py.Qlt_bool x 15 = true -> Py.Qlt_bool x 20 = true.
Proof. rewrite !Qlt_bool_iff. lra. Qed.

Lemma not_below (x bound : Q) :
  Py.Qlt_bool x bound = false <-> (bound <= x)%Q.
Proof.
  split; intros H.
  - destruct (Qlt_le_dec x bound) as [L | L]; [| exact L].
    apply Qlt_bool_iff in L. congruence.
  - destruct (Py.Qlt_bool x bound) eqn:E; [| reflexivity].
    apply Qlt_bool_iff in E. lra.
Qed.

(** Only an empty schedule scores less than 17 for its time efficiency. *)
Lemma time_efficiency_below_15 (plan : Plan.t) :
  Py.Qlt_bool (PlanEvaluator._score_time_efficiency plan) 15 = true
  <-> Plan.scheduled_tasks plan = [].
Proof.
  unfold PlanEvaluator._score_time_efficiency.
  destruct (Plan.scheduled_tasks plan) as [| b blocks];
    cbn [PlanEvaluator.is_empty].
  - split; reflexivity.
  - destruct (PlanEvaluator.total_duration_of (b :: blocks) <? 360),
      (PlanEvaluator.total_duration_of (b :: blocks) >? 480),
      (Py.len (b :: blocks) <? 3);
      split; intros H; try discriminate H; vm_compute in H; discriminate H.
Qed.

(** X7.  The feedback of [evaluate_plan] is never empty.  It complains
    about the time efficiency exactly when the schedule is empty (any other
    schedule scores at least 17 there), and it is the single line
    "Excellent plan! ..." exactly when each of the four scores is at
    least 15. *)
Theorem X7_feedback
    (plan : Plan.t) (original_tasks : list Task.t)
    (user_preferences : option PlanEvaluator.preferences) :
  let scores :=
    PlanEvaluator.scores_breakdown
      (PlanEvaluator.evaluate_plan plan original_tasks user_preferences) in
  let feedback := PlanAdvice.feedback plan original_tasks user_preferences in
  feedback <> []
  /\ (In PlanAdvice.time_efficiency_feedback feedback
      <-> Plan.scheduled_tasks plan = [])
  /\ (feedback = [PlanAdvice.excellent]
      <-> (15 <= PlanEvaluator.time_efficiency scores
           /\ 15 <= PlanEvaluator.priority_alignment scores
           /\ 15 <= PlanEvaluator.feasibility scores
           /\ 15 <= PlanEvaluator.work_life_balance scores)%Q).
Proof.
  intros scores feedback. subst feedback.
  unfold PlanAdvice.feedback, PlanAdvice._generate_feedback. fold scores.
  set (c1 := Py.Qlt_bool (PlanEvaluator.time_efficiency scores) 15).
  set (c2 := Py.Qlt_bool (PlanEvaluator.priority_alignment scores) 15).
  set (c3 := Py.Qlt_bool (PlanEvaluator.feasibility scores) 15).
  set (c4 := Py.Qlt_bool (PlanEvaluator.work_life_balance scores) 15).
  assert (H1 : c1 = true <-> Plan.scheduled_tasks plan = [])
    by apply time_efficiency_below_15.
  assert (Hc : (15 <= PlanEvaluator.time_efficiency scores
                /\ 15 <= PlanEvaluator.priority_alignment scores
                /\ 15 <= PlanEvaluator.feasibility scores
                /\ 15 <= PlanEvaluator.work_life_balance scores)%Q
               <-> c1 = false /\ c2 = false /\ c3 = false /\ c4 = false).
  { unfold c1, c2, c3, c4. rewrite !not_below. tauto. }
  rewrite Hc. clear Hc. rewrite <- H1. clear H1.
  clearbody c1 c2 c3 c4. clear scores.
  destruct c1, c2, c3, c4; cbn;
    (split; [discriminate |]);
    (split; split; intros H);
    repeat match goal with
           | H : _ \/ _ |- _ => destruct H
           | H : _ /\ _ |- _ => destruct H
           end;
    try reflexivity; try discriminate; try contradiction;
    try (left; reflexivity); try (repeat split; reflexivity).
Qed.

(** X8.  Every complaint of the feedback comes with the recommendation
    for the same criterion, because the recommendations are given below 20
    points and the complaints below 15; and when no recommendation is
    given the feedback is the line "Excellent plan! ...". *)
Theorem X8_every_complaint_has_a_recommendation
    (scores : PlanEvaluator.scores) :
  let feedback := PlanAdvice._generate_feedback scores in
  let recommendations := PlanAdvice._generate_recommendations scores in
  (In PlanAdvice.time_efficiency_feedback feedback ->
   In PlanAdvice.time_efficiency_advice recommendations)
  /\ (In PlanAdvice.priority_alignment_feedback feedback ->
      In PlanAdvice.priority_alignment_advice recommendations)
  /\ (In PlanAdvice.feasibility_feedback feedback ->
      In PlanAdvice.feasibility_advice recommendations)
  /\ (In PlanAdvice.work_life_balance_feedback feedback ->
      In PlanAdvice.work_life_balance_advice recommendations)
  /\ (recommendations = [] -> feedback = [PlanAdvice.excellent]).
Proof.
  intros feedback recommendations. subst feedback recommendations.
  unfold PlanAdvice._generate_feedback, PlanAdvice._generate_recommendations.
  pose proof (below_15_below_20 (PlanEvaluator.time_efficiency scores)) as B1.
  pose proof (below_15_below_20 (PlanEvaluator.priority_alignment scores))
    as B2.
  pose proof (below_15_below_20 (PlanEvaluator.feasibility scores)) as B3.
  pose proof (below_15_below_20 (PlanEvaluator.work_life_balance scores))
    as B4.
  set (a1 := Py.Qlt_bool (PlanEvaluator.time_efficiency scores) 15) in *.
  set (b1 := Py.Qlt_bool (PlanEvaluator.time_efficiency scores) 20) in *.
  set (a2 := Py.Qlt_bool (PlanEvaluator.priority_alignment scores) 15) in *.
  set (b2 := Py.Qlt_bool (PlanEvaluator.priority_alignment scores) 20) in *.
  set (a3 := Py.Qlt_bool (PlanEvaluator.feasibility scores) 15) in *.
  set (b3 := Py.Qlt_bool (PlanEvaluator.feasibility scores) 20) in *.
  set (a4 := Py.Qlt_bool (PlanEvaluator.work_life_balance scores) 15) in *.
  set (b4 := Py.Qlt_bool (PlanEvaluator.work_life_balance scores) 20) in *.
  clearbody a1 b1 a2 b2 a3 b3 a4 b4.
  destruct a1; [rewrite (B1 eq_refl) | clear B1; destruct b1];
    (destruct a2; [rewrite (B2 eq_refl) | clear B2; destruct b2]);
    (destruct a3; [rewrite (B3 eq_refl) | clear B3; destruct b3]);
    (destruct a4; [rewrite (B4 eq_refl) | clear B4; destruct b4]);
    cbn;
    repeat split; intros H;
    repeat match goal with
           | H : _ \/ _ |- _ => destruct H
           end;
    try reflexivity; try discriminate; try contradiction;
    simpl; auto 10.
Qed.

(** ** The summary of the ranking *)

Lemma count_len {A : Type} (cond : A -> bool) (l : list A) :
  PrioritySummary.count cond l = Py.len (filter cond l).
Proof.
  unfold PrioritySummary.count.
  induction (filter cond l) as [| x m IH].
  - reflexivity.
  - cbn [map]. rewrite sum_cons, IH. unfold Py.len. cbn [List.length]. lia.
Qed.

Lemma len_perm {A : Type} (l l' : list A) :
  Permutation l l' -> Py.len l = Py.len l'.
Proof. intros P. unfold Py.len. rewrite (Permutation_length P). reflexivity. Qed.

Lemma assign_ranks_Forall (P : ScoredTask.t -> Prop) (l : list ScoredTask.t) :
  (forall r s, P s -> P (ScoredTask.set_rank r s)) ->
  Forall P l -> Forall P (PriorityAgent.assign_ranks l).
Proof.
  intros Hset. unfold PriorityAgent.assign_ranks, Py.enumerate.
  generalize 0. induction l as [| s l IH]; intros start H; simpl.
  - constructor.
  - inversion H; subst. constructor; [apply Hset; assumption |].
    apply IH. assumption.
Qed.

Lemma len_filter_cons {A : Type} (f : A -> bool) (x : A) (l : list A) :
  Py.len (filter f (x :: l))
  = (if f x then 1 else 0) + Py.len (filter f l).
Proof.
  unfold Py.len. cbn [filter]. destruct (f x); cbn [List.length]; lia.
Qed.

(** A task is counted under one of the three priorities or under none. *)
Lemma one_class (t : Task.t) :
  (if PrioritySummary.priority_is "high" t then 1 else 0)
  + (if PrioritySummary.priority_is "medium" t then 1 else 0)
  + (if PrioritySummary.priority_is "low" t then 1 else 0)
  + (if negb (PrioritySummary.named_priority t) then 1 else 0) = 1.
Proof.
  unfold PrioritySummary.named_priority, PrioritySummary.priority_is.
  destruct (Task.priority t) as [p |]; [| reflexivity].
  cbn [Py.opt_str_eqb].
  destruct (String.eqb_spec p "high") as [-> | _]; [reflexivity |].
  destruct (String.eqb_spec p "medium") as [-> | _]; [reflexivity |].
  destruct (String.eqb p "low"); reflexivity.
Qed.

(** The three counts and the tasks that they leave out. *)
Lemma priority_partition (tasks : list Task.t) :
  Py.len (filter (PrioritySummary.priority_is "high") tasks)
  + Py.len (filter (PrioritySummary.priority_is "medium") tasks)
  + Py.len (filter (PrioritySummary.priority_is "low") tasks)
  + Py.len (filter (fun t => negb (PrioritySummary.named_priority t)) tasks)
  = Py.len tasks.
Proof.
  induction tasks as [| t tasks IH]; [reflexivity |].
  rewrite !len_filter_cons. pose proof (one_class t) as H.
  unfold Py.len in *. cbn [List.length]. rewrite Nat2Z.inj_succ. lia.
Qed.

Lemma none_filtered {A : Type} (f : A -> bool) (l : list A) :
  Py.len (filter (fun x => negb (f x)) l) = 0 <-> forallb f l = true.
Proof.
  unfold Py.len. induction l as [| x l IH]; simpl; [tauto |].
  destruct (f x); simpl; [exact IH |].
  split; [lia | discriminate].
Qed.

Lemma urgent_scored (days_remaining : string -> option Z) (t : Task.t) :
  PrioritySummary.is_urgent (PriorityAgent._score_task days_remaining t)
  = PrioritySummary.due_within_a_day days_remaining t.
Proof.
  unfold PrioritySummary.is_urgent, PrioritySummary.due_within_a_day,
    PriorityAgent._score_task.
  cbn [ScoredTask.scoring_details ScoredTask.deadline_days].
  destruct (Task.deadline t) as [| | s]; try reflexivity.
  destruct (String.eqb s ""); [reflexivity |].
  destruct (days_remaining s) as [d |]; [| reflexivity].
  destruct (Z.leb_spec d 1), (Z.leb_spec (Z.max d 0) 1); try reflexivity; lia.
Qed.

Section Summary.

Variable days_remaining : string -> option Z.
Variable memory_bank : MemoryBank.t.

Local Abbreviation ranking := (Spec.ranking days_remaining memory_bank).
Local Abbreviation ranked :=
  (Spec.second_ranking days_remaining memory_bank).
Local Abbreviation final := (Spec.final_score days_remaining memory_bank).
Local Abbreviation summary :=
  (PrioritySummary.priority_summary days_remaining memory_bank).

(** The ranking keeps the scoring details of every task. *)
Lemma ranking_details (tasks : list Task.t) :
  Forall
    (fun s =>
       ScoredTask.scoring_details s
       = ScoredTask.scoring_details
           (PriorityAgent._score_task days_remaining (ScoredTask.task s)))
    (ranking tasks).
Proof.
  unfold Spec.ranking, PriorityAgent.prioritize_tasks,
    PriorityAgent._apply_user_preferences.
  cbn [PriorityAgent.prioritized_tasks].
  apply assign_ranks_Forall; [intros r s H; exact H |].
  apply sorted_Forall. apply Forall_map.
  assert (H : Forall
                (fun s =>
                   ScoredTask.scoring_details s
                   = ScoredTask.scoring_details
                       (PriorityAgent._score_task days_remaining
                          (ScoredTask.task s)))
                (PriorityAgent.assign_ranks
                   (Py.sorted Binary64.ltb ScoredTask.priority_score true
                      (map (PriorityAgent._score_task days_remaining)
                           tasks)))).
  { apply assign_ranks_Forall; [intros r s H; exact H |].
    apply sorted_Forall. apply Forall_map. apply Forall_forall.
    intros t _. reflexivity. }
  eapply Forall_impl; [| exact H]. intros s Hs.
  unfold PriorityAgent.adjust.
  destruct (Task.category (ScoredTask.task s)) as [c |]; [| exact Hs].
  destruct (Py.in_str c _); exact Hs.
Qed.

Lemma len_filter_ranking (f : Task.t -> bool) (tasks : list Task.t) :
  Py.len (filter (fun s => f (ScoredTask.task s)) (ranking tasks))
  = Py.len (filter f tasks).
Proof.
  rewrite <- (len_map ScoredTask.task), <- filter_map_swap.
  rewrite (ranking_tasks days_remaining memory_bank tasks).
  apply len_perm, filter_perm, second_ranking_perm.
Qed.

(** X9.  The summary counts every task of the input, and under ["high"],
    ["medium"] and ["low"] the tasks whose priority is that very string.  A
    task with no priority or with another one is scored as a medium task
    but counted under none of the three, so the three counts add up to the
    total exactly when every task names one of the three priorities. *)
Theorem X9_summary_counts (tasks : list Task.t) :
  let s := summary tasks in
  let c := PrioritySummary.by_priority s in
  PrioritySummary.total_tasks s = Py.len tasks
  /\ PrioritySummary.high c
     = Py.len (filter (PrioritySummary.priority_is "high") tasks)
  /\ PrioritySummary.medium c
     = Py.len (filter (PrioritySummary.priority_is "medium") tasks)
  /\ PrioritySummary.low c
     = Py.len (filter (PrioritySummary.priority_is "low") tasks)
  /\ (PrioritySummary.high c + PrioritySummary.medium c
      + PrioritySummary.low c = PrioritySummary.total_tasks s
      <-> forallb PrioritySummary.named_priority tasks = true).
Proof.
  intros s c. subst c s.
  unfold PrioritySummary.priority_summary, PrioritySummary._generate_summary.
  cbn [PrioritySummary.total_tasks PrioritySummary.by_priority
       PrioritySummary.high PrioritySummary.medium PrioritySummary.low].
  fold (ranking tasks). rewrite !count_len.
  assert (Htotal : Py.len (ranking tasks) = Py.len tasks).
  { rewrite <- (len_map ScoredTask.task).
    rewrite (ranking_tasks days_remaining memory_bank tasks).
    apply len_perm, second_ranking_perm. }
  assert (Hp : forall p,
             Py.len (filter (PrioritySummary.has_priority p) (ranking tasks))
             = Py.len (filter (PrioritySummary.priority_is p) tasks)).
  { intros p. apply (len_filter_ranking (PrioritySummary.priority_is p)). }
  rewrite Htotal, !Hp. repeat split; try reflexivity.
  - intros H. apply none_filtered.
    pose proof (priority_partition tasks). lia.
  - intros H. apply none_filtered in H.
    pose proof (priority_partition tasks). lia.
Qed.

(** X10.  The summary's count of urgent tasks is the number of tasks of
    the input whose deadline is a date the scorer can read that lies at
    most one day ahead.  A deadline that has passed counts, a deadline that
    cannot be read does not, and neither does a missing one. *)
Theorem X10_summary_urgent_tasks (tasks : list Task.t) :
  PrioritySummary.urgent_tasks_count (summary tasks)
  = Py.len (filter (PrioritySummary.due_within_a_day days_remaining) tasks).
Proof.
  unfold PrioritySummary.priority_summary, PrioritySummary._generate_summary.
  cbn [PrioritySummary.urgent_tasks_count]. fold (ranking tasks).
  rewrite <- (len_filter_ranking
                (PrioritySummary.due_within_a_day days_remaining)).
  f_equal. apply filter_ext_in. intros s Hs.
  pose proof (ranking_details tasks) as D. rewrite Forall_forall in D.
  rewrite <- urgent_scored. unfold PrioritySummary.is_urgent.
  rewrite (D s Hs). reflexivity.
Qed.

(** X11.  The summary lists the first three entries of the ranking, or all
    of them when there are fewer: entry [i] has the rank [i + 1], the name
    and the final score of the task at that place, and no task further down
    the ranking, listed or not, has a higher final score. *)
Theorem X11_summary_top_three (tasks : list Task.t) :
  let top := PrioritySummary.top_3_tasks (summary tasks) in
  List.length top = Nat.min 3 (List.length tasks)
  /\ forall (i : nat) (e : PrioritySummary.top_task),
       nth_error top i = Some e ->
       PrioritySummary.rank e = Some (Z.of_nat i + 1)
       /\ exists t : Task.t,
            nth_error (ranked tasks) i = Some t
            /\ PrioritySummary.name e = Py.get (Task.name t) "Unnamed Task"
            /\ PrioritySummary.score e = final t
            /\ forall (j : nat) (u : Task.t),
                 (i < j)%nat -> nth_error (ranked tasks) j = Some u ->
                 Binary64.ltb (PrioritySummary.score e) (final u) = false.
Proof.
  intros top. subst top.
  unfold PrioritySummary.priority_summary, PrioritySummary._generate_summary.
  cbn [PrioritySummary.top_3_tasks]. fold (ranking tasks).
  pose proof (ranking_tasks days_remaining memory_bank tasks) as Htasks.
  split.
  - rewrite length_map, length_firstn.
    rewrite <- (length_map ScoredTask.task), Htasks.
    rewrite (Permutation_length
               (second_ranking_perm days_remaining memory_bank tasks)).
    reflexivity.
  - intros i e H. rewrite nth_error_map, nth_error_firstn in H.
    destruct (Nat.ltb i 3); [| discriminate H].
    destruct (nth_error (ranking tasks) i) as [s |] eqn:Hs;
      [| discriminate H].
    inversion H; subst e. clear H.
    cbn [PrioritySummary.rank PrioritySummary.name PrioritySummary.score].
    split.
    { unfold Spec.ranking, PriorityAgent.prioritize_tasks,
        PriorityAgent._apply_user_preferences in Hs.
      cbn [PriorityAgent.prioritized_tasks] in Hs.
      eapply rank_assign_ranks. exact Hs. }
    exists (ScoredTask.task s).
    assert (Ht : nth_error (ranked tasks) i = Some (ScoredTask.task s))
      by (rewrite <- Htasks; apply map_nth_error; exact Hs).
    assert (Hscore : ScoredTask.priority_score s = final (ScoredTask.task s)).
    { pose proof (ranking_scores days_remaining memory_bank tasks) as V.
      rewrite Forall_forall in V.
      specialize (V s (nth_error_In _ _ Hs)).
      unfold Spec.view, Spec.final_view in V. inversion V. reflexivity. }
    split; [exact Ht |]. split; [reflexivity |]. split; [exact Hscore |].
    intros j u Hij Hu. rewrite Hscore.
    destruct (StronglySorted_nth _ _
                (second_ranking_sorted days_remaining memory_bank tasks)
                i j _ _ Hij Ht Hu) as [Hgo _].
    exact Hgo.
Qed.

End Summary.

(** ** The memory bank's dicts *)

Section DictFacts.

Context {K V : Type} (eqb : K -> K -> bool).
Hypothesis eqb_eq : forall a b : K, eqb a b = true <-> a = b.

Lemma eqb_same (a : K) : eqb a a = true.
Proof. apply eqb_eq. reflexivity. Qed.

Lemma eqb_other (a b : K) : a <> b -> eqb a b = false.
Proof.
  intros N. destruct (eqb a b) eqn:E; [| reflexivity].
  apply eqb_eq in E. contradiction.
Qed.

(** Lookup after assignment. *)
Lemma get_set (d : list (K * V)) (k h : K) (v : V) :
  PyDict.get eqb (PyDict.set eqb d k v) h
  = if eqb k h then Some v else PyDict.get eqb d h.
Proof.
  induction d as [| [k' v'] d IH]; simpl.
  - reflexivity.
  - destruct (eqb k' k) eqn:E; simpl.
    + apply eqb_eq in E. subst k'. destruct (eqb k h); reflexivity.
    + rewrite IH. destruct (eqb k' h) eqn:E'; [| reflexivity].
      apply eqb_eq in E'. subst k'.
      destruct (eqb k h) eqn:E''; [| reflexivity].
      apply eqb_eq in E''. subst k. rewrite eqb_same in E. discriminate E.
Qed.

Lemma set_keys (d : list (K * V)) (k h : K) (v : V) :
  In h (map fst (PyDict.set eqb d k v)) -> In h (map fst d) \/ h = k.
Proof.
  induction d as [| [k' v'] d IH]; simpl.
  - intros [H | []]. right. congruence.
  - destruct (eqb k' k) eqn:E; simpl.
    + apply eqb_eq in E. subst k'. tauto.
    + intros [H | H]; [tauto |]. destruct (IH H); tauto.
Qed.

Lemma set_NoDup (d : list (K * V)) (k : K) (v : V) :
  NoDup (map fst d) -> NoDup (map fst (PyDict.set eqb d k v)).
Proof.
  induction d as [| [k' v'] d IH]; simpl; intros H.
  - constructor; [intros [] | constructor].
  - inversion H as [| ? ? Hk Hd]; subst.
    destruct (eqb k' k) eqn:E; simpl.
    + apply eqb_eq in E. subst k'. constructor; assumption.
    + constructor; [| apply IH; exact Hd].
      intros Hin. destruct (set_keys _ _ _ _ Hin) as [Hin' | ->].
      * contradiction.
      * rewrite eqb_same in E. discriminate E.
Qed.

Lemma get_In (d : list (K * V)) (k : K) (v : V) :
  PyDict.get eqb d k = Some v -> In (k, v) d.
Proof.
  induction d as [| [k' v'] d IH]; simpl; [discriminate |].
  destruct (eqb k' k) eqn:E.
  - apply eqb_eq in E. subst k'. intros H. inversion H. left. reflexivity.
  - intros H. right. apply IH. exact H.
Qed.

Lemma In_get (d : list (K * V)) (k : K) (v : V) :
  NoDup (map fst d) -> In (k, v) d -> PyDict.get eqb d k = Some v.
Proof.
  induction d as [| [k' v'] d IH]; simpl; intros N H; [destruct H |].
  inversion N as [| ? ? Hk Hd]; subst.
  destruct H as [H | H].
  - inversion H; subst. rewrite eqb_same. reflexivity.
  - destruct (eqb k' k) eqn:E.
    + apply eqb_eq in E. subst k'. exfalso. apply Hk.
      apply (in_map fst) in H. exact H.
    + apply IH; assumption.
Qed.

End DictFacts.

(** [max] returns an item of the dict with the largest value. *)
Lemma max_from_spec {K : Type} (items : list (K * Z)) :
  forall best : K * Z,
    (PyDict.max_from best items = best \/ In (PyDict.max_from best items) items)
    /\ snd best <= snd (PyDict.max_from best items)
    /\ forall x, In x items -> snd x <= snd (PyDict.max_from best items).
Proof.
  induction items as [| y items IH]; intros best; simpl.
  - split; [left; reflexivity |]. split; [lia | intros x []].
  - destruct (IH (if snd best <? snd y then y else best))
      as (Hin & Hbest & Hall).
    destruct (Z.ltb_spec (snd best) (snd y)) as [L | L].
    + split; [destruct Hin as [-> | Hin]; auto |].
      split; [lia |]. intros x [<- | Hx]; [exact Hbest | apply Hall; exact Hx].
    + split; [destruct Hin as [-> | Hin]; auto |].
      split; [exact Hbest |].
      intros x [<- | Hx]; [lia | apply Hall; exact Hx].
Qed.

Lemma max_item_spec {K : Type} (items : list (K * Z)) (m : K * Z) :
  PyDict.max_item items = Some m ->
  In m items /\ forall x, In x items -> snd x <= snd m.
Proof.
  destruct items as [| y items]; simpl; [discriminate |].
  intros H. inversion H; subst m. clear H.
  destruct (max_from_spec items y) as (Hin & Hbest & Hall).
  split; [destruct Hin as [-> | Hin]; auto |].
  intros x [<- | Hx]; [exact Hbest | apply Hall; exact Hx].
Qed.

Section Hours.

Variable hour_of : datetime -> Z.

Local Abbreviation counts := (MemoryDicts.hour_counts_of hour_of).
Local Abbreviation tally := (MemoryDicts.completed_in hour_of).

Lemma Z_eqb_eq (a b : Z) : Z.eqb a b = true <-> a = b.
Proof. apply Z.eqb_eq. Qed.

Lemma tally_nonneg (h : Z) (history : list MemoryBank.task_record) :
  0 <= tally h history.
Proof. unfold MemoryDicts.completed_in, Py.len. lia. Qed.

Lemma tally_app (h : Z) (history : list MemoryBank.task_record)
    (r : MemoryBank.task_record) :
  tally h (history ++ [r])
  = tally h history
    + (if hour_of (MemoryBank.completed_at r) =? h then 1 else 0).
Proof.
  unfold MemoryDicts.completed_in, Py.len.
  rewrite filter_app, length_app. cbn [filter].
  destruct (hour_of (MemoryBank.completed_at r) =? h); cbn [List.length]; lia.
Qed.

(** The dict of the loop holds, for every hour that occurs in the history,
    the number of its records, once. *)
Lemma hour_counts_spec (history : list MemoryBank.task_record) :
  NoDup (map fst (counts history))
  /\ forall h : Z,
       PyDict.get Z.eqb (counts history) h
       = if tally h history =? 0 then None else Some (tally h history).
Proof.
  induction history as [| r history [Hnd Hget]] using rev_ind.
  - split; [constructor | reflexivity].
  - unfold MemoryDicts.hour_counts_of in *. rewrite fold_left_app.
    cbn [fold_left]. unfold MemoryDicts.count_hour.
    set (d := fold_left _ history []) in *.
    set (x := hour_of (MemoryBank.completed_at r)).
    split; [apply (set_NoDup Z.eqb Z_eqb_eq); exact Hnd |].
    intros h. rewrite (get_set Z.eqb Z_eqb_eq), tally_app. fold x.
    pose proof (tally_nonneg h history) as Hn.
    destruct (Z.eqb_spec x h) as [-> | N].
    + rewrite Hget.
      destruct (Z.eqb_spec (tally h history) 0) as [E | E]; cbn [Py.get].
      * rewrite E. reflexivity.
      * destruct (Z.eqb_spec (tally h history + 1) 0); [lia | reflexivity].
    + rewrite Hget, Z.add_0_r. reflexivity.
Qed.

(** The hour [max] finds is one in which no fewer tasks were completed
    than in any other. *)
Lemma most_productive_hour_spec (history : list MemoryBank.task_record) :
  history <> [] ->
  exists h : Z,
    option_map fst (PyDict.max_item (counts history)) = Some h
    /\ 0 < tally h history
    /\ forall h' : Z, tally h' history <= tally h history.
Proof.
  intros Hne. destruct (hour_counts_spec history) as [Hnd Hget].
  destruct (PyDict.max_item (counts history)) as [[h c] |] eqn:M.
  - destruct (max_item_spec _ _ M) as [Hin Hmax].
    exists h. split; [reflexivity |].
    pose proof (In_get Z.eqb Z_eqb_eq _ _ _ Hnd Hin) as G.
    rewrite Hget in G.
    destruct (Z.eqb_spec (tally h history) 0) as [E | E]; [discriminate G |].
    inversion G; subst c. pose proof (tally_nonneg h history).
    split; [lia |]. intros h'.
    pose proof (tally_nonneg h' history).
    specialize (Hget h').
    destruct (Z.eqb_spec (tally h' history) 0) as [E' | E']; [lia |].
    apply (get_In Z.eqb Z_eqb_eq) in Hget.
    apply (Hmax _ Hget).
  - exfalso. destruct history as [| r history]; [contradiction |].
    specialize (Hget (hour_of (MemoryBank.completed_at r))).
    destruct (counts (r :: history)) as [| y d]; [| discriminate M].
    cbn [PyDict.get] in Hget.
    destruct (Z.eqb_spec
                (tally (hour_of (MemoryBank.completed_at r)) (r :: history))
                0) as [E | E]; [| discriminate Hget].
    unfold MemoryDicts.completed_in, Py.len in E. cbn [filter] in E.
    rewrite Z.eqb_refl in E. cbn [List.length] in E. lia.
Qed.

End Hours.

Lemma string_eqb_eq (a b : string) : String.eqb a b = true <-> a = b.
Proof. apply String.eqb_eq. Qed.




(** X14.  Over any run of [store_task_completion] calls a bank that starts
    within the bound holds the last 1000 of all records, the stored ones
    and the new ones in the order of the calls; the preference the scorer
    reads is not touched, and after the last call the disk holds what the
    memory holds. *)
Theorem X14_run_of_completions
    (calls : list Spec.completion) (bank : MemoryBank.t) :
  (List.length (Spec.history bank) <= 1000)%nat ->
  let bank' := Spec.store_all bank calls in
  Spec.history bank'
  = MemoryBank.last_1000
      (Spec.history bank
       ++ map (fun c => Spec.record_of (fst (fst c)) (snd (fst c)) (snd c))
              calls)
  /\ (List.length (Spec.history bank') <= 1000)%nat
  /\ (forall default : list string,
        MemoryBank.get_morning_categories bank' default
        = MemoryBank.get_morning_categories bank default)
  /\ (calls <> [] -> MemoryBank.on_disk bank' = MemoryBank.in_memory bank').
Proof.
  intros Hlen bank'. subst bank'.
  split; [apply history_is_last_1000; exact Hlen |].
  split; [rewrite (history_is_last_1000 calls bank Hlen),
            last_1000_length; lia |].
  split.
  - clear Hlen. intros default. revert bank. unfold Spec.store_all.
    induction calls as [| c calls IH]; intros bank; [reflexivity |].
    cbn [fold_left]. rewrite IH. reflexivity.
  - clear Hlen. revert bank. unfold Spec.store_all.
    induction calls as [| c calls IH]; intros bank Hne; [contradiction |].
    cbn [fold_left]. destruct calls as [| c' calls'].
    + reflexivity.
    + apply IH. discriminate.
Qed.

Lemma X14_witness :
  let bank' :=
    Spec.store_all Examples.empty_bank
      [Inputs.one_completion; Inputs.one_completion] in
  Spec.history bank'
  = MemoryBank.last_1000
      (Spec.history Examples.empty_bank
       ++ map (fun c => Spec.record_of (fst (fst c)) (snd (fst c)) (snd c))
              [Inputs.one_completion; Inputs.one_completion])
  /\ (List.length (Spec.history bank') <= 1000)%nat
  /\ (forall default : list string,
        MemoryBank.get_morning_categories bank' default
        = MemoryBank.get_morning_categories Examples.empty_bank default)
  /\ ([Inputs.one_completion; Inputs.one_completion] <> [] ->
      MemoryBank.on_disk bank' = MemoryBank.in_memory bank').
Proof.
  apply (X14_run_of_completions
           [Inputs.one_completion; Inputs.one_completion]
           Examples.empty_bank).
  simpl. lia.
Defined.

(** ** The reflection's status and recommendations *)

Section Thresholds.

Local Open Scope Q_scope.

(** The product with 100 keeps the order of two quotients of counts. *)
Lemma times_100_mono (q1 q2 : Binary64.float) (r1 r2 : Binary64.float) :
  Binary64.nearest (Binary64.to_Q q1 * 100) r1 ->
  Binary64.nearest (Binary64.to_Q q2 * 100) r2 ->
  Binary64.to_Q q1 <= Binary64.to_Q q2 ->
  Binary64.to_Q r1 <= Binary64.to_Q r2.
Proof.
  intros H1 H2 H. apply (nearest_mono _ _ _ _ H1 H2). lra.
Qed.

(** The product of a float constant with 100. *)
Lemma times_100_nearest (m : positive) (e : Z) :
  Binary64.normal (S754_finite false m e) = true ->
  (e <= 900)%Z ->
  Binary64.nearest (Binary64.to_Q (S754_finite false m e) * 100)
    (S754_finite false m e * Binary64.of_int 100)%f64.
Proof.
  intros Hn He. rewrite of_int_100.
  destruct (normal_inv _ Hn) as (m' & e' & Ef & _ & Be).
  inversion Ef; subst m' e'.
  eapply nearest_comp; [| apply mul_nearest; [exact Hn | reflexivity | lia]].
  assert (H100 : Binary64.to_Q (S754_finite false 7036874417766400 (-46))
                 == 100) by (vm_compute; reflexivity).
  rewrite H100. reflexivity.
Qed.

(** At least half completed: the float rate is at least 50. *)
Lemma float_rate_half (c p : positive) :
  (Zpos c < 2 ^ 63)%Z -> (Zpos p < 2 ^ 63)%Z ->
  (Zpos p <= 2 * Zpos c)%Z ->
  Binary64.leb (Binary64.of_int 50)
    (Binary64.lit (Zpos c) p * Binary64.of_int 100)%f64 = true.
Proof.
  intros Hc Hp H. destruct (float_rate_nearest c p Hc Hp) as [Hq Hr].
  assert (N50 : Binary64.normal (Binary64.of_int 50) = true)
    by reflexivity.
  assert (V50 : Binary64.to_Q (Binary64.of_int 50) == 50)
    by (vm_compute; reflexivity).
  assert (Nh : Binary64.normal (Binary64.lit 1 2) = true) by reflexivity.
  assert (Vh : Binary64.to_Q (Binary64.lit 1 2) == 1 # 2)
    by (vm_compute; reflexivity).
  assert (Hx : 1 # 2 <= Zpos c # p).
  { unfold Qle. cbn [Qnum Qden]. lia. }
  pose proof (nearest_ge _ _ _ Nh Hq ltac:(rewrite Vh; exact Hx)) as Q1.
  rewrite Vh in Q1.
  apply leb_normal; [exact N50 | exact (nearest_normal _ _ Hr) |].
  rewrite V50.
  pose proof (nearest_ge _ _ _ N50 Hr ltac:(rewrite V50; lra)) as R.
  rewrite V50 in R. exact R.
Qed.

(** Less than half completed, of at most 2^53 planned: below 50. *)
Lemma float_rate_below_half (c p : positive) :
  (Zpos p <= 2 ^ 53)%Z -> (2 * Zpos c < Zpos p)%Z ->
  Binary64.leb (Binary64.of_int 50)
    (Binary64.lit (Zpos c) p * Binary64.of_int 100)%f64 = false
  /\ Binary64.ltb (Binary64.lit (Zpos c) p * Binary64.of_int 100)%f64
       (Binary64.of_int 50) = true.
Proof.
  intros Hp H.
  destruct (float_rate_nearest c p ltac:(lia) ltac:(lia)) as [Hq Hr].
  assert (Na : Binary64.normal (S754_finite false 9007199254740991 (-54))
               = true) by reflexivity.
  assert (Va : Binary64.to_Q (S754_finite false 9007199254740991 (-54))
               == 9007199254740991 # 18014398509481984)
    by (vm_compute; reflexivity).
  assert (Hx : Zpos c # p
               <= Binary64.to_Q (S754_finite false 9007199254740991 (-54))).
  { rewrite Va. unfold Qle. cbn [Qnum Qden]. lia. }
  pose proof (nearest_le _ _ _ Na Hq Hx) as Q1.
  pose proof (times_100_nearest _ _ Na ltac:(lia)) as Hb.
  pose proof (times_100_mono _ _ _ _ Hr Hb Q1) as R.
  assert (Vb : Binary64.to_Q
                 (S754_finite false 9007199254740991 (-54)
                  * Binary64.of_int 100)%f64 < 50)
    by (vm_compute; reflexivity).
  assert (N50 : Binary64.normal (Binary64.of_int 50) = true)
    by reflexivity.
  assert (V50 : Binary64.to_Q (Binary64.of_int 50) == 50)
    by (vm_compute; reflexivity).
  assert (L : Binary64.to_Q (Binary64.lit (Zpos c) p
                             * Binary64.of_int 100)%f64 < 50) by lra.
  split.
  - destruct (Binary64.leb _ _) eqn:E; [| reflexivity].
    apply leb_normal in E; [| exact N50 | exact (nearest_normal _ _ Hr)].
    rewrite V50 in E. lra.
  - apply ltb_normal; [exact (nearest_normal _ _ Hr) | exact N50 |].
    rewrite V50. exact L.
Qed.

(** At least nine tenths completed: the float rate is at least 90. *)
Lemma float_rate_nine_tenths (c p : positive) :
  (Zpos c < 2 ^ 63)%Z -> (Zpos p < 2 ^ 63)%Z ->
  (9 * Zpos p <= 10 * Zpos c)%Z ->
  Binary64.leb (Binary64.of_int 90)
    (Binary64.lit (Zpos c) p * Binary64.of_int 100)%f64 = true.
Proof.
  intros Hc Hp H. destruct (float_rate_nearest c p Hc Hp) as [Hq Hr].
  assert (H9 : Binary64.nearest (9 # 10) (Binary64.lit 9 10))
    by (apply lit_nearest; reflexivity).
  assert (Hx : 9 # 10 <= Zpos c # p).
  { unfold Qle. cbn [Qnum Qden]. lia. }
  assert (E9 : Binary64.lit 9 10
               = S754_finite false 8106479329266893 (-53))
    by reflexivity.
  rewrite E9 in H9.
  pose proof (nearest_mono _ _ _ _ H9 Hq Hx) as Q1.
  pose proof (times_100_nearest 8106479329266893 (-53)
                (nearest_normal _ _ H9) ltac:(lia)) as Hb.
  pose proof (times_100_mono _ _ _ _ Hb Hr Q1) as R.
  destruct of_int_90_value as [N90 V90].
  assert (Vb : Binary64.to_Q
                 (S754_finite false 8106479329266893 (-53)
                  * Binary64.of_int 100)%f64 == 90)
    by (vm_compute; reflexivity).
  apply leb_normal; [exact N90 | exact (nearest_normal _ _ Hr) |].
  rewrite V90. lra.
Qed.

(** Less than nine tenths completed, of at most 2^51 planned: below 90. *)
Lemma float_rate_below_nine_tenths (c p : positive) :
  (Zpos p <= 2 ^ 51)%Z -> (10 * Zpos c < 9 * Zpos p)%Z ->
  Binary64.leb (Binary64.of_int 90)
    (Binary64.lit (Zpos c) p * Binary64.of_int 100)%f64 = false.
Proof.
  intros Hp H.
  destruct (float_rate_nearest c p ltac:(lia) ltac:(lia)) as [Hq Hr].
  assert (Hg : Binary64.nearest
                 ((9 * 2 ^ 51 - 1) # (10 * 2 ^ 51))
                 (Binary64.lit (9 * 2 ^ 51 - 1) (10 * 2 ^ 51)))
    by (apply lit_nearest; reflexivity).
  assert (Hx : Zpos c # p <= (9 * 2 ^ 51 - 1) # (10 * 2 ^ 51)).
  { unfold Qle. cbn [Qnum Qden]. lia. }
  assert (Eg : Binary64.lit (9 * 2 ^ 51 - 1) (10 * 2 ^ 51)
               = S754_finite false 8106479329266892 (-53))
    by reflexivity.
  rewrite Eg in Hg.
  pose proof (nearest_mono _ _ _ _ Hq Hg Hx) as Q1.
  pose proof (times_100_nearest 8106479329266892 (-53)
                (nearest_normal _ _ Hg) ltac:(lia)) as Hb.
  pose proof (times_100_mono _ _ _ _ Hr Hb Q1) as R.
  destruct of_int_90_value as [N90 V90].
  assert (Vb : Binary64.to_Q
                 (S754_finite false 8106479329266892 (-53)
                  * Binary64.of_int 100)%f64 < 90)
    by (vm_compute; reflexivity).
  destruct (Binary64.leb _ _) eqn:E; [| reflexivity].
  apply leb_normal in E; [| exact N90 | exact (nearest_normal _ _ Hr)].
  rewrite V90 in E. lra.
Qed.

End Thresholds.

(** The status by the three comparisons. *)
Lemma status_by_comparisons (rate : Binary64.float) :
  (ReflectionAgent._get_completion_status rate = "excellent"
   <-> Binary64.leb (Binary64.of_int 90) rate = true)
  /\ (ReflectionAgent._get_completion_status rate = "needs_improvement"
      <-> Binary64.leb (Binary64.of_int 90) rate = false
          /\ Binary64.leb (Binary64.of_int 70) rate = false
          /\ Binary64.leb (Binary64.of_int 50) rate = false).
Proof.
  unfold ReflectionAgent._get_completion_status.
  destruct (Binary64.leb (Binary64.of_int 90) rate);
    destruct (Binary64.leb (Binary64.of_int 70) rate);
    destruct (Binary64.leb (Binary64.of_int 50) rate);
    split; split; intros H; try reflexivity; try discriminate H;
    try (destruct H as (H1 & H2 & H3); discriminate); auto.
Qed.

(** A normal float below 50 is below 70 and 90. *)
Lemma below_50_below_the_rest (rate : Binary64.float) :
  Binary64.normal rate = true ->
  Binary64.leb (Binary64.of_int 50) rate = false ->
  Binary64.leb (Binary64.of_int 70) rate = false
  /\ Binary64.leb (Binary64.of_int 90) rate = false.
Proof.
  intros Hn H.
  assert (L : (Binary64.to_Q rate < 50)%Q).
  { apply Qnot_le_lt. intros C.
    assert (E : Binary64.leb (Binary64.of_int 50) rate = true).
    { apply leb_normal; [reflexivity | exact Hn |].
      assert (V : (Binary64.to_Q (Binary64.of_int 50) == 50)%Q)
        by (vm_compute; reflexivity).
      rewrite V. exact C. }
    congruence. }
  split.
  - destruct (Binary64.leb (Binary64.of_int 70) rate) eqn:E;
      [| reflexivity].
    apply leb_normal in E; [| reflexivity | exact Hn].
    assert (V : (Binary64.to_Q (Binary64.of_int 70) == 70)%Q)
      by (vm_compute; reflexivity).
    rewrite V in E. lra.
  - destruct (Binary64.leb (Binary64.of_int 90) rate) eqn:E;
      [| reflexivity].
    apply leb_normal in E; [| reflexivity | exact Hn].
    assert (V : (Binary64.to_Q (Binary64.of_int 90) == 90)%Q)
      by (vm_compute; reflexivity).
    rewrite V in E. lra.
Qed.

(** The status of the float rate, by the counts.  The bound on the number
    of planned tasks keeps the float quotient on the side of nine tenths
    on which the exact quotient lies. *)
Lemma status_by_counts (completed planned : list Task.t) :
  Py.len planned <= 2 ^ 51 -> Py.len completed < 2 ^ 63 ->
  (ReflectionAgent._get_completion_status
     (ReflectionAdvice.rate completed planned) = "needs_improvement"
   <-> planned = [] \/ 2 * Py.len completed < Py.len planned)
  /\ (ReflectionAgent._get_completion_status
        (ReflectionAdvice.rate completed planned) = "excellent"
      <-> planned <> [] /\ 9 * Py.len planned <= 10 * Py.len completed)
  /\ (planned <> [] -> 2 * Py.len completed < Py.len planned ->
      Binary64.ltb (Spec.float_rate completed planned) (Binary64.of_int 50)
      = true).
Proof.
  intros Hp Hc. unfold ReflectionAdvice.rate, Spec.float_rate.
  pose proof (len_nonneg completed) as Hc0.
  destruct (Z.eqb_spec (Py.len planned) 0) as [E | N].
  { apply len_nil_iff in E. subst planned.
    split; [split; [auto | reflexivity] |].
    split; [split; [discriminate | intros [H _]; contradiction] |].
    intros H. contradiction. }
  assert (Hne : planned <> []) by (rewrite <- len_nil_iff; exact N).
  pose proof (len_pos planned Hne) as Hp0.
  destruct (Py.len planned) as [| p | p] eqn:Ep; try lia.
  cbn [Z.to_pos].
  destruct (Py.len completed) as [| c | c] eqn:Ec; try lia.
  { split; [split; [right; lia | reflexivity] |].
    split; [split; [discriminate | intros [_ H]; lia] |].
    reflexivity. }
  destruct (float_rate_nearest c p ltac:(lia) ltac:(lia)) as [_ Hr].
  pose proof (nearest_normal _ _ Hr) as Nr.
  destruct (status_by_comparisons
              (Binary64.lit (Zpos c) p * Binary64.of_int 100)%f64)
    as [Sx Sn].
  rewrite Sx, Sn.
  split; [| split].
  - destruct (Z.lt_ge_cases (2 * Zpos c) (Zpos p)) as [L | G].
    + destruct (float_rate_below_half c p ltac:(lia) L) as [B _].
      destruct (below_50_below_the_rest _ Nr B) as [B70 B90].
      split; [intros _; right; exact L | intros _; auto].
    + pose proof (float_rate_half c p ltac:(lia) ltac:(lia) ltac:(lia))
        as B.
      split; [intros (_ & _ & C); congruence |].
      intros [C | C]; [contradiction | lia].
  - destruct (Z.le_gt_cases (9 * Zpos p) (10 * Zpos c)) as [L | G].
    + pose proof (float_rate_nine_tenths c p ltac:(lia) ltac:(lia) L)
        as B.
      split; [intros _; split; assumption | intros _; exact B].
    + pose proof (float_rate_below_nine_tenths c p ltac:(lia) ltac:(lia))
        as B.
      split; [intros C; congruence | intros [_ C]; lia].
  - intros _ L. apply (float_rate_below_half c p ltac:(lia) L).
Qed.

(** Which recommendations the status brings. *)
Lemma recommendations_of_status
    (completion : ReflectionAgent.completion_analysis)
    (patterns : ReflectionAgent.pattern_insights)
    (learnings : ReflectionAgent.learning_insights) :
  let recommendations :=
    ReflectionAgent._generate_recommendations completion patterns
      learnings in
  (In ReflectionAdvice.reduce_workload recommendations
   <-> ReflectionAgent.status completion = "needs_improvement")
  /\ (In ReflectionAdvice.take_more recommendations
      <-> ReflectionAgent.status completion = "excellent")
  /\ (List.length recommendations <= 3)%nat.
Proof.
  intros recommendations. subst recommendations.
  unfold ReflectionAgent._generate_recommendations.
  destruct (String.eqb_spec (ReflectionAgent.status completion)
              "needs_improvement") as [E1 | N1];
    [| destruct (String.eqb_spec (ReflectionAgent.status completion)
                   "excellent") as [E2 | N2]];
    (destruct (ReflectionAgent.get_productivity_hours patterns)
       as [[| peak ?] |]);
    (destruct (ReflectionAgent.get_estimation_tendency patterns) as [t |];
     [destruct (String.eqb t "underestimates");
      [| destruct (String.eqb t "overestimates")] |]);
    cbn [app In List.length];
    (split; [| split; [| lia]]); split; intros H;
    repeat match goal with
           | H : _ \/ _ |- _ => destruct H
           end;
    try contradiction; try discriminate; try congruence;
    try (left; reflexivity).
Qed.

(** The decision, when something was planned. *)
Lemma should_replan_planned (completed planned : list Task.t) :
  planned <> [] ->
  Py.len completed < 2 ^ 1023 -> Py.len planned < 2 ^ 1021 ->
  exists d : ReflectionAgent.decision,
    ReflectionAgent._should_replan completed planned = Ok d
    /\ (Binary64.ltb (Spec.float_rate completed planned)
          (Binary64.of_int 50) = true ->
        ReflectionAgent.needed d = true).
Proof.
  intros Hne Hc Hp. pose proof (len_pos planned Hne) as Hp0.
  pose proof (len_nonneg completed) as Hc0.
  unfold ReflectionAgent._should_replan.
  destruct (Z.eqb_spec (Py.len planned) 0) as [E | _]; [lia |].
  rewrite truediv_counts by lia. cbn [bind].
  fold (Spec.float_rate completed planned).
  destruct (Binary64.ltb (Spec.float_rate completed planned)
              (Binary64.of_int 50));
    destruct (Py.len (filter _ planned) >=? 2);
    eexists; (split; [reflexivity |]); intros H;
    try reflexivity; discriminate H.
Qed.

(** Both steps on the counts return for lists of CPython. *)
Lemma counts_steps_return (completed planned : list Task.t) :
  Py.len completed < 2 ^ 63 -> Py.len planned < 2 ^ 63 ->
  exists (a : ReflectionAgent.completion_analysis)
         (d : ReflectionAgent.decision),
    ReflectionAgent._analyze_completion completed planned = Ok a
    /\ ReflectionAgent._should_replan completed planned = Ok d
    /\ ReflectionAgent.planned_tasks a = Py.len planned
    /\ ReflectionAgent.completed_tasks a = Py.len completed
    /\ ReflectionAgent.incomplete_tasks a
       = Py.len planned - Py.len completed
    /\ ReflectionAgent.status a
       = ReflectionAgent._get_completion_status
           (ReflectionAdvice.rate completed planned)
    /\ (planned = [] -> ReflectionAgent.needed d = false)
    /\ (planned <> [] ->
        Binary64.ltb (Spec.float_rate completed planned)
          (Binary64.of_int 50) = true ->
        ReflectionAgent.needed d = true).
Proof.
  intros Hc Hp. unfold ReflectionAdvice.rate.
  destruct planned as [| t planned].
  - eexists. eexists. split; [reflexivity |]. split; [reflexivity |].
    repeat split. intros H. contradiction.
  - assert (Hne : t :: planned <> []) by discriminate.
    rewrite analyze_completion_planned by (try exact Hne; lia).
    destruct (should_replan_planned completed (t :: planned) Hne
                ltac:(lia) ltac:(lia)) as (d & Hd & Hneed).
    rewrite Hd. pose proof (len_pos _ Hne) as Hp0.
    destruct (Z.eqb_spec (Py.len (t :: planned)) 0) as [E | _]; [lia |].
    eexists. exists d. split; [reflexivity |]. split; [reflexivity |].
    cbn [ReflectionAgent.planned_tasks ReflectionAgent.completed_tasks
         ReflectionAgent.incomplete_tasks ReflectionAgent.status].
    repeat split; try discriminate. intros _. exact Hneed.
Qed.

(** What the learning step returns. *)
Lemma learn_from_session_Ok (completed : list Task.t)
    (l : ReflectionAgent.learning_insights) :
  ReflectionAgent._learn_from_session completed = Ok l ->
  ReflectionAgent.task_count l = Py.len completed
  /\ (ReflectionAgent.average_duration l = None <-> completed = []).
Proof.
  unfold ReflectionAgent._learn_from_session.
  destruct completed as [| t completed]; cbn [PlanEvaluator.is_empty];
    intros H.
  - inversion H. split; [reflexivity | split; reflexivity].
  - bind_inv H. inversion H. split; [reflexivity |].
    split; discriminate.
Qed.

Section Reflection.

Variable analyze_productivity_hours :
  list MemoryBank.task_record -> result (option (list Z)).
Variable analyze_task_duration_accuracy :
  list MemoryBank.task_record -> result (option string).
Variable identify_task_patterns :
  list MemoryBank.task_record
  -> result (option (list ReflectionAgent.top_category)).

Local Abbreviation _analyze_patterns :=
  (ReflectionAgent._analyze_patterns analyze_productivity_hours
     analyze_task_duration_accuracy identify_task_patterns).
Local Abbreviation reflect_and_learn :=
  (ReflectionAgent.reflect_and_learn analyze_productivity_hours
     analyze_task_duration_accuracy identify_task_patterns).

(** X15.  On lists of CPython, given or not, [reflect_and_learn] returns
    exactly when the analysis of the stored history and the learning step
    return: the two divisions by the number of planned tasks and the
    division by the number of completed tasks are each guarded, and a
    quotient of two counts is within the floats.  What it raises is what
    the habit analyzer raises on the history, or the [OverflowError] of an
    average duration beyond the floats.  When it returns, the analysis
    counts both lists and reports their difference as the incomplete
    tasks, which is negative when more was completed than planned; the
    learning counts the completed tasks and has an average exactly when
    there is one; and there are at most three recommendations. *)
Theorem X15_reflection_returns_with_the_history
    (task_history : list MemoryBank.task_record)
    (completed_tasks planned_tasks : option (list Task.t)) :
  let completed := Py.get completed_tasks [] in
  let planned := Py.get planned_tasks [] in
  Py.len completed < 2 ^ 63 -> Py.len planned < 2 ^ 63 ->
  (forall r : ReflectionAgent.reflection,
     reflect_and_learn task_history completed_tasks planned_tasks = Ok r ->
     ReflectionAgent.planned_tasks
       (ReflectionAgent.result_completion_analysis r) = Py.len planned
     /\ ReflectionAgent.completed_tasks
          (ReflectionAgent.result_completion_analysis r) = Py.len completed
     /\ ReflectionAgent.incomplete_tasks
          (ReflectionAgent.result_completion_analysis r)
        = Py.len planned - Py.len completed
     /\ ReflectionAgent.task_count
          (ReflectionAgent.result_learning_insights r) = Py.len completed
     /\ (ReflectionAgent.average_duration
           (ReflectionAgent.result_learning_insights r) = None
         <-> completed = [])
     /\ (List.length (ReflectionAgent.recommendations r) <= 3)%nat)
  /\ (forall (p : ReflectionAgent.pattern_insights)
             (l : ReflectionAgent.learning_insights),
        _analyze_patterns task_history = Ok p ->
        ReflectionAgent._learn_from_session completed = Ok l ->
        exists r : ReflectionAgent.reflection,
          reflect_and_learn task_history completed_tasks planned_tasks
          = Ok r)
  /\ (forall e : exn,
        reflect_and_learn task_history completed_tasks planned_tasks
        = Raise e ->
        _analyze_patterns task_history = Raise e
        \/ (e = OverflowError
            /\ ReflectionAgent._learn_from_session completed = Raise e))
  /\ _analyze_patterns [] = Ok ReflectionAgent.Insufficient.
Proof.
  intros completed planned Hc Hp.
  destruct (counts_steps_return completed planned Hc Hp)
    as (a & d & Ha & Hd & Hpl & Hco & Hin & _).
  destruct (reflect_and_learn_outcome analyze_productivity_hours
              analyze_task_duration_accuracy identify_task_patterns
              task_history completed_tasks planned_tasks a d Ha Hd)
    as (Hr & Hok & Hraise).
  split; [| split; [exact Hok | split; [exact Hraise | reflexivity]]].
  intros r H. destruct (Hr r H) as (E1 & _ & _ & _ & Hl & Hrec).
  rewrite E1, Hrec.
  destruct (learn_from_session_Ok _ _ Hl) as [Hcount Havg].
  repeat (split; [assumption |]).
  apply recommendations_of_status.
Qed.

(** X16.  On the floats of the counts the thresholds fall where they do on
    the exact rate, for at most 2^51 planned tasks: the status is
    "needs_improvement", and the reflection recommends a smaller workload,
    exactly when less than half of the planned tasks were completed or
    nothing was planned; it is "excellent", and a larger workload is
    recommended, exactly when something was planned and at least nine
    tenths of it completed.  With something planned the recommendation of
    a smaller workload comes with the decision to re-plan; with nothing
    planned it is given although no re-planning is asked for. *)
Theorem X16_workload_recommendations
    (task_history : list MemoryBank.task_record)
    (completed planned : list Task.t) :
  Py.len planned <= 2 ^ 51 -> Py.len completed < 2 ^ 63 ->
  (exists (a : ReflectionAgent.completion_analysis)
          (d : ReflectionAgent.decision),
     ReflectionAgent._analyze_completion completed planned = Ok a
     /\ ReflectionAgent._should_replan completed planned = Ok d
     /\ (ReflectionAgent.status a = "needs_improvement"
         <-> planned = [] \/ 2 * Py.len completed < Py.len planned)
     /\ (ReflectionAgent.status a = "excellent"
         <-> planned <> [] /\ 9 * Py.len planned <= 10 * Py.len completed)
     /\ (planned <> [] -> 2 * Py.len completed < Py.len planned ->
         ReflectionAgent.needed d = true)
     /\ (planned = [] -> ReflectionAgent.needed d = false))
  /\ (forall r : ReflectionAgent.reflection,
        reflect_and_learn task_history (Some completed) (Some planned)
        = Ok r ->
        (In ReflectionAdvice.reduce_workload
            (ReflectionAgent.recommendations r)
         <-> planned = [] \/ 2 * Py.len completed < Py.len planned)
        /\ (In ReflectionAdvice.take_more
               (ReflectionAgent.recommendations r)
            <-> planned <> []
                /\ 9 * Py.len planned <= 10 * Py.len completed)
        /\ (planned <> [] ->
            In ReflectionAdvice.reduce_workload
               (ReflectionAgent.recommendations r) ->
            ReflectionAgent.replan_needed r = true)
        /\ (planned = [] -> ReflectionAgent.replan_needed r = false)).
Proof.
  intros Hp Hc.
  destruct (counts_steps_return completed planned Hc ltac:(lia))
    as (a & d & Ha & Hd & _ & _ & _ & Hs & Hnone & Hneed).
  destruct (status_by_counts completed planned Hp Hc) as (Sn & Sx & Sl).
  rewrite <- Hs in Sn, Sx.
  assert (Hlow : planned <> [] ->
                 2 * Py.len completed < Py.len planned ->
                 ReflectionAgent.needed d = true).
  { intros Hne L. apply (Hneed Hne). apply (Sl Hne L). }
  split.
  { exists a, d. repeat (split; [assumption |]). exact Hnone. }
  intros r H.
  destruct (reflect_and_learn_outcome analyze_productivity_hours
              analyze_task_duration_accuracy identify_task_patterns
              task_history (Some completed) (Some planned) a d Ha Hd)
    as (Hr & _ & _).
  destruct (Hr r H) as (_ & E2 & _ & _ & _ & Hrec).
  rewrite Hrec, E2.
  destruct (recommendations_of_status a
              (ReflectionAgent.result_pattern_insights r)
              (ReflectionAgent.result_learning_insights r))
    as (Rl & Rh & _).
  rewrite Rl, Rh, Sn, Sx.
  split; [reflexivity |]. split; [reflexivity |]. split.
  - intros Hne [C | L]; [contradiction | exact (Hlow Hne L)].
  - exact Hnone.
Qed.

End Reflection.

Lemma X15_witness :
  exists r : ReflectionAgent.reflection,
    ReflectionAgent.reflect_and_learn Examples.failing_tool
      Examples.failing_tool Examples.failing_tool []
      (Some [Examples.task_a]) None = Ok r
    /\ ReflectionAgent.planned_tasks
         (ReflectionAgent.result_completion_analysis r) = 0
    /\ ReflectionAgent.completed_tasks
         (ReflectionAgent.result_completion_analysis r) = 1
    /\ ReflectionAgent.incomplete_tasks
         (ReflectionAgent.result_completion_analysis r) = -1.
Proof.
  destruct (X15_reflection_returns_with_the_history Examples.failing_tool
              Examples.failing_tool Examples.failing_tool []
              (Some [Examples.task_a]) None eq_refl eq_refl)
    as (Hr & Hok & _).
  destruct (Hok ReflectionAgent.Insufficient _ eq_refl eq_refl) as [r H].
  exists r. split; [exact H |].
  destruct (Hr r H) as (E1 & E2 & E3 & _).
  rewrite E1, E2, E3. repeat split.
Defined.

Lemma X16_witness :
  exists (a : ReflectionAgent.completion_analysis)
         (d : ReflectionAgent.decision),
    ReflectionAgent._analyze_completion [Examples.task_a]
      [Examples.task_a; Examples.task_b; Examples.standup] = Ok a
    /\ ReflectionAgent._should_replan [Examples.task_a]
         [Examples.task_a; Examples.task_b; Examples.standup] = Ok d
    /\ ReflectionAgent.status a = "needs_improvement"
    /\ ReflectionAgent.needed d = true.
Proof.
  destruct (X16_workload_recommendations Examples.failing_tool
              Examples.failing_tool Examples.failing_tool []
              [Examples.task_a]
              [Examples.task_a; Examples.task_b; Examples.standup]
              ltac:(vm_compute; discriminate) eq_refl)
    as ((a & d & Ha & Hd & Sn & _ & Hneed & _) & _).
  exists a, d. split; [exact Ha |]. split; [exact Hd |]. split.
  - apply Sn. right. vm_compute. reflexivity.
  - apply Hneed; [discriminate | vm_compute; reflexivity].
Defined.

(** ** The scheduler's exceptions *)

Lemma traverse_sort_key_raises (tasks : list Task.t) (e : exn) :
  Py.traverse PlannerAgent.sort_key tasks = Raise e ->
  e = KeyError /\ exists t, In t tasks /\ Task.priority t = None.
Proof.
  induction tasks as [| t tasks IH]; simpl; intros H; [discriminate H |].
  apply bind_Raise in H. destruct H as [H | (k & Hk & H)].
  - unfold PlannerAgent.sort_key in H.
    destruct (Task.priority t) eqn:P; simpl in H; [discriminate H |].
    inversion H. split; [reflexivity |]. exists t. auto.
  - apply bind_Raise in H. destruct H as [H | (? & _ & H)];
      [| discriminate H].
    destruct (IH H) as (-> & t' & Hin & Hp).
    split; [reflexivity |]. exists t'. auto.
Qed.

Lemma layout_KeyError (earliest latest : datetime) (tasks : list Task.t) :
  forall current : datetime,
    PlannerAgent.layout earliest latest current tasks = Raise KeyError ->
    exists t, In t tasks
              /\ (Task.name t = None \/ Task.category t = None
                  \/ Task.priority t = None).
Proof.
  induction tasks as [| t tasks IH]; intros current H; simpl in H.
  - discriminate H.
  - apply bind_Raise in H. destruct H as [H | (? & _ & H)];
      [apply add_minutes_raises in H; discriminate H |].
    apply bind_Raise in H. destruct H as [H | (? & _ & H)].
    { exists t. split; [left; reflexivity |]. left.
      destruct (Task.name t); [discriminate H | reflexivity]. }
    apply bind_Raise in H. destruct H as [H | (? & _ & H)].
    { exists t. split; [left; reflexivity |]. right. left.
      destruct (Task.category t); [discriminate H | reflexivity]. }
    apply bind_Raise in H. destruct H as [H | (? & _ & H)].
    { exists t. split; [left; reflexivity |]. right. right.
      destruct (Task.priority t); [discriminate H | reflexivity]. }
    apply bind_Raise in H. destruct H as [H | (? & _ & H)];
      [apply add_minutes_raises in H; discriminate H |].
    apply bind_Raise in H. destruct H as [H | (? & _ & H)];
      [| discriminate H].
    destruct (IH _ H) as (t' & Hin & Hm). exists t'.
    split; [right; exact Hin | exact Hm].
Qed.

(** X17.  [_schedule_tasks] raises for a reason.  A [KeyError] means that
    some task has no name, no category or no priority; a [TypeError] that
    every task has a priority and two tasks of one priority rank cannot be
    compared, the deadline of one being [None] and that of the other not;
    there is no division in it.  A task without a priority always brings
    the [KeyError], whatever else is wrong with the list, because the sort
    keys are computed before anything is compared. *)
Theorem X17_schedule_errors
    (anchor earliest latest : datetime) (tasks : list Task.t) :
  (forall e : exn,
     PlannerAgent._schedule_tasks anchor earliest latest tasks = Raise e ->
     match e with
     | KeyError =>
         exists t, In t tasks
                   /\ (Task.name t = None \/ Task.category t = None
                       \/ Task.priority t = None)
     | TypeError =>
         Forall (fun t => Task.priority t <> None) tasks
         /\ exists a b, In a tasks /\ In b tasks
              /\ Spec.task_rank a = Spec.task_rank b
              /\ Task.deadline a = Task.IsNone
              /\ Task.deadline b <> Task.IsNone
     | ZeroDivisionError => False
     | OverflowError => True
     end)
  /\ ((exists t, In t tasks /\ Task.priority t = None) ->
      PlannerAgent._schedule_tasks anchor earliest latest tasks
      = Raise KeyError).
Proof.
  unfold PlannerAgent._schedule_tasks. split.
  - intros e H. apply bind_Raise in H.
    destruct H as [H | (order & Ho & H)].
    + unfold PlannerAgent.sorted_tasks in H. apply bind_Raise in H.
      destruct H as [H | (keys & Hk & H)].
      * destruct (traverse_sort_key_raises _ _ H) as (-> & t & Hin & Hp).
        exists t. auto.
      * destruct (traverse_sort_key _ _ Hk) as [-> Hprio].
        destruct (PlannerAgent.all_comparable (map Spec.key_of tasks))
          eqn:C; [discriminate H |].
        inversion H; subst e. split; [exact Hprio |].
        destruct (all_comparable_false _ C) as (ka & kb & Ha & Hb & F).
        apply in_map_iff in Ha, Hb.
        destruct Ha as (a & <- & Ha), Hb as (b & <- & Hb).
        apply comparable_false in F.
        destruct F as [Hr [[Da Db] | [Da Db]]].
        -- exists a, b. auto.
        -- exists b, a. auto.
    + destruct (layout_raises _ _ _ _ _ H) as [-> | ->]; [| exact I].
      destruct (layout_KeyError _ _ _ _ H) as (t & Hin & Hm).
      exists t. split; [| exact Hm].
      destruct (sorted_tasks_Ok _ _ Ho) as (-> & _ & _).
      apply (Permutation_in _
               (sorted_perm PlannerAgent.key_ltb Spec.key_of false tasks)).
      exact Hin.
  - intros (t & Hin & Hp).
    assert (H : PlannerAgent.sorted_tasks tasks = Raise KeyError).
    { unfold PlannerAgent.sorted_tasks.
      destruct (Py.traverse PlannerAgent.sort_key tasks) as [keys | e]
        eqn:T.
      - exfalso. destruct (traverse_sort_key _ _ T) as [_ Hprio].
        rewrite Forall_forall in Hprio. apply (Hprio t Hin Hp).
      - destruct (traverse_sort_key_raises _ _ T) as (-> & _).
        reflexivity. }
    rewrite H. reflexivity.
Qed.

Lemma X17_witness :
  PlannerAgent._schedule_tasks Examples.nine Examples.midnight
    Examples.last_minute
    [Examples.dated_task; Examples.none_deadline_task; Inputs.unprioritized]
  = Raise KeyError.
Proof.
  apply (proj2 (X17_schedule_errors Examples.nine Examples.midnight
                  Examples.last_minute
                  [Examples.dated_task; Examples.none_deadline_task;
                   Inputs.unprioritized])).
  exists Inputs.unprioritized.
  split; [right; right; left; reflexivity | reflexivity].
Defined.

(** ** The rendering of a duration *)

Lemma str_int_inj (a b : Z) : Py.str_int a = Py.str_int b -> a = b.
Proof.
  unfold Py.str_int. intros H. apply DecimalZ.to_int_inj.
  assert (N : forall z, Z.to_int z <> Decimal.Pos Decimal.Nil
                        /\ Z.to_int z <> Decimal.Neg Decimal.Nil).
  { intros [| p | p]; simpl; split; try discriminate;
      intros E; inversion E as [E'];
      apply (DecimalPos.Unsigned.to_uint_nonnil p E'). }
  apply (f_equal NilZero.int_of_string) in H.
  rewrite !NilZero.isi in H by apply N. inversion H. reflexivity.
Qed.

Lemma uint_unmarked (d : Decimal.uint) :
  Forall (fun c => Durations.mark c = false)
         (list_ascii_of_string (NilEmpty.string_of_uint d)).
Proof. induction d; simpl; constructor; auto. Qed.

(** The digits and the sign are not marks. *)
Lemma str_int_unmarked (z : Z) :
  Forall (fun c => Durations.mark c = false)
         (list_ascii_of_string (Py.str_int z)).
Proof.
  unfold Py.str_int. destruct (Z.to_int z) as [d | d]; simpl.
  - destruct d; try apply (uint_unmarked (_ d)); simpl; repeat constructor.
    all: try apply uint_unmarked.
  - constructor; [reflexivity |].
    destruct d; try apply (uint_unmarked (_ d)); simpl; repeat constructor.
    all: try apply uint_unmarked.
Qed.

(** Two texts that agree are cut alike at their first mark. *)
Lemma split_at_mark (s1 s2 t1 t2 : string) (c1 c2 : ascii) :
  Forall (fun c => Durations.mark c = false) (list_ascii_of_string s1) ->
  Forall (fun c => Durations.mark c = false) (list_ascii_of_string s2) ->
  Durations.mark c1 = true -> Durations.mark c2 = true ->
  (s1 ++ String c1 t1)%string = (s2 ++ String c2 t2)%string ->
  s1 = s2 /\ c1 = c2 /\ t1 = t2.
Proof.
  revert s2. induction s1 as [| x s1 IH]; intros [| y s2] P1 P2 M1 M2 H;
    simpl in *.
  - inversion H. auto.
  - inversion H; subst. inversion P2; subst. congruence.
  - inversion H; subst. inversion P1; subst. congruence.
  - inversion H; subst. inversion P1; inversion P2; subst.
    destruct (IH s2) as (-> & -> & ->); auto.
Qed.

(** X18.  [format_duration] renders different numbers of minutes
    differently, the negative ones included: the text of a duration
    determines the duration. *)
Theorem X18_format_duration_is_injective (m n : Z) :
  Durations.format_duration m = Durations.format_duration n -> m = n.
Proof.
  unfold Durations.format_duration.
  pose proof (str_int_unmarked m). pose proof (str_int_unmarked n).
  pose proof (str_int_unmarked (m / 60)).
  pose proof (str_int_unmarked (n / 60)).
  pose proof (str_int_unmarked (m mod 60)).
  pose proof (str_int_unmarked (n mod 60)).
  destruct (Z.ltb_spec m 60), (Z.ltb_spec n 60);
    try destruct (Z.eqb_spec (m mod 60) 0);
    try destruct (Z.eqb_spec (n mod 60) 0);
    intros E; cbn [append] in E;
    apply split_at_mark in E; try assumption; try reflexivity;
    destruct E as (E1 & E2 & E3); try discriminate;
    apply str_int_inj in E1;
    pose proof (Z.div_mod m 60 ltac:(lia));
    pose proof (Z.div_mod n 60 ltac:(lia));
    try lia;
    inversion E3 as [E4];
    apply (split_at_mark _ _ "" "") in E4; try assumption; try reflexivity;
    destruct E4 as (E5 & _); apply str_int_inj in E5; lia.
Qed.

Lemma X18_witness :
  Durations.format_duration 90 = Durations.format_duration (60 + 30)
  /\ 90 = 60 + 30.
Proof.
  split; [reflexivity |].
  apply (X18_format_duration_is_injective 90 (60 + 30)). reflexivity.
Defined.

(** ** What the evaluator measures on a plan of the planner *)

Lemma sum_add {A : Type} (f g : A -> Z) (l : list A) :
  Py.sum (map (fun x => f x + g x) l)
  = Py.sum (map f l) + Py.sum (map g l).
Proof.
  induction l as [| x l IH]; cbn [map]; [reflexivity |].
  rewrite !sum_cons, IH. lia.
Qed.

Lemma sum_at_least {A : Type} (g : A -> Z) (k : Z) (l : list A) :
  (forall x, k <= g x) -> k * Py.len l <= Py.sum (map g l).
Proof.
  intros H. induction l as [| x l IH]; cbn [map].
  - unfold Py.len, Py.sum. simpl. lia.
  - rewrite sum_cons. unfold Py.len in *. cbn [List.length].
    rewrite Nat2Z.inj_succ. specialize (H x). lia.
Qed.

(** The durations of all blocks of a layout: every task with its break. *)
Lemma layout_total (earliest latest : datetime) (tasks : list Task.t) :
  forall (current : datetime) (schedule : list Block.t),
    PlannerAgent.layout earliest latest current tasks = Ok schedule ->
    PlanEvaluator.total_duration_of schedule
    = Py.sum (map (fun t =>
                     Py.get (Task.estimated_duration t) 60
                     + Spec.break_after
                         (Py.get (Task.estimated_duration t) 60))
                  tasks).
Proof.
  unfold PlanEvaluator.total_duration_of.
  induction tasks as [| t tasks IH]; intros current schedule H; simpl in H.
  - inversion H. reflexivity.
  - bind_inv H. bind_inv H. bind_inv H. bind_inv H. bind_inv H. bind_inv H.
    inversion H; subst schedule. cbn [map Block.duration].
    rewrite !sum_cons, (IH _ _ Ha4). unfold Spec.break_after. lia.
Qed.

(** X19.  The minutes the evaluator takes for the length of the working
    day are, on a plan of the planner, the work and the breaks together:
    the sum of the durations of all blocks is [total_work_minutes], which is
    the sum of the tasks' durations (60 where none is given), plus the 5 or
    15 minutes of the break after every task.  So the evaluator's bounds of
    6, 8, 9 and 10 hours are reached at least 5 minutes per task earlier
    than the work alone would reach them. *)
Theorem X19_evaluator_counts_the_breaks
    (anchor earliest latest : datetime)
    (tasks : list Task.t) (plan : Plan.t) :
  PlannerAgent.create_plan anchor earliest latest tasks = Ok plan ->
  Plan.total_work_minutes plan
  = Py.sum (map (fun t => Py.get (Task.estimated_duration t) 60) tasks)
  /\ Plan.task_count plan = Py.len tasks
  /\ PlanEvaluator.total_duration_of (Plan.scheduled_tasks plan)
     = Plan.total_work_minutes plan
       + Py.sum (map (fun t =>
                        Spec.break_after
                          (Py.get (Task.estimated_duration t) 60))
                     tasks)
  /\ Plan.total_work_minutes plan + 5 * Plan.task_count plan
     <= PlanEvaluator.total_duration_of (Plan.scheduled_tasks plan).
Proof.
  intros H. unfold PlannerAgent.create_plan in H.
  apply bind_Ok in H. destruct H as (schedule & Hs & H).
  inversion H; subst plan. clear H.
  cbn [Plan.total_work_minutes Plan.task_count Plan.scheduled_tasks].
  unfold PlannerAgent._schedule_tasks in Hs.
  apply bind_Ok in Hs. destruct Hs as (order & Ho & Hl).
  destruct (sorted_tasks_Ok _ _ Ho) as (Eorder & _ & _).
  assert (Hperm : Permutation order tasks)
    by (rewrite Eorder; apply sorted_perm).
  pose proof (layout_lines _ _ _ _ _ Hl) as Hlines.
  change (PlannerAgent.is_type Block.task) with Spec.is_task.
  assert (Hwork :
            Py.sum (map Block.duration (filter Spec.is_task schedule))
            = Py.sum (map (fun t => Py.get (Task.estimated_duration t) 60)
                          tasks)).
  { transitivity
      (Py.sum (map (fun t => Py.get (Task.estimated_duration t) 60) order)).
    - apply (f_equal (map snd)) in Hlines. rewrite !map_map in Hlines.
      apply (f_equal Py.sum). exact Hlines.
    - apply sum_perm. exact Hperm. }
  assert (Hcount : Py.len (filter Spec.is_task schedule) = Py.len tasks).
  { rewrite <- (len_map Spec.block_line), Hlines, len_map.
    apply len_perm. exact Hperm. }
  assert (Htotal :
            PlanEvaluator.total_duration_of schedule
            = Py.sum (map (fun t => Py.get (Task.estimated_duration t) 60)
                          tasks)
              + Py.sum (map (fun t =>
                               Spec.break_after
                                 (Py.get (Task.estimated_duration t) 60))
                            tasks)).
  { rewrite (layout_total _ _ _ _ _ Hl).
    rewrite (sum_perm _ _ _ Hperm).
    apply (sum_add (fun t => Py.get (Task.estimated_duration t) 60)
             (fun t => Spec.break_after
                         (Py.get (Task.estimated_duration t) 60))). }
  rewrite Hwork, Hcount, Htotal.
  repeat split; try reflexivity.
  pose proof (sum_at_least
                (fun t => Spec.break_after
                            (Py.get (Task.estimated_duration t) 60))
                5 tasks) as B.
  assert (forall t : Task.t,
            5 <= Spec.break_after (Py.get (Task.estimated_duration t) 60)).
  { intros t. unfold Spec.break_after.
    destruct (Py.get (Task.estimated_duration t) 60 >=? 60); lia. }
  specialize (B H). lia.
Qed.

Lemma X19_witness :
  exists plan : Plan.t,
    PlannerAgent.create_plan Examples.nine Examples.midnight
      Examples.last_minute [Examples.standup; Examples.task_a] = Ok plan
    /\ Plan.total_work_minutes plan
       = Py.sum (map (fun t => Py.get (Task.estimated_duration t) 60)
                     [Examples.standup; Examples.task_a])
    /\ Plan.task_count plan = Py.len [Examples.standup; Examples.task_a]
    /\ PlanEvaluator.total_duration_of (Plan.scheduled_tasks plan)
       = Plan.total_work_minutes plan
         + Py.sum (map (fun t =>
                          Spec.break_after
                            (Py.get (Task.estimated_duration t) 60))
                       [Examples.standup; Examples.task_a])
    /\ Plan.total_work_minutes plan + 5 * Plan.task_count plan
       <= PlanEvaluator.total_duration_of (Plan.scheduled_tasks plan).
Proof.
  eexists. split.
  - vm_compute. reflexivity.
  - apply (X19_evaluator_counts_the_breaks Examples.nine Examples.midnight
             Examples.last_minute [Examples.standup; Examples.task_a]).
    vm_compute. reflexivity.
Defined.
